(** * VulkEng rendering core: a shallow embedding and its verified properties

    The development follows the C++ sources under [src/graphics]:
    - [Buffer.cpp]      : [VulkanBuffer] (module [Buffer]);
    - [VulkanUtils.cpp] : layout transitions and mipmap generation (module [Utils]);
    - [Swapchain.cpp]   : swapchain construction and extent selection (module [Swapchain]);
    - [Renderer.cpp]    : the per-frame state machine (module [Renderer]) and,
      with [CommandManager.cpp], the constructor (module [Construction]);
    and, outside of it, the draw-data call of [ui/UIManager.cpp] and the
    renderer service of [core/ServiceLocator.h] (module [Service]).

    Machine integers are [Z] with the wrap-around written out, Vulkan handles
    are [Z] with [0] for [VK_NULL_HANDLE].  Calls into the Vulkan driver are
    recorded in a trace and answered by an oracle record [Driver]; logging and
    exceptions are threaded through a small state-and-error monad. *)

From Stdlib Require Import ZArith List String Bool Lia DecimalString.
Import ListNotations.
Open Scope Z_scope.

(* ================================================================== *)
(** * Vulkan vocabulary, the world and the effect monad                *)
(* ================================================================== *)

(** The enumerators and flag bits carry the values of the Vulkan headers. *)

Module Vk.

Definition Handle := Z.
Definition VK_NULL_HANDLE : Handle := 0.

Definition VkResult := Z.
Definition VK_SUCCESS : VkResult := 0.
Definition VK_SUBOPTIMAL_KHR : VkResult := 1000001003.
Definition VK_ERROR_INITIALIZATION_FAILED : VkResult := -3.
Definition VK_ERROR_MEMORY_MAP_FAILED : VkResult := -5.
Definition VK_ERROR_DEVICE_LOST : VkResult := -4.
Definition VK_ERROR_OUT_OF_DATE_KHR : VkResult := -1000001004.

(** Unsigned machine arithmetic. *)
Definition wrap32 (z : Z) : Z := z mod 2 ^ 32.
Definition wrap64 (z : Z) : Z := z mod 2 ^ 64.
(** [~x] on a 64-bit unsigned operand. *)
Definition not64 (z : Z) : Z := wrap64 (Z.lnot z).
Definition UINT32_MAX : Z := 2 ^ 32 - 1.
Definition VK_WHOLE_SIZE : Z := 2 ^ 64 - 1.

(** [VkMemoryPropertyFlagBits]. *)
Definition VK_MEMORY_PROPERTY_HOST_VISIBLE_BIT : Z := 2.
Definition VK_MEMORY_PROPERTY_HOST_COHERENT_BIT : Z := 4.

(** [VkFormatFeatureFlagBits]. *)
Definition VK_FORMAT_FEATURE_BLIT_SRC_BIT : Z := 1024.
Definition VK_FORMAT_FEATURE_BLIT_DST_BIT : Z := 2048.
Definition VK_FORMAT_FEATURE_SAMPLED_IMAGE_FILTER_LINEAR_BIT : Z := 4096.

(** [VkImageLayout]. *)
Definition VkImageLayout := Z.
Definition VK_IMAGE_LAYOUT_UNDEFINED : VkImageLayout := 0.
Definition VK_IMAGE_LAYOUT_GENERAL : VkImageLayout := 1.
Definition VK_IMAGE_LAYOUT_COLOR_ATTACHMENT_OPTIMAL : VkImageLayout := 2.
Definition VK_IMAGE_LAYOUT_DEPTH_STENCIL_ATTACHMENT_OPTIMAL : VkImageLayout := 3.
Definition VK_IMAGE_LAYOUT_SHADER_READ_ONLY_OPTIMAL : VkImageLayout := 5.
Definition VK_IMAGE_LAYOUT_TRANSFER_SRC_OPTIMAL : VkImageLayout := 6.
Definition VK_IMAGE_LAYOUT_TRANSFER_DST_OPTIMAL : VkImageLayout := 7.
Definition VK_IMAGE_LAYOUT_PRESENT_SRC_KHR : VkImageLayout := 1000001002.

(** [VkAccessFlagBits]. *)
Definition VK_ACCESS_SHADER_READ_BIT : Z := 32.
Definition VK_ACCESS_DEPTH_STENCIL_ATTACHMENT_READ_BIT : Z := 512.
Definition VK_ACCESS_DEPTH_STENCIL_ATTACHMENT_WRITE_BIT : Z := 1024.
Definition VK_ACCESS_TRANSFER_READ_BIT : Z := 2048.
Definition VK_ACCESS_TRANSFER_WRITE_BIT : Z := 4096.

(** [VkPipelineStageFlagBits]. *)
Definition VK_PIPELINE_STAGE_TOP_OF_PIPE_BIT : Z := 1.
Definition VK_PIPELINE_STAGE_FRAGMENT_SHADER_BIT : Z := 128.
Definition VK_PIPELINE_STAGE_EARLY_FRAGMENT_TESTS_BIT : Z := 256.
Definition VK_PIPELINE_STAGE_TRANSFER_BIT : Z := 4096.

(** [VkImageAspectFlagBits] and the two depth formats carrying stencil. *)
Definition VK_IMAGE_ASPECT_COLOR_BIT : Z := 1.
Definition VK_IMAGE_ASPECT_DEPTH_BIT : Z := 2.
Definition VK_IMAGE_ASPECT_STENCIL_BIT : Z := 4.
Definition VK_FORMAT_UNDEFINED : Z := 0.
Definition VK_FORMAT_B8G8R8A8_SRGB : Z := 50.
Definition VK_FORMAT_D24_UNORM_S8_UINT : Z := 129.
Definition VK_FORMAT_D32_SFLOAT_S8_UINT : Z := 130.
Definition VK_COLOR_SPACE_SRGB_NONLINEAR_KHR : Z := 0.
Definition VK_PRESENT_MODE_MAILBOX_KHR : Z := 1.
Definition VK_PRESENT_MODE_FIFO_KHR : Z := 2.

(** C++ exceptions thrown by the engine. *)
Inductive exn : Type :=
| runtime_error (what : string)
| invalid_argument (what : string)
| out_of_range (what : string)
| bad_optional_access.

(** Outcome of a call: normal return, a thrown exception, or undefined
    behaviour (an unchecked [operator[]] outside the vector). *)
Inductive Res (A : Type) : Type :=
| Ok (a : A)
| Throw (e : exn)
| Undefined.
Arguments Ok {A} a.
Arguments Throw {A} e.
Arguments Undefined {A}.

Inductive Level : Type := INFO | WARN | ERROR | CRITICAL.
Definition LogEntry : Type := (Level * string)%type.

Record VkExtent2D := { width : Z; height : Z }.

(** [VkImageMemoryBarrier], the fields the engine fills in. *)
Record VkImageMemoryBarrier := {
  oldLayout : VkImageLayout;
  newLayout : VkImageLayout;
  image : Handle;
  aspectMask : Z;
  baseMipLevel : Z;
  levelCount : Z;
  baseArrayLayer : Z;
  layerCount : Z;
  srcAccessMask : Z;
  dstAccessMask : Z
}.

(** Commands recorded into a command buffer. *)
Inductive Cmd : Type :=
| CmdPipelineBarrier (sourceStage destinationStage : Z) (barrier : VkImageMemoryBarrier)
| CmdBlitImage (srcMip : Z) (srcW srcH : Z) (dstMip : Z) (dstW dstH : Z)
| CmdBeginRenderPass (renderPass framebuffer : Handle) (extent : VkExtent2D)
| CmdBindPipeline (pipeline : Handle)
| CmdSetViewport (extent : VkExtent2D)
| CmdSetScissor (extent : VkExtent2D)
| CmdBindDescriptorSets (firstSet : Z) (set : Handle)
| CmdPushConstants (model : Z)
| CmdBindVertexBuffers (buffer : Handle) (offset : Z)
| CmdBindIndexBuffer (buffer : Handle) (offset : Z)
| CmdDrawIndexed (indexCount : Z)
| CmdUIRenderDrawData
| CmdEndRenderPass.

(** Calls into the Vulkan / window-system API, in the order issued.
    [Memcpy dst len] is a [memcpy] of [len] bytes to the host address
    [dst].  [VkAllocateFrameCommandBuffers] is [vkAllocateCommandBuffers]
    asked for several buffers at once.  The last two before [Recorded]
    are the multi-viewport entry points of Dear ImGui: inside them ImGui
    creates and destroys its secondary platform windows and, for each of
    them, acquires an image, records, submits and presents, on swapchains
    and command buffers of its own. *)
Inductive ApiCall : Type :=
| VkCreateBuffer (size usage : Z)
| VkGetBufferMemoryRequirements (buffer : Handle)
| VkAllocateMemory (allocationSize memoryTypeIndex : Z)
| VkBindBufferMemory (buffer memory : Handle)
| VkMapMemory (memory : Handle) (offset size : Z)
| VkUnmapMemory (memory : Handle)
| Memcpy (dst : Handle) (len : Z)
| VkFlushMappedMemoryRanges (memory : Handle) (offset size : Z)
| VkAllocateCommandBuffers (pool : Handle)
| VkBeginCommandBuffer (cb : Handle)
| VkEndCommandBuffer (cb : Handle)
| VkResetCommandBuffer (cb : Handle)
| VkFreeCommandBuffers (pool cb : Handle)
| VkCreateFence
| VkDestroyFence (fence : Handle)
| VkWaitForFences (fence : Handle)
| VkResetFences (fence : Handle)
| VkQueueSubmit (queue cb fence : Handle)
| VkQueuePresentKHR (queue swapchain : Handle) (imageIndex : Z)
| VkAcquireNextImageKHR (swapchain semaphore : Handle)
| VkGetPhysicalDeviceFormatProperties (format : Z)
| VkCreateSwapchainKHR (surface : Handle) (minImageCount : Z) (extent : VkExtent2D) (oldSwapchain : Handle)
| VkGetSwapchainImagesKHR (swapchain : Handle)
| VkCreateImageView (image : Handle) (format : Z)
| VkDestroyImageView (view : Handle)
| VkDestroySwapchainKHR (swapchain : Handle)
| VkDeviceWaitIdle
| GetFramebufferSize
| GlfwWaitEvents
| DestroySwapchainDependents
| CreateDepthResources (extent : VkExtent2D)
| VkCreateRenderPass (colorFormat : Z)
| CreateGraphicsPipeline (renderPass : Handle)
| VkCreateFramebuffer (view : Handle)
| VkCreateCommandPool (queueFamilyIndex : Z)
| VkAllocateFrameCommandBuffers (pool : Handle) (commandBufferCount : Z)
| VkCreateDescriptorSetLayout (bindingCount : Z)
| VkCreateDescriptorPool (maxSets : Z)
| VkAllocateDescriptorSets (pool layout : Handle) (descriptorSetCount : Z)
| VkUpdateDescriptorSets (set cameraBuffer lightBuffer : Handle)
| VkCreateSemaphore
| ImGuiUpdatePlatformWindows
| ImGuiRenderPlatformWindowsDefault
| Recorded (cb : Handle) (c : Cmd).

(** The world threaded through every call: the log, the API trace and
    the function-local [static bool] of the [VKENG_WARN_ONCE] site in
    [Renderer::RecordCommands]. *)
Record World := {
  log : list LogEntry;
  calls : list ApiCall;
  warned_null_descriptor_set : bool
}.

Definition empty_world : World :=
  {| log := []; calls := []; warned_null_descriptor_set := false |}.

Definition M (A : Type) : Type := World -> Res A * World.

Definition ret {A} (a : A) : M A := fun w => (Ok a, w).

Definition bind {A B} (m : M A) (k : A -> M B) : M B :=
  fun w =>
    match m w with
    | (Ok a, w') => k a w'
    | (Throw e, w') => (Throw e, w')
    | (Undefined, w') => (Undefined, w')
    end.

Definition throw {A} (e : exn) : M A := fun w => (Throw e, w).
Definition undefined {A} : M A := fun w => (Undefined, w).

Definition emit_log (l : Level) (msg : string) : M unit :=
  fun w => (Ok tt, {| log := log w ++ [(l, msg)]; calls := calls w;
                      warned_null_descriptor_set := warned_null_descriptor_set w |}).

Definition api (c : ApiCall) : M unit :=
  fun w => (Ok tt, {| log := log w; calls := calls w ++ [c];
                      warned_null_descriptor_set := warned_null_descriptor_set w |}).

(** [std::vector::operator[]]: no bounds check. *)
Definition vector_at {A} (v : list A) (i : Z) : M A :=
  if i <? 0 then undefined
  else match nth_error v (Z.to_nat i) with
       | Some a => ret a
       | None => undefined
       end.

Definition is_null (h : Handle) : bool := h =? VK_NULL_HANDLE.
Definition has_flag (flags bit : Z) : bool := negb (Z.land flags bit =? 0).

End Vk.
Import Vk.

Declare Scope vk_scope.
Delimit Scope vk_scope with vk.
Notation "x <- c1 ;; c2" := (bind c1 (fun x => c2))
  (at level 61, c1 at next level, right associativity) : vk_scope.
Notation "' pat <- c1 ;; c2" := (bind c1 (fun x => match x with pat => c2 end))
  (at level 61, pat pattern, c1 at next level, right associativity) : vk_scope.
Notation "c1 ;; c2" := (bind c1 (fun _ => c2))
  (at level 61, right associativity) : vk_scope.
Open Scope string_scope.
Open Scope Z_scope.
Open Scope list_scope.
Open Scope vk_scope.

(** [VK_CHECK]: log at critical level and throw on anything but success. *)
Definition VK_CHECK (res : VkResult) : M unit :=
  if res =? VK_SUCCESS then ret tt
  else emit_log CRITICAL "Vulkan Error" ;; throw (runtime_error "Vulkan Error").

(** The context fields read by the components modelled here. *)
Record VulkanContext := {
  device : Handle;
  physicalDevice : Handle;
  surface : Handle;
  graphicsQueue : Handle;
  presentQueue : Handle;
  imageCount : Z;
  minImageCount : Z
}.

Record VkMemoryRequirements := { mr_size : Z; memoryTypeBits : Z }.

Record VkSurfaceFormatKHR := { format : Z; colorSpace : Z }.

Record VkSurfaceCapabilitiesKHR := {
  cap_minImageCount : Z;
  cap_maxImageCount : Z;
  currentExtent : VkExtent2D;
  minImageExtent : VkExtent2D;
  maxImageExtent : VkExtent2D
}.

Record SwapChainSupportDetails := {
  capabilities : VkSurfaceCapabilitiesKHR;
  formats : list VkSurfaceFormatKHR;
  presentModes : list Z
}.

(** Answers of the driver and window system.  Every field is what the
    corresponding API entry point returns for the given arguments. *)
Record Driver := {
  drv_vkCreateBuffer : Z -> Z -> VkResult * Handle;
  drv_vkGetBufferMemoryRequirements : Handle -> VkMemoryRequirements;
  drv_memoryTypes : list Z;
  drv_vkAllocateMemory : Z -> Z -> VkResult * Handle;
  drv_vkBindBufferMemory : Handle -> Handle -> VkResult;
  drv_vkMapMemory : Handle -> Z -> Z -> VkResult * Handle;
  drv_vkFlushMappedMemoryRanges : Handle -> Z -> Z -> VkResult;
  drv_vkAllocateCommandBuffers : Handle -> VkResult * Handle;
  drv_vkBeginCommandBuffer : Handle -> VkResult;
  drv_vkEndCommandBuffer : Handle -> VkResult;
  drv_vkResetCommandBuffer : Handle -> VkResult;
  drv_vkCreateFence : VkResult * Handle;
  drv_vkQueueSubmit : Handle -> Handle -> Handle -> VkResult;
  drv_vkWaitForFences : Handle -> VkResult;
  drv_vkResetFences : Handle -> VkResult;
  drv_optimalTilingFeatures : Z -> Z;
  drv_vkAcquireNextImageKHR : Handle -> Handle -> VkResult * Z;
  drv_vkQueuePresentKHR : Handle -> Handle -> Z -> VkResult;
  drv_QuerySwapChainSupport : Handle -> SwapChainSupportDetails;
  drv_vkCreateSwapchainKHR : Handle -> Z -> VkExtent2D -> Handle -> VkResult * Handle;
  drv_vkGetSwapchainImagesKHR : Handle -> VkResult * list Handle;
  drv_vkCreateImageView : Handle -> Z -> VkResult * Handle;
  drv_FindQueueFamilies : Handle -> option Z * option Z;
  (** The window: how many polls report a zero-sized framebuffer before
      the size below is reported. *)
  drv_minimizedPolls : nat;
  drv_framebufferSize : Z * Z;
  (** Creation of the swapchain-dependent resources; [None] stands for a
      failure, which the engine turns into an exception. *)
  drv_CreateDepthResources : VkExtent2D -> option Handle;
  drv_vkCreateRenderPass : Z -> VkResult * Handle;
  drv_CreateGraphicsPipeline : Handle -> option (Handle * Handle);
  drv_vkCreateFramebuffer : Handle -> VkResult * Handle;
  (** How many bytes, from the mapped pointer on, the live host mapping
      of a memory object spans. *)
  drv_mappedExtent : Handle -> Z;
  drv_vkCreateCommandPool : Z -> VkResult * Handle;
  drv_vkAllocateFrameCommandBuffers : Handle -> Z -> VkResult * list Handle;
  drv_vkCreateDescriptorSetLayout : Z -> VkResult * Handle;
  drv_vkCreateDescriptorPool : Z -> VkResult * Handle;
  drv_vkAllocateDescriptorSets : Handle -> Handle -> Z -> VkResult * list Handle;
  drv_vkCreateSemaphore : VkResult * Handle;
  (** The Dear ImGui Vulkan backend hands the result of each Vulkan call
      it makes to the callback the engine installed: the results handed
      over during [ImGui_ImplVulkan_RenderDrawData] on a command buffer,
      during [ImGui::UpdatePlatformWindows] and during
      [ImGui::RenderPlatformWindowsDefault], in order. *)
  drv_ImGui_ImplVulkan_RenderDrawData : Handle -> list VkResult;
  drv_ImGui_UpdatePlatformWindows : list VkResult;
  drv_ImGui_RenderPlatformWindowsDefault : list VkResult
}.

(* ================================================================== *)
(** * Buffer.cpp                                                       *)
(* ================================================================== *)

Module Buffer.

Record VulkanBuffer := {
  m_Buffer : Handle;
  m_Memory : Handle;
  m_MappedMemory : Handle;
  m_BufferSize : Z;
  m_InstanceCount : Z;
  m_InstanceSize : Z;
  m_AlignmentSize : Z;
  m_UsageFlags : Z;
  m_MemoryPropertyFlags : Z
}.

Definition set_mapped (b : VulkanBuffer) (p : Handle) : VulkanBuffer :=
  {| m_Buffer := m_Buffer b; m_Memory := m_Memory b; m_MappedMemory := p;
     m_BufferSize := m_BufferSize b; m_InstanceCount := m_InstanceCount b;
     m_InstanceSize := m_InstanceSize b; m_AlignmentSize := m_AlignmentSize b;
     m_UsageFlags := m_UsageFlags b;
     m_MemoryPropertyFlags := m_MemoryPropertyFlags b |}.

(** [VulkanBuffer::CalculateAlignment], on [VkDeviceSize] (uint64_t):
    [(instanceSize + minOffsetAlignment - 1) & ~(minOffsetAlignment - 1)]. *)
Definition CalculateAlignment (instanceSize minOffsetAlignment : Z) : Z :=
  if minOffsetAlignment >? 0 then
    Z.land (wrap64 (wrap64 (instanceSize + minOffsetAlignment) - 1))
           (not64 (wrap64 (minOffsetAlignment - 1)))
  else instanceSize.

(** [Utils::findMemoryType]: first index whose filter bit is set and
    whose property flags contain the requested ones. *)
Fixpoint findMemoryType_from (types : list Z) (i : Z) (typeFilter properties : Z)
  : option Z :=
  match types with
  | [] => None
  | propertyFlags :: rest =>
      if negb (Z.land typeFilter (Z.shiftl 1 i) =? 0)
         && (Z.land propertyFlags properties =? properties)
      then Some i
      else findMemoryType_from rest (i + 1) typeFilter properties
  end.

Definition findMemoryType (D : Driver) (typeFilter properties : Z) : M Z :=
  match findMemoryType_from (drv_memoryTypes D) 0 typeFilter properties with
  | Some i => ret i
  | None => throw (runtime_error "Failed to find suitable memory type!")
  end.

(** The constructor [VulkanBuffer::VulkanBuffer]. *)
Definition VulkanBuffer_new (D : Driver) (context : VulkanContext)
    (instanceSize instanceCount usageFlags memoryPropertyFlags minOffsetAlignment : Z)
  : M VulkanBuffer :=
  let init (buffer memory : Handle) (bufferSize alignmentSize : Z) :=
    {| m_Buffer := buffer; m_Memory := memory; m_MappedMemory := 0;
       m_BufferSize := bufferSize; m_InstanceCount := instanceCount;
       m_InstanceSize := instanceSize; m_AlignmentSize := alignmentSize;
       m_UsageFlags := usageFlags;
       m_MemoryPropertyFlags := memoryPropertyFlags |} in
  if (instanceCount =? 0) || (instanceSize =? 0) then
    emit_log ERROR "VulkanBuffer: Instance count or size cannot be zero." ;;
    ret (init VK_NULL_HANDLE VK_NULL_HANDLE 0 0)
  else if is_null (device context) then
    emit_log ERROR "VulkanBuffer: Cannot create buffer with a null Vulkan device in context!" ;;
    throw (runtime_error "Null device for VulkanBuffer creation.")
  else
    let alignmentSize := CalculateAlignment instanceSize minOffsetAlignment in
    let bufferSize := wrap64 (alignmentSize * instanceCount) in
    api (VkCreateBuffer bufferSize usageFlags) ;;
    let '(res, buffer) := drv_vkCreateBuffer D bufferSize usageFlags in
    VK_CHECK res ;;
    api (VkGetBufferMemoryRequirements buffer) ;;
    let memRequirements := drv_vkGetBufferMemoryRequirements D buffer in
    memoryTypeIndex <- findMemoryType D (memoryTypeBits memRequirements) memoryPropertyFlags ;;
    api (VkAllocateMemory (mr_size memRequirements) memoryTypeIndex) ;;
    let '(res, memory) := drv_vkAllocateMemory D (mr_size memRequirements) memoryTypeIndex in
    VK_CHECK res ;;
    api (VkBindBufferMemory buffer memory) ;;
    VK_CHECK (drv_vkBindBufferMemory D buffer memory) ;;
    ret (init buffer memory bufferSize alignmentSize).

(** [VulkanBuffer::Map]. *)
Definition Map (D : Driver) (b : VulkanBuffer) (size offset : Z)
  : M (VkResult * VulkanBuffer) :=
  if is_null (m_Buffer b) || is_null (m_Memory b) then
    emit_log ERROR "VulkanBuffer::Map: Buffer or memory is null. Cannot map." ;;
    ret (VK_ERROR_INITIALIZATION_FAILED, b)
  else if negb (has_flag (m_MemoryPropertyFlags b) VK_MEMORY_PROPERTY_HOST_VISIBLE_BIT) then
    emit_log ERROR "VulkanBuffer::Map: Attempting to map non-host-visible buffer memory!" ;;
    ret (VK_ERROR_MEMORY_MAP_FAILED, b)
  else if negb (is_null (m_MappedMemory b)) then
    emit_log WARN "VulkanBuffer::Map: Buffer memory is already mapped." ;;
    ret (VK_SUCCESS, b)
  else
    api (VkMapMemory (m_Memory b) offset size) ;;
    let '(res, p) := drv_vkMapMemory D (m_Memory b) offset size in
    ret (res, if res =? VK_SUCCESS then set_mapped b p else b).

(** [VulkanBuffer::Unmap]; the context's device is the one the buffer
    was created with. *)
Definition Unmap (context : VulkanContext) (b : VulkanBuffer) : M VulkanBuffer :=
  if negb (is_null (m_MappedMemory b)) then
    (if negb (is_null (device context)) && negb (is_null (m_Memory b))
     then api (VkUnmapMemory (m_Memory b)) else ret tt) ;;
    ret (set_mapped b 0)
  else ret b.

(** [VulkanBuffer::Flush]. *)
Definition Flush (D : Driver) (b : VulkanBuffer) (size offset : Z) : M VkResult :=
  if is_null (m_Memory b) then ret VK_ERROR_INITIALIZATION_FAILED
  else if negb (has_flag (m_MemoryPropertyFlags b) VK_MEMORY_PROPERTY_HOST_VISIBLE_BIT)
          || has_flag (m_MemoryPropertyFlags b) VK_MEMORY_PROPERTY_HOST_COHERENT_BIT
  then ret VK_SUCCESS
  else
    let range := if size =? VK_WHOLE_SIZE then wrap64 (m_BufferSize b - offset) else size in
    api (VkFlushMappedMemoryRanges (m_Memory b) offset range) ;;
    ret (drv_vkFlushMappedMemoryRanges D (m_Memory b) offset range).

(** A source pointer as [memcpy] needs it: the address, and the number of
    bytes that can be read from there (the rest of the object it points
    into). *)
Record Block : Type := { block_address : Handle; block_bytes : Z }.

(** [memcpy(dst, data, n)] through the live mapping of [extent] bytes
    that starts at the host address [base].  The call is not guarded: a
    destination range that leaves the mapping, or a length beyond what
    can be read at [data], is undefined behaviour. *)
Definition memcpy (base extent : Z) (dst : Handle) (data : Block) (n : Z) : M unit :=
  if (base <=? dst) && (dst + n <=? base + extent) && (n <=? block_bytes data)
  then api (Memcpy dst n)
  else undefined.

(** [VulkanBuffer::WriteToBuffer]; [data] is the source pointer.  A
    buffer that is not mapped is mapped for the write, at [offset] and
    for [mapSize] bytes, so [m_MappedMemory] then addresses memory byte
    [offset]; in both cases the copy goes to [m_MappedMemory + offset]. *)
Definition WriteToBuffer (D : Driver) (context : VulkanContext) (b : VulkanBuffer)
    (data : Block) (size offset : Z) : M VulkanBuffer :=
  if is_null (m_Buffer b) then
    emit_log ERROR "VulkanBuffer::WriteToBuffer: Buffer is null." ;; ret b
  else if negb (has_flag (m_MemoryPropertyFlags b) VK_MEMORY_PROPERTY_HOST_VISIBLE_BIT) then
    emit_log ERROR "VulkanBuffer::WriteToBuffer: Cannot write directly to non-host-visible buffer. Use staging." ;;
    throw (runtime_error "Writing to non-host-visible buffer without staging.")
  else if is_null (block_address data) then
    emit_log ERROR "VulkanBuffer::WriteToBuffer: Source data pointer is null." ;; ret b
  else
    let needsTempMap := is_null (m_MappedMemory b) in
    let mapSize := if size =? VK_WHOLE_SIZE then m_BufferSize b else size in
    let copy (b : VulkanBuffer) : M VulkanBuffer :=
      if is_null (m_MappedMemory b) then
        emit_log ERROR "VulkanBuffer::WriteToBuffer: Memory not mapped after Map() call." ;;
        ret b
      else
        let extent := if needsTempMap then mapSize
                      else drv_mappedExtent D (m_Memory b) in
        let mappedDataOffset := m_MappedMemory b + offset in
        (if size =? VK_WHOLE_SIZE then
           if offset >? 0 then
             memcpy (m_MappedMemory b) extent mappedDataOffset data
               (wrap64 (m_BufferSize b - offset))
           else memcpy (m_MappedMemory b) extent (m_MappedMemory b) data (m_BufferSize b)
         else memcpy (m_MappedMemory b) extent mappedDataOffset data size) ;;
        (if negb (has_flag (m_MemoryPropertyFlags b) VK_MEMORY_PROPERTY_HOST_COHERENT_BIT)
         then Flush D b size offset ;; ret tt else ret tt) ;;
        if needsTempMap then Unmap context b else ret b in
    if needsTempMap then
      '(mapResult, b') <- Map D b mapSize offset ;;
      if negb (mapResult =? VK_SUCCESS) then
        emit_log ERROR "VulkanBuffer::WriteToBuffer: Failed to map memory for writing." ;;
        ret b'
      else copy b'
    else copy b.

End Buffer.

(* ================================================================== *)
(** * VulkanUtils.cpp                                                  *)
(* ================================================================== *)

Module Utils.

Definition hasStencilComponent (format : Z) : bool :=
  (format =? VK_FORMAT_D32_SFLOAT_S8_UINT) || (format =? VK_FORMAT_D24_UNORM_S8_UINT).

(** [Utils::createImageView]. *)
Definition createImageView (D : Driver) (image : Handle) (format : Z) : M Handle :=
  if is_null image then
    emit_log ERROR "Utils::createImageView: Attempted to create view for a NULL image." ;;
    ret VK_NULL_HANDLE
  else
    api (VkCreateImageView image format) ;;
    let '(res, imageView) := drv_vkCreateImageView D image format in
    VK_CHECK res ;;
    ret imageView.

Definition BeginSingleTimeCommands (D : Driver) (device commandPool : Handle) : M Handle :=
  if is_null device || is_null commandPool then
    emit_log ERROR "BeginSingleTimeCommands: Invalid device or command pool." ;;
    throw (runtime_error "Null device or command pool for single time commands.")
  else
    api (VkAllocateCommandBuffers commandPool) ;;
    let '(res, commandBuffer) := drv_vkAllocateCommandBuffers D commandPool in
    VK_CHECK res ;;
    api (VkBeginCommandBuffer commandBuffer) ;;
    VK_CHECK (drv_vkBeginCommandBuffer D commandBuffer) ;;
    ret commandBuffer.

Definition EndSingleTimeCommands (D : Driver)
    (device commandPool queue commandBuffer : Handle) : M unit :=
  if is_null device || is_null commandPool || is_null queue || is_null commandBuffer then
    emit_log ERROR "EndSingleTimeCommands: Invalid device, pool, queue, or command buffer." ;;
    (if negb (is_null device) && negb (is_null commandPool) && negb (is_null commandBuffer)
     then api (VkFreeCommandBuffers commandPool commandBuffer) else ret tt) ;;
    throw (runtime_error "Null arguments for ending single time commands.")
  else
    api (VkEndCommandBuffer commandBuffer) ;;
    VK_CHECK (drv_vkEndCommandBuffer D commandBuffer) ;;
    api VkCreateFence ;;
    let '(res, fence) := drv_vkCreateFence D in
    VK_CHECK res ;;
    api (VkQueueSubmit queue commandBuffer fence) ;;
    VK_CHECK (drv_vkQueueSubmit D queue commandBuffer fence) ;;
    api (VkWaitForFences fence) ;;
    VK_CHECK (drv_vkWaitForFences D fence) ;;
    api (VkDestroyFence fence) ;;
    api (VkFreeCommandBuffers commandPool commandBuffer).

(** What the cascade of [if]s in [TransitionImageLayout] selects. *)
Record Transition := {
  t_srcAccessMask : Z;
  t_dstAccessMask : Z;
  t_sourceStage : Z;
  t_destinationStage : Z
}.

(** The cascade itself; [None] is its final [else], which throws. *)
Definition select_transition (oldLayout newLayout : VkImageLayout) : option Transition :=
  if (oldLayout =? VK_IMAGE_LAYOUT_UNDEFINED)
     && (newLayout =? VK_IMAGE_LAYOUT_TRANSFER_DST_OPTIMAL) then
    Some {| t_srcAccessMask := 0;
            t_dstAccessMask := VK_ACCESS_TRANSFER_WRITE_BIT;
            t_sourceStage := VK_PIPELINE_STAGE_TOP_OF_PIPE_BIT;
            t_destinationStage := VK_PIPELINE_STAGE_TRANSFER_BIT |}
  else if (oldLayout =? VK_IMAGE_LAYOUT_TRANSFER_DST_OPTIMAL)
          && (newLayout =? VK_IMAGE_LAYOUT_SHADER_READ_ONLY_OPTIMAL) then
    Some {| t_srcAccessMask := VK_ACCESS_TRANSFER_WRITE_BIT;
            t_dstAccessMask := VK_ACCESS_SHADER_READ_BIT;
            t_sourceStage := VK_PIPELINE_STAGE_TRANSFER_BIT;
            t_destinationStage := VK_PIPELINE_STAGE_FRAGMENT_SHADER_BIT |}
  else if (oldLayout =? VK_IMAGE_LAYOUT_UNDEFINED)
          && (newLayout =? VK_IMAGE_LAYOUT_DEPTH_STENCIL_ATTACHMENT_OPTIMAL) then
    Some {| t_srcAccessMask := 0;
            t_dstAccessMask :=
              Z.lor VK_ACCESS_DEPTH_STENCIL_ATTACHMENT_READ_BIT
                    VK_ACCESS_DEPTH_STENCIL_ATTACHMENT_WRITE_BIT;
            t_sourceStage := VK_PIPELINE_STAGE_TOP_OF_PIPE_BIT;
            t_destinationStage := VK_PIPELINE_STAGE_EARLY_FRAGMENT_TESTS_BIT |}
  else if (oldLayout =? VK_IMAGE_LAYOUT_TRANSFER_DST_OPTIMAL)
          && (newLayout =? VK_IMAGE_LAYOUT_TRANSFER_SRC_OPTIMAL) then
    Some {| t_srcAccessMask := VK_ACCESS_TRANSFER_WRITE_BIT;
            t_dstAccessMask := VK_ACCESS_TRANSFER_READ_BIT;
            t_sourceStage := VK_PIPELINE_STAGE_TRANSFER_BIT;
            t_destinationStage := VK_PIPELINE_STAGE_TRANSFER_BIT |}
  else if (oldLayout =? VK_IMAGE_LAYOUT_TRANSFER_SRC_OPTIMAL)
          && (newLayout =? VK_IMAGE_LAYOUT_SHADER_READ_ONLY_OPTIMAL) then
    Some {| t_srcAccessMask := VK_ACCESS_TRANSFER_READ_BIT;
            t_dstAccessMask := VK_ACCESS_SHADER_READ_BIT;
            t_sourceStage := VK_PIPELINE_STAGE_TRANSFER_BIT;
            t_destinationStage := VK_PIPELINE_STAGE_FRAGMENT_SHADER_BIT |}
  else None.

Definition transition_aspect (format : Z) (oldLayout newLayout : VkImageLayout) : Z :=
  if (newLayout =? VK_IMAGE_LAYOUT_DEPTH_STENCIL_ATTACHMENT_OPTIMAL)
     || (oldLayout =? VK_IMAGE_LAYOUT_DEPTH_STENCIL_ATTACHMENT_OPTIMAL) then
    if hasStencilComponent format
    then Z.lor VK_IMAGE_ASPECT_DEPTH_BIT VK_IMAGE_ASPECT_STENCIL_BIT
    else VK_IMAGE_ASPECT_DEPTH_BIT
  else VK_IMAGE_ASPECT_COLOR_BIT.

Definition transition_barrier (image : Handle) (format : Z)
    (oldLayout newLayout : VkImageLayout)
    (mipLevels baseMipLevel layerCount baseArrayLayer : Z) (t : Transition)
  : VkImageMemoryBarrier :=
  {| oldLayout := oldLayout; newLayout := newLayout; image := image;
     aspectMask := transition_aspect format oldLayout newLayout;
     baseMipLevel := baseMipLevel; levelCount := mipLevels;
     baseArrayLayer := baseArrayLayer; layerCount := layerCount;
     srcAccessMask := t_srcAccessMask t; dstAccessMask := t_dstAccessMask t |}.

(** [Utils::TransitionImageLayout]. *)
Definition TransitionImageLayout (D : Driver) (device commandPool queue image : Handle)
    (format : Z) (oldLayout newLayout : VkImageLayout)
    (mipLevels baseMipLevel layerCount baseArrayLayer : Z) : M unit :=
  commandBuffer <- BeginSingleTimeCommands D device commandPool ;;
  match select_transition oldLayout newLayout with
  | Some t =>
      api (Recorded commandBuffer
             (CmdPipelineBarrier (t_sourceStage t) (t_destinationStage t)
                (transition_barrier image format oldLayout newLayout
                   mipLevels baseMipLevel layerCount baseArrayLayer t))) ;;
      EndSingleTimeCommands D device commandPool queue commandBuffer
  | None =>
      throw (invalid_argument "Unsupported layout transition in Utils::TransitionImageLayout!")
  end.

(** One-level barrier used by [GenerateMipmaps]. *)
Definition mip_barrier (image : Handle) (base count : Z)
    (oldL newL : VkImageLayout) (srcA dstA : Z) : VkImageMemoryBarrier :=
  {| oldLayout := oldL; newLayout := newL; image := image;
     aspectMask := VK_IMAGE_ASPECT_COLOR_BIT;
     baseMipLevel := base; levelCount := count;
     baseArrayLayer := 0; layerCount := 1;
     srcAccessMask := srcA; dstAccessMask := dstA |}.

(** The body of [for (uint32_t i = 1; i < mipLevels; i++)], run [n] more times. *)
Fixpoint mip_loop (n : nat) (commandBuffer image : Handle) (i mipWidth mipHeight : Z)
  : M unit :=
  match n with
  | O => ret tt
  | S n' =>
      api (Recorded commandBuffer
             (CmdPipelineBarrier VK_PIPELINE_STAGE_TRANSFER_BIT VK_PIPELINE_STAGE_TRANSFER_BIT
                (mip_barrier image (i - 1) 1
                   VK_IMAGE_LAYOUT_TRANSFER_DST_OPTIMAL VK_IMAGE_LAYOUT_TRANSFER_SRC_OPTIMAL
                   VK_ACCESS_TRANSFER_WRITE_BIT VK_ACCESS_TRANSFER_READ_BIT))) ;;
      api (Recorded commandBuffer
             (CmdPipelineBarrier VK_PIPELINE_STAGE_TOP_OF_PIPE_BIT VK_PIPELINE_STAGE_TRANSFER_BIT
                (mip_barrier image i 1
                   VK_IMAGE_LAYOUT_UNDEFINED VK_IMAGE_LAYOUT_TRANSFER_DST_OPTIMAL
                   0 VK_ACCESS_TRANSFER_WRITE_BIT))) ;;
      api (Recorded commandBuffer
             (CmdBlitImage (i - 1) mipWidth mipHeight i
                (if mipWidth >? 1 then Z.quot mipWidth 2 else 1)
                (if mipHeight >? 1 then Z.quot mipHeight 2 else 1))) ;;
      mip_loop n' commandBuffer image (i + 1)
        (if mipWidth >? 1 then Z.quot mipWidth 2 else mipWidth)
        (if mipHeight >? 1 then Z.quot mipHeight 2 else mipHeight)
  end.

(** [Utils::GenerateMipmaps]. *)
Definition GenerateMipmaps (D : Driver) (device commandPool queue image : Handle)
    (imageFormat : Z) (texWidth texHeight mipLevels : Z) : M unit :=
  if mipLevels <=? 1 then ret tt
  else
    api (VkGetPhysicalDeviceFormatProperties imageFormat) ;;
    let optimalTilingFeatures := drv_optimalTilingFeatures D imageFormat in
    (if negb (has_flag optimalTilingFeatures VK_FORMAT_FEATURE_SAMPLED_IMAGE_FILTER_LINEAR_BIT)
     then emit_log WARN "Mipmap generation: Texture format does not support linear blit filtering! Mipmaps may look worse."
     else ret tt) ;;
    if negb (has_flag optimalTilingFeatures VK_FORMAT_FEATURE_BLIT_SRC_BIT)
       || negb (has_flag optimalTilingFeatures VK_FORMAT_FEATURE_BLIT_DST_BIT)
    then
      emit_log ERROR "Mipmap generation: Texture format does not support blit operations (SRC or DST). Cannot generate mipmaps."
    else
      commandBuffer <- BeginSingleTimeCommands D device commandPool ;;
      mip_loop (Z.to_nat (mipLevels - 1)) commandBuffer image 1 texWidth texHeight ;;
      (if mipLevels >? 1 then
         api (Recorded commandBuffer
                (CmdPipelineBarrier VK_PIPELINE_STAGE_TRANSFER_BIT
                   VK_PIPELINE_STAGE_FRAGMENT_SHADER_BIT
                   (mip_barrier image 0 (mipLevels - 1)
                      VK_IMAGE_LAYOUT_TRANSFER_SRC_OPTIMAL
                      VK_IMAGE_LAYOUT_SHADER_READ_ONLY_OPTIMAL
                      VK_ACCESS_TRANSFER_READ_BIT VK_ACCESS_SHADER_READ_BIT))) ;;
         api (Recorded commandBuffer
                (CmdPipelineBarrier VK_PIPELINE_STAGE_TRANSFER_BIT
                   VK_PIPELINE_STAGE_FRAGMENT_SHADER_BIT
                   (mip_barrier image (mipLevels - 1) 1
                      VK_IMAGE_LAYOUT_TRANSFER_DST_OPTIMAL
                      VK_IMAGE_LAYOUT_SHADER_READ_ONLY_OPTIMAL
                      VK_ACCESS_TRANSFER_WRITE_BIT VK_ACCESS_SHADER_READ_BIT)))
       else ret tt) ;;
      EndSingleTimeCommands D device commandPool queue commandBuffer ;;
      emit_log INFO "Mipmaps generated and layouts transitioned to SHADER_READ_ONLY_OPTIMAL.".

End Utils.

(* ================================================================== *)
(** * Swapchain.cpp                                                    *)
(* ================================================================== *)

Module Swapchain.

Record Swapchain := {
  m_CurrentWindowWidth : Z;
  m_CurrentWindowHeight : Z;
  m_SwapChain : Handle;
  m_SwapChainImages : list Handle;
  m_SwapChainImageViews : list Handle;
  m_SwapChainImageFormat : Z;
  m_SwapChainExtent : VkExtent2D
}.

Definition set_imageCount (c : VulkanContext) (n : Z) : VulkanContext :=
  {| device := device c; physicalDevice := physicalDevice c; surface := surface c;
     graphicsQueue := graphicsQueue c; presentQueue := presentQueue c;
     imageCount := n; minImageCount := minImageCount c |}.

Definition set_minImageCount (c : VulkanContext) (n : Z) : VulkanContext :=
  {| device := device c; physicalDevice := physicalDevice c; surface := surface c;
     graphicsQueue := graphicsQueue c; presentQueue := presentQueue c;
     imageCount := imageCount c; minImageCount := n |}.

(** [std::clamp(v, lo, hi)]. *)
Definition std_clamp (v lo hi : Z) : Z :=
  if v <? lo then lo else if hi <? v then hi else v.

Fixpoint find_preferred_format (availableFormats : list VkSurfaceFormatKHR)
  : option VkSurfaceFormatKHR :=
  match availableFormats with
  | [] => None
  | f :: rest =>
      if (format f =? VK_FORMAT_B8G8R8A8_SRGB)
         && (colorSpace f =? VK_COLOR_SPACE_SRGB_NONLINEAR_KHR)
      then Some f else find_preferred_format rest
  end.

(** [Swapchain::ChooseSwapSurfaceFormat]. *)
Definition ChooseSwapSurfaceFormat (availableFormats : list VkSurfaceFormatKHR)
  : M VkSurfaceFormatKHR :=
  match find_preferred_format availableFormats with
  | Some f =>
      emit_log INFO "Chosen Swapchain Surface Format: B8G8R8A8_SRGB, ColorSpace: SRGB_NONLINEAR_KHR" ;;
      ret f
  | None =>
      first <- vector_at availableFormats 0 ;;
      emit_log WARN "Preferred SRGB surface format not found, using first available" ;;
      ret first
  end.

(** [Swapchain::ChooseSwapPresentMode]. *)
Definition ChooseSwapPresentMode (availablePresentModes : list Z) : M Z :=
  if existsb (fun m => m =? VK_PRESENT_MODE_MAILBOX_KHR) availablePresentModes then
    emit_log INFO "Chosen Swapchain Present Mode: MAILBOX_KHR" ;;
    ret VK_PRESENT_MODE_MAILBOX_KHR
  else
    emit_log INFO "MAILBOX_KHR present mode not found, using FIFO_KHR (V-Sync)." ;;
    ret VK_PRESENT_MODE_FIFO_KHR.

(** [Swapchain::ChooseSwapExtent]. *)
Definition ChooseSwapExtent (capabilities : VkSurfaceCapabilitiesKHR)
    (windowWidth windowHeight : Z) : M VkExtent2D :=
  if negb (width (currentExtent capabilities) =? UINT32_MAX) then
    emit_log INFO "Using fixed swapchain extent from surface capabilities" ;;
    ret (currentExtent capabilities)
  else
    let actualExtent :=
      {| width := std_clamp windowWidth
                    (width (minImageExtent capabilities))
                    (width (maxImageExtent capabilities));
         height := std_clamp windowHeight
                     (height (minImageExtent capabilities))
                     (height (maxImageExtent capabilities)) |} in
    emit_log INFO "Chosen clamped swapchain extent" ;;
    ret actualExtent.

(** The image count requested from the driver. *)
Definition requested_image_count (capabilities : VkSurfaceCapabilitiesKHR) : Z :=
  let imageCount := wrap32 (cap_minImageCount capabilities + 1) in
  let imageCount :=
    if (cap_maxImageCount capabilities >? 0)
       && (imageCount >? cap_maxImageCount capabilities)
    then cap_maxImageCount capabilities else imageCount in
  if imageCount <? cap_minImageCount capabilities
  then cap_minImageCount capabilities else imageCount.

Definition with_chain (s : Swapchain) (handle : Handle) (fmt : Z) (extent : VkExtent2D)
  : Swapchain :=
  {| m_CurrentWindowWidth := m_CurrentWindowWidth s;
     m_CurrentWindowHeight := m_CurrentWindowHeight s;
     m_SwapChain := handle;
     m_SwapChainImages := m_SwapChainImages s;
     m_SwapChainImageViews := m_SwapChainImageViews s;
     m_SwapChainImageFormat := fmt;
     m_SwapChainExtent := extent |}.

Definition with_images (s : Swapchain) (images : list Handle) : Swapchain :=
  {| m_CurrentWindowWidth := m_CurrentWindowWidth s;
     m_CurrentWindowHeight := m_CurrentWindowHeight s;
     m_SwapChain := m_SwapChain s;
     m_SwapChainImages := images;
     m_SwapChainImageViews := m_SwapChainImageViews s;
     m_SwapChainImageFormat := m_SwapChainImageFormat s;
     m_SwapChainExtent := m_SwapChainExtent s |}.

Definition with_views (s : Swapchain) (views : list Handle) : Swapchain :=
  {| m_CurrentWindowWidth := m_CurrentWindowWidth s;
     m_CurrentWindowHeight := m_CurrentWindowHeight s;
     m_SwapChain := m_SwapChain s;
     m_SwapChainImages := m_SwapChainImages s;
     m_SwapChainImageViews := views;
     m_SwapChainImageFormat := m_SwapChainImageFormat s;
     m_SwapChainExtent := m_SwapChainExtent s |}.

Definition with_window (s : Swapchain) (w h : Z) : Swapchain :=
  {| m_CurrentWindowWidth := w;
     m_CurrentWindowHeight := h;
     m_SwapChain := m_SwapChain s;
     m_SwapChainImages := m_SwapChainImages s;
     m_SwapChainImageViews := m_SwapChainImageViews s;
     m_SwapChainImageFormat := m_SwapChainImageFormat s;
     m_SwapChainExtent := m_SwapChainExtent s |}.

(** [Swapchain::CreateActualSwapchain]. *)
Definition CreateActualSwapchain (D : Driver) (context : VulkanContext) (s : Swapchain)
    (oldSwapchainHandle : Handle) : M (Swapchain * VulkanContext) :=
  let swapChainSupport := drv_QuerySwapChainSupport D (physicalDevice context) in
  match formats swapChainSupport, presentModes swapChainSupport with
  | _ :: _, _ :: _ =>
      surfaceFormat <- ChooseSwapSurfaceFormat (formats swapChainSupport) ;;
      presentMode <- ChooseSwapPresentMode (presentModes swapChainSupport) ;;
      extent <- ChooseSwapExtent (capabilities swapChainSupport)
                  (m_CurrentWindowWidth s) (m_CurrentWindowHeight s) ;;
      let imageCount := requested_image_count (capabilities swapChainSupport) in
      let context := set_minImageCount context imageCount in
      match drv_FindQueueFamilies D (physicalDevice context) with
      | (Some _, Some _) =>
          api (VkCreateSwapchainKHR (surface context) imageCount extent oldSwapchainHandle) ;;
          let '(result, handle) :=
            drv_vkCreateSwapchainKHR D (surface context) imageCount extent
              oldSwapchainHandle in
          if negb (result =? VK_SUCCESS) then
            throw (runtime_error "Failed to create swap chain!")
          else ret (with_chain s handle (format surfaceFormat) extent, context)
      | _ => throw bad_optional_access
      end
  | _, _ =>
      if negb (is_null (surface context)) then
        throw (runtime_error "Device does not adequately support swapchains (no formats/present modes).")
      else
        emit_log WARN "Swapchain creation skipped due to no surface or inadequate support (likely dummy context)." ;;
        ret (with_chain s (m_SwapChain s) VK_FORMAT_UNDEFINED {| width := 0; height := 0 |},
             context)
  end.

(** [Swapchain::RetrieveSwapchainImages]. *)
Definition RetrieveSwapchainImages (D : Driver) (s : Swapchain) : M Swapchain :=
  if is_null (m_SwapChain s) then ret (with_images s [])
  else
    let '(res, images) := drv_vkGetSwapchainImagesKHR D (m_SwapChain s) in
    api (VkGetSwapchainImagesKHR (m_SwapChain s)) ;;
    VK_CHECK res ;;
    api (VkGetSwapchainImagesKHR (m_SwapChain s)) ;;
    VK_CHECK res ;;
    emit_log INFO "Retrieved swapchain images." ;;
    ret (with_images s images).

Fixpoint create_views (D : Driver) (fmt : Z) (images : list Handle) : M (list Handle) :=
  match images with
  | [] => ret []
  | img :: rest =>
      view <- Utils.createImageView D img fmt ;;
      if is_null view then
        throw (runtime_error "Failed to create image view for swapchain image")
      else
        views <- create_views D fmt rest ;;
        ret (view :: views)
  end.

(** [Swapchain::CreateSwapchainImageViews]. *)
Definition CreateSwapchainImageViews (D : Driver) (s : Swapchain) : M Swapchain :=
  match m_SwapChainImages s with
  | [] => ret (with_views s [])
  | _ :: _ =>
      emit_log INFO "Creating image views for swapchain..." ;;
      views <- create_views D (m_SwapChainImageFormat s) (m_SwapChainImages s) ;;
      emit_log INFO "Swapchain Image Views Created." ;;
      ret (with_views s views)
  end.

(** [Swapchain::Init]. *)
Definition Init (D : Driver) (context : VulkanContext) (s : Swapchain)
    (oldSwapchainForRecreation : Handle) : M (Swapchain * VulkanContext) :=
  if is_null (device context) || is_null (surface context) then
    emit_log ERROR "Swapchain::Init: Vulkan device or surface is NULL. Cannot create swapchain." ;;
    if negb (is_null (device context)) then
      throw (runtime_error "Cannot initialize swapchain with null device or surface.")
    else ret (s, context)
  else
    '(s, context) <- CreateActualSwapchain D context s oldSwapchainForRecreation ;;
    s <- RetrieveSwapchainImages D s ;;
    s <- CreateSwapchainImageViews D s ;;
    ret (s, set_imageCount context (wrap32 (Z.of_nat (List.length (m_SwapChainImages s))))).

(** The constructor [Swapchain::Swapchain]. *)
Definition Swapchain_new (D : Driver) (context : VulkanContext)
    (windowWidth windowHeight : Z) (previousSwapchainHandle : Handle)
  : M (Swapchain * VulkanContext) :=
  let s := {| m_CurrentWindowWidth := windowWidth;
              m_CurrentWindowHeight := windowHeight;
              m_SwapChain := VK_NULL_HANDLE;
              m_SwapChainImages := [];
              m_SwapChainImageViews := [];
              m_SwapChainImageFormat := VK_FORMAT_UNDEFINED;
              m_SwapChainExtent := {| width := 0; height := 0 |} |} in
  emit_log INFO "Creating Swapchain..." ;;
  r <- Init D context s previousSwapchainHandle ;;
  emit_log INFO "Swapchain Created." ;;
  ret r.

Fixpoint destroy_views (context : VulkanContext) (views : list Handle) : M unit :=
  match views with
  | [] => ret tt
  | v :: rest =>
      (if negb (is_null v) && negb (is_null (device context))
       then api (VkDestroyImageView v) else ret tt) ;;
      destroy_views context rest
  end.

(** [Swapchain::CleanupCurrentSwapchain]. *)
Definition CleanupCurrentSwapchain (context : VulkanContext) (s : Swapchain) : M Swapchain :=
  destroy_views context (m_SwapChainImageViews s) ;;
  let s := with_views s [] in
  s <- (if negb (is_null (m_SwapChain s)) && negb (is_null (device context)) then
          api (VkDestroySwapchainKHR (m_SwapChain s)) ;;
          ret (with_chain s VK_NULL_HANDLE (m_SwapChainImageFormat s) (m_SwapChainExtent s))
        else ret s) ;;
  ret (with_images s []).

(** [Swapchain::Recreate]. *)
Definition Recreate (D : Driver) (context : VulkanContext) (s : Swapchain)
    (newWidth newHeight : Z) (oldSwapchainHandle : Handle)
  : M (Swapchain * VulkanContext) :=
  emit_log INFO "Recreating Swapchain..." ;;
  let s := with_window s newWidth newHeight in
  s <- CleanupCurrentSwapchain context s ;;
  r <- Init D context s oldSwapchainHandle ;;
  emit_log INFO "Swapchain Recreated." ;;
  ret r.

End Swapchain.

(* ================================================================== *)
(** * CommandManager.cpp, the collaborators and Renderer.cpp           *)
(* ================================================================== *)

Module Renderer.
Import Buffer.

Definition MAX_FRAMES_IN_FLIGHT : Z := 2.

(** ** The command manager *)

Record CommandManager := {
  m_CommandPool : Handle;
  m_CommandBuffers : list Handle
}.

(** [CommandManager::BeginFrameRecording]; [Renderer::BeginFrame] calls
    it under its earlier name [BeginFrame]. *)
Definition BeginFrameRecording (D : Driver) (cm : CommandManager) (frameIndex : Z)
  : M Handle :=
  if is_null (m_CommandPool cm) then
    emit_log ERROR "CommandManager::BeginFrameRecording: CommandManager not properly initialized (null pool)." ;;
    ret VK_NULL_HANDLE
  else if frameIndex >=? Z.of_nat (List.length (m_CommandBuffers cm)) then
    emit_log ERROR "CommandManager::BeginFrameRecording: Invalid frame index requested." ;;
    throw (out_of_range "Invalid frame index for command buffer begin.")
  else
    commandBuffer <- vector_at (m_CommandBuffers cm) frameIndex ;;
    api (VkResetCommandBuffer commandBuffer) ;;
    VK_CHECK (drv_vkResetCommandBuffer D commandBuffer) ;;
    api (VkBeginCommandBuffer commandBuffer) ;;
    VK_CHECK (drv_vkBeginCommandBuffer D commandBuffer) ;;
    ret commandBuffer.

(** [CommandManager::EndFrameRecording]. *)
Definition EndFrameRecording (D : Driver) (cm : CommandManager) (frameIndex : Z) : M unit :=
  if is_null (m_CommandPool cm) then
    emit_log ERROR "CommandManager::EndFrameRecording: CommandManager not properly initialized (null pool)."
  else if frameIndex >=? Z.of_nat (List.length (m_CommandBuffers cm)) then
    emit_log ERROR "CommandManager::EndFrameRecording: Invalid frame index requested." ;;
    throw (out_of_range "Invalid frame index for command buffer end.")
  else
    commandBuffer <- vector_at (m_CommandBuffers cm) frameIndex ;;
    api (VkEndCommandBuffer commandBuffer) ;;
    VK_CHECK (drv_vkEndCommandBuffer D commandBuffer).

(** ** Collaborators reached through the service locator *)

Record Material := { name : string; descriptorSet : Handle }.

Definition InvalidMaterialHandle : Z := 2 ^ 64 - 1.

(** The asset manager: the real one, or the [NullAssetManager] stand-in
    whose [GetMaterial] hands out a default-constructed material. *)
Inductive AssetManager : Type :=
| RealAssetManager (m_LoadedMaterials : list Material) (m_DefaultMaterial : N)
| NullAssetManager.

(** [AssetManager::GetMaterial]; a [MaterialHandle] is a [size_t]. *)
Definition GetMaterial (am : AssetManager) (handle : N) : M Material :=
  match am with
  | NullAssetManager =>
      ret {| name := "DefaultMaterial"; descriptorSet := VK_NULL_HANDLE |}
  | RealAssetManager m_LoadedMaterials m_DefaultMaterial =>
      if (Z.of_N handle =? InvalidMaterialHandle)
         || (Z.of_N handle >=? Z.of_nat (List.length m_LoadedMaterials)) then
        emit_log WARN "AssetManager: Invalid material handle requested. Returning default material." ;;
        vector_at m_LoadedMaterials (Z.of_N m_DefaultMaterial)
      else vector_at m_LoadedMaterials (Z.of_N handle)
  end.

(** The UI manager and the state of Dear ImGui it reads when it renders:
    [has_draw_data] is whether [ImGui::GetDrawData] holds any command
    list for this frame, [viewports_enabled] whether [io.ConfigFlags] has
    [ImGuiConfigFlags_ViewportsEnable], which [UIManager::InitImGui] sets.
    The [NullUIManager] stand-in, whose [RenderDrawData] does nothing, is
    a manager that is not initialised. *)
Record UIManager := {
  m_IsInitialized : bool;
  has_draw_data : bool;
  viewports_enabled : bool
}.

(** [std::to_string] on an [int]. *)
Definition std_to_string (z : Z) : string := NilZero.string_of_int (Z.to_int z).

(** [ImGui_CheckVkResult], the callback installed as [CheckVkResultFn];
    the number is left out of the logged line. *)
Definition ImGui_CheckVkResult (err : VkResult) : M unit :=
  if err =? 0 then ret tt
  else
    emit_log ERROR "[ImGui Vulkan] Error: VkResult" ;;
    if err <? 0 then
      throw (runtime_error ("ImGui Vulkan backend error: " ++ std_to_string err))
    else ret tt.

(** The callback, once per result the backend hands over. *)
Fixpoint check_vk_results (results : list VkResult) : M unit :=
  match results with
  | [] => ret tt
  | err :: rest => ImGui_CheckVkResult err ;; check_vk_results rest
  end.

(** [UIManager::RenderDrawData].  [ImGui_ImplVulkan_RenderDrawData]
    records the draw commands of the UI into [commandBuffer]; it and the
    two multi-viewport calls report through the callback. *)
Definition RenderDrawData (D : Driver) (ui : UIManager) (commandBuffer : Handle) : M unit :=
  if negb (m_IsInitialized ui) then ret tt
  else if negb (has_draw_data ui) then ret tt
  else
    api (Recorded commandBuffer CmdUIRenderDrawData) ;;
    check_vk_results (drv_ImGui_ImplVulkan_RenderDrawData D commandBuffer) ;;
    if viewports_enabled ui then
      api ImGuiUpdatePlatformWindows ;;
      check_vk_results (drv_ImGui_UpdatePlatformWindows D) ;;
      api ImGuiRenderPlatformWindowsDefault ;;
      check_vk_results (drv_ImGui_RenderPlatformWindowsDefault D)
    else ret tt.

(** [Mesh] and [RenderObjectInfo]; a null pointer is [None]. *)
Record Mesh := {
  vertexBuffer : option VulkanBuffer;
  vertexBufferOffset : Z;
  indexBuffer : option VulkanBuffer;
  indexBufferOffset : Z;
  indexCount : Z;
  material : N
}.

(** [transform] carries the world matrix of the transform component. *)
Record RenderObjectInfo := { mesh : option Mesh; transform : option Z }.

(** ** The renderer *)

Record Renderer := {
  m_VulkanContext : VulkanContext;
  m_Swapchain : Swapchain.Swapchain;
  m_CommandManager : CommandManager;
  m_RenderPass : Handle;
  m_PipelineLayout : Handle;
  m_GraphicsPipeline : Handle;
  m_SwapChainFramebuffers : list Handle;
  m_DepthImageView : Handle;
  m_UniformBuffers : list VulkanBuffer;
  m_LightUniformBuffers : list VulkanBuffer;
  m_FrameDescriptorSets : list Handle;
  m_ImageAvailableSemaphores : list Handle;
  m_RenderFinishedSemaphores : list Handle;
  m_InFlightFences : list Handle;
  m_CurrentFrameIndex : Z;
  m_CurrentImageIndex : Z;
  m_FramebufferResized : bool
}.

Definition set_frame (r : Renderer) (frameIndex imageIndex : Z) (resized : bool) : Renderer :=
  {| m_VulkanContext := m_VulkanContext r; m_Swapchain := m_Swapchain r;
     m_CommandManager := m_CommandManager r; m_RenderPass := m_RenderPass r;
     m_PipelineLayout := m_PipelineLayout r;
     m_GraphicsPipeline := m_GraphicsPipeline r;
     m_SwapChainFramebuffers := m_SwapChainFramebuffers r;
     m_DepthImageView := m_DepthImageView r;
     m_UniformBuffers := m_UniformBuffers r;
     m_LightUniformBuffers := m_LightUniformBuffers r;
     m_FrameDescriptorSets := m_FrameDescriptorSets r;
     m_ImageAvailableSemaphores := m_ImageAvailableSemaphores r;
     m_RenderFinishedSemaphores := m_RenderFinishedSemaphores r;
     m_InFlightFences := m_InFlightFences r;
     m_CurrentFrameIndex := frameIndex;
     m_CurrentImageIndex := imageIndex;
     m_FramebufferResized := resized |}.

Definition set_CurrentFrameIndex (r : Renderer) (i : Z) : Renderer :=
  set_frame r i (m_CurrentImageIndex r) (m_FramebufferResized r).
Definition set_CurrentImageIndex (r : Renderer) (i : Z) : Renderer :=
  set_frame r (m_CurrentFrameIndex r) i (m_FramebufferResized r).
Definition set_FramebufferResized (r : Renderer) (b : bool) : Renderer :=
  set_frame r (m_CurrentFrameIndex r) (m_CurrentImageIndex r) b.

Definition set_ubos (r : Renderer) (camera light : list VulkanBuffer) : Renderer :=
  {| m_VulkanContext := m_VulkanContext r; m_Swapchain := m_Swapchain r;
     m_CommandManager := m_CommandManager r; m_RenderPass := m_RenderPass r;
     m_PipelineLayout := m_PipelineLayout r;
     m_GraphicsPipeline := m_GraphicsPipeline r;
     m_SwapChainFramebuffers := m_SwapChainFramebuffers r;
     m_DepthImageView := m_DepthImageView r;
     m_UniformBuffers := camera;
     m_LightUniformBuffers := light;
     m_FrameDescriptorSets := m_FrameDescriptorSets r;
     m_ImageAvailableSemaphores := m_ImageAvailableSemaphores r;
     m_RenderFinishedSemaphores := m_RenderFinishedSemaphores r;
     m_InFlightFences := m_InFlightFences r;
     m_CurrentFrameIndex := m_CurrentFrameIndex r;
     m_CurrentImageIndex := m_CurrentImageIndex r;
     m_FramebufferResized := m_FramebufferResized r |}.

(** The swapchain, the context and everything that embeds the extent. *)
Definition set_swapchain (r : Renderer) (context : VulkanContext)
    (s : Swapchain.Swapchain) (renderPass layout pipeline depthView : Handle)
    (framebuffers : list Handle) : Renderer :=
  {| m_VulkanContext := context; m_Swapchain := s;
     m_CommandManager := m_CommandManager r; m_RenderPass := renderPass;
     m_PipelineLayout := layout;
     m_GraphicsPipeline := pipeline;
     m_SwapChainFramebuffers := framebuffers;
     m_DepthImageView := depthView;
     m_UniformBuffers := m_UniformBuffers r;
     m_LightUniformBuffers := m_LightUniformBuffers r;
     m_FrameDescriptorSets := m_FrameDescriptorSets r;
     m_ImageAvailableSemaphores := m_ImageAvailableSemaphores r;
     m_RenderFinishedSemaphores := m_RenderFinishedSemaphores r;
     m_InFlightFences := m_InFlightFences r;
     m_CurrentFrameIndex := m_CurrentFrameIndex r;
     m_CurrentImageIndex := m_CurrentImageIndex r;
     m_FramebufferResized := m_FramebufferResized r |}.

(** [v[i] = x] on a vector whose index [i] was already read. *)
Fixpoint vector_set {A} (v : list A) (i : nat) (x : A) : list A :=
  match v, i with
  | [], _ => []
  | _ :: rest, O => x :: rest
  | y :: rest, S i' => y :: vector_set rest i' x
  end.

(** [Renderer::WaitForDeviceIdle]. *)
Definition WaitForDeviceIdle (r : Renderer) : M unit :=
  if negb (is_null (device (m_VulkanContext r))) then api VkDeviceWaitIdle else ret tt.

(** [Renderer::CleanupSwapchainDependents]. *)
Definition CleanupSwapchainDependents (r : Renderer) : M Renderer :=
  emit_log INFO "Cleaning up Swapchain Dependent Resources..." ;;
  r <- (if negb (is_null (device (m_VulkanContext r))) then
          api DestroySwapchainDependents ;;
          ret (set_swapchain r (m_VulkanContext r) (m_Swapchain r)
                 VK_NULL_HANDLE VK_NULL_HANDLE VK_NULL_HANDLE VK_NULL_HANDLE [])
        else ret r) ;;
  emit_log INFO "Swapchain Dependent Resources Cleaned Up." ;;
  ret r.

Fixpoint create_framebuffers (D : Driver) (views : list Handle) : M (list Handle) :=
  match views with
  | [] => ret []
  | v :: rest =>
      api (VkCreateFramebuffer v) ;;
      let '(res, fb) := drv_vkCreateFramebuffer D v in
      VK_CHECK res ;;
      fbs <- create_framebuffers D rest ;;
      ret (fb :: fbs)
  end.

(** [Renderer::CreateSwapchainDependents]: depth buffer, render pass,
    pipeline, then one framebuffer per swapchain image view. *)
Definition CreateSwapchainDependents (D : Driver) (r : Renderer) : M Renderer :=
  emit_log INFO "Creating Swapchain Dependent Resources..." ;;
  let s := m_Swapchain r in
  api (CreateDepthResources (Swapchain.m_SwapChainExtent s)) ;;
  match drv_CreateDepthResources D (Swapchain.m_SwapChainExtent s) with
  | None => throw (runtime_error "Failed to create depth image.")
  | Some depthView =>
      api (VkCreateRenderPass (Swapchain.m_SwapChainImageFormat s)) ;;
      let '(res, renderPass) :=
        drv_vkCreateRenderPass D (Swapchain.m_SwapChainImageFormat s) in
      VK_CHECK res ;;
      api (CreateGraphicsPipeline renderPass) ;;
      match drv_CreateGraphicsPipeline D renderPass with
      | None => throw (runtime_error "Vulkan Error")
      | Some (layout, pipeline) =>
          emit_log INFO "Creating Framebuffers..." ;;
          fbs <- create_framebuffers D (Swapchain.m_SwapChainImageViews s) ;;
          emit_log INFO "Swapchain Dependent Resources Created." ;;
          ret (set_swapchain r (m_VulkanContext r) s renderPass layout pipeline
                 depthView fbs)
      end
  end.

(** The body of [while (width == 0 || height == 0)], once per poll that
    still reports a minimised window. *)
Fixpoint wait_while_minimized (polls : nat) : M unit :=
  match polls with
  | O => ret tt
  | S n => api GetFramebufferSize ;; api GlfwWaitEvents ;; wait_while_minimized n
  end.

(** [Renderer::RecreateSwapchain].  The source calls
    [m_Swapchain->Recreate(width, height)] without the third argument of
    the declaration; no previous handle is passed on here. *)
Definition RecreateSwapchain (D : Driver) (r : Renderer) : M Renderer :=
  emit_log WARN "Recreating Swapchain..." ;;
  api GetFramebufferSize ;;
  wait_while_minimized (drv_minimizedPolls D) ;;
  let '(width, height) := drv_framebufferSize D in
  WaitForDeviceIdle r ;;
  r <- CleanupSwapchainDependents r ;;
  '(s, context) <- Swapchain.Recreate D (m_VulkanContext r) (m_Swapchain r)
                     (wrap32 width) (wrap32 height) VK_NULL_HANDLE ;;
  r <- CreateSwapchainDependents D
         (set_swapchain r context s (m_RenderPass r) (m_PipelineLayout r)
            (m_GraphicsPipeline r) (m_DepthImageView r) (m_SwapChainFramebuffers r)) ;;
  let context :=
    Swapchain.set_imageCount (m_VulkanContext r)
      (wrap32 (Z.of_nat (List.length (Swapchain.m_SwapChainImages (m_Swapchain r))))) in
  let r := set_swapchain r context (m_Swapchain r) (m_RenderPass r) (m_PipelineLayout r)
             (m_GraphicsPipeline r) (m_DepthImageView r) (m_SwapChainFramebuffers r) in
  emit_log INFO "Swapchain Recreated." ;;
  ret (set_FramebufferResized r false).

(** [Renderer::HandleResize]. *)
Definition HandleResize (r : Renderer) (width height : Z) : Renderer :=
  set_FramebufferResized r true.

(** [Renderer::BeginFrame].  [vkAcquireNextImageKHR] writes
    [m_CurrentImageIndex] through its out-pointer when it reports success
    or suboptimal. *)
Definition BeginFrame (D : Driver) (r : Renderer) : M (bool * Renderer) :=
  fence <- vector_at (m_InFlightFences r) (m_CurrentFrameIndex r) ;;
  api (VkWaitForFences fence) ;;
  VK_CHECK (drv_vkWaitForFences D fence) ;;
  semaphore <- vector_at (m_ImageAvailableSemaphores r) (m_CurrentFrameIndex r) ;;
  api (VkAcquireNextImageKHR (Swapchain.m_SwapChain (m_Swapchain r)) semaphore) ;;
  let '(result, imageIndex) :=
    drv_vkAcquireNextImageKHR D (Swapchain.m_SwapChain (m_Swapchain r)) semaphore in
  let r := if (result =? VK_SUCCESS) || (result =? VK_SUBOPTIMAL_KHR)
           then set_CurrentImageIndex r imageIndex else r in
  if result =? VK_ERROR_OUT_OF_DATE_KHR then
    r <- RecreateSwapchain D r ;;
    ret (false, r)
  else if negb (result =? VK_SUCCESS) && negb (result =? VK_SUBOPTIMAL_KHR) then
    emit_log ERROR "Failed to acquire swap chain image!" ;;
    throw (runtime_error "Failed to acquire swap chain image!")
  else
    r <- (if result =? VK_SUBOPTIMAL_KHR then
            emit_log WARN "Swapchain suboptimal. Flagging for recreation." ;;
            ret (set_FramebufferResized r true)
          else ret r) ;;
    api (VkResetFences fence) ;;
    VK_CHECK (drv_vkResetFences D fence) ;;
    commandBuffer <- BeginFrameRecording D (m_CommandManager r) (m_CurrentFrameIndex r) ;;
    if is_null commandBuffer then
      emit_log ERROR "Failed to begin command buffer for frame!" ;;
      ret (false, r)
    else ret (true, r).

(** [Renderer::GetCurrentCommandBuffer]. *)
Definition GetCurrentCommandBuffer (r : Renderer) : M Handle :=
  if m_CurrentFrameIndex r
     >=? Z.of_nat (List.length (m_CommandBuffers (m_CommandManager r))) then
    throw (runtime_error "Attempted to get command buffer with invalid frame index!")
  else vector_at (m_CommandBuffers (m_CommandManager r)) (m_CurrentFrameIndex r).

Definition sizeof_CameraMatricesUBO : Z := 128.
Definition sizeof_LightDataUBO : Z := 32.

(** [Renderer::UpdateCameraUBO]; [ubo] is the local struct, written with
    [&ubo] and [sizeof(ubo)]. *)
Definition UpdateCameraUBO (D : Driver) (r : Renderer) (currentFrameIndex : Z)
    (view proj : Z) : M Renderer :=
  let ubo := {| block_address := 1; block_bytes := sizeof_CameraMatricesUBO |} in
  b <- vector_at (m_UniformBuffers r) currentFrameIndex ;;
  b <- WriteToBuffer D (m_VulkanContext r) b ubo sizeof_CameraMatricesUBO 0 ;;
  ret (set_ubos r (vector_set (m_UniformBuffers r) (Z.to_nat currentFrameIndex) b)
         (m_LightUniformBuffers r)).

(** [Renderer::UpdateLightUBO]. *)
Definition UpdateLightUBO (D : Driver) (r : Renderer) (currentFrameIndex : Z)
  : M Renderer :=
  let ubo := {| block_address := 1; block_bytes := sizeof_LightDataUBO |} in
  b <- vector_at (m_LightUniformBuffers r) currentFrameIndex ;;
  b <- WriteToBuffer D (m_VulkanContext r) b ubo sizeof_LightDataUBO 0 ;;
  ret (set_ubos r (m_UniformBuffers r)
         (vector_set (m_LightUniformBuffers r) (Z.to_nat currentFrameIndex) b)).

Definition null_descriptor_set_warning : LogEntry :=
  (WARN, "Material has NULL descriptor set. Object might render incorrectly.").

(** The [VKENG_WARN_ONCE] in [RecordCommands]: one function-local
    [static bool] guards the site for the life of the process. *)
Definition WARN_ONCE_null_descriptor_set : M unit :=
  fun w =>
    if warned_null_descriptor_set w then (Ok tt, w)
    else (Ok tt, {| log := log w ++ [null_descriptor_set_warning];
                    calls := calls w;
                    warned_null_descriptor_set := true |}).

(** The body of [for (const auto& renderInfo : renderables)]. *)
Definition draw_renderable (am : AssetManager) (commandBuffer : Handle)
    (renderInfo : RenderObjectInfo) : M unit :=
  match mesh renderInfo, transform renderInfo with
  | Some m, Some modelMatrix =>
      match vertexBuffer m, indexBuffer m with
      | Some vb, Some ib =>
          api (Recorded commandBuffer (CmdPushConstants modelMatrix)) ;;
          mat <- GetMaterial am (material m) ;;
          (if negb (is_null (descriptorSet mat)) then
             api (Recorded commandBuffer (CmdBindDescriptorSets 1 (descriptorSet mat)))
           else WARN_ONCE_null_descriptor_set) ;;
          api (Recorded commandBuffer
                 (CmdBindVertexBuffers (m_Buffer vb) (vertexBufferOffset m))) ;;
          api (Recorded commandBuffer
                 (CmdBindIndexBuffer (m_Buffer ib) (indexBufferOffset m))) ;;
          api (Recorded commandBuffer (CmdDrawIndexed (indexCount m)))
      | _, _ => ret tt
      end
  | _, _ => ret tt
  end.

Fixpoint draw_renderables (am : AssetManager) (commandBuffer : Handle)
    (renderables : list RenderObjectInfo) : M unit :=
  match renderables with
  | [] => ret tt
  | renderInfo :: rest =>
      draw_renderable am commandBuffer renderInfo ;;
      draw_renderables am commandBuffer rest
  end.

(** [Renderer::RecordCommands]; [camera] is the view and projection of
    the active camera, if any. *)
Definition RecordCommands (D : Driver) (am : AssetManager) (ui : UIManager)
    (r : Renderer) (renderables : list RenderObjectInfo) (camera : option (Z * Z))
  : M Renderer :=
  commandBuffer <- GetCurrentCommandBuffer r ;;
  framebuffer <- vector_at (m_SwapChainFramebuffers r) (m_CurrentImageIndex r) ;;
  let extent := Swapchain.m_SwapChainExtent (m_Swapchain r) in
  api (Recorded commandBuffer (CmdBeginRenderPass (m_RenderPass r) framebuffer extent)) ;;
  api (Recorded commandBuffer (CmdBindPipeline (m_GraphicsPipeline r))) ;;
  api (Recorded commandBuffer (CmdSetViewport extent)) ;;
  api (Recorded commandBuffer (CmdSetScissor extent)) ;;
  r <- (match camera with
        | Some (view, proj) => UpdateCameraUBO D r (m_CurrentFrameIndex r) view proj
        | None => UpdateCameraUBO D r (m_CurrentFrameIndex r) 1 1
        end) ;;
  r <- UpdateLightUBO D r (m_CurrentFrameIndex r) ;;
  frameSet <- vector_at (m_FrameDescriptorSets r) (m_CurrentFrameIndex r) ;;
  api (Recorded commandBuffer (CmdBindDescriptorSets 0 frameSet)) ;;
  draw_renderables am commandBuffer renderables ;;
  RenderDrawData D ui commandBuffer ;;
  api (Recorded commandBuffer CmdEndRenderPass) ;;
  ret r.

(** [Renderer::EndFrameAndPresent]. *)
Definition EndFrameAndPresent (D : Driver) (r : Renderer) : M Renderer :=
  EndFrameRecording D (m_CommandManager r) (m_CurrentFrameIndex r) ;;
  commandBuffer <- vector_at (m_CommandBuffers (m_CommandManager r)) (m_CurrentFrameIndex r) ;;
  waitSemaphore <- vector_at (m_ImageAvailableSemaphores r) (m_CurrentFrameIndex r) ;;
  signalSemaphore <- vector_at (m_RenderFinishedSemaphores r) (m_CurrentFrameIndex r) ;;
  fence <- vector_at (m_InFlightFences r) (m_CurrentFrameIndex r) ;;
  api (VkQueueSubmit (graphicsQueue (m_VulkanContext r)) commandBuffer fence) ;;
  VK_CHECK (drv_vkQueueSubmit D (graphicsQueue (m_VulkanContext r)) commandBuffer fence) ;;
  let swapchain := Swapchain.m_SwapChain (m_Swapchain r) in
  api (VkQueuePresentKHR (presentQueue (m_VulkanContext r)) swapchain
         (m_CurrentImageIndex r)) ;;
  let result := drv_vkQueuePresentKHR D (presentQueue (m_VulkanContext r)) swapchain
                  (m_CurrentImageIndex r) in
  r <- (if (result =? VK_ERROR_OUT_OF_DATE_KHR) || (result =? VK_SUBOPTIMAL_KHR)
           || m_FramebufferResized r then
          ret (set_FramebufferResized r true)
        else if negb (result =? VK_SUCCESS) then
          emit_log ERROR "Failed to present swap chain image!" ;;
          throw (runtime_error "Failed to present swap chain image!")
        else ret r) ;;
  ret (set_CurrentFrameIndex r
         (Z.modulo (wrap32 (m_CurrentFrameIndex r + 1)) MAX_FRAMES_IN_FLIGHT)).

(** ** The driver's frame, as in [Application::Run] *)

Record FrameInput := {
  f_driver : Driver;
  f_assets : AssetManager;
  f_ui : UIManager;
  f_renderables : list RenderObjectInfo;
  f_camera : option (Z * Z)
}.

(** [if (BeginFrame()) { RecordCommands(...); EndFrameAndPresent(); }];
    the boolean tells whether the frame was rendered. *)
Definition RenderFrame (f : FrameInput) (r : Renderer) : M (bool * Renderer) :=
  '(began, r) <- BeginFrame (f_driver f) r ;;
  if began then
    r <- RecordCommands (f_driver f) (f_assets f) (f_ui f) r
           (f_renderables f) (f_camera f) ;;
    r <- EndFrameAndPresent (f_driver f) r ;;
    ret (true, r)
  else ret (false, r).

End Renderer.

(* ================================================================== *)
(** * Concrete drivers, contexts and renderers for the examples        *)
(* ================================================================== *)

Module Fixtures.
Import Buffer Renderer.

Definition all_blit_features : Z :=
  Z.lor VK_FORMAT_FEATURE_SAMPLED_IMAGE_FILTER_LINEAR_BIT
    (Z.lor VK_FORMAT_FEATURE_BLIT_SRC_BIT VK_FORMAT_FEATURE_BLIT_DST_BIT).

Definition test_capabilities : VkSurfaceCapabilitiesKHR :=
  {| cap_minImageCount := 2; cap_maxImageCount := 3;
     currentExtent := {| width := UINT32_MAX; height := UINT32_MAX |};
     minImageExtent := {| width := 1; height := 1 |};
     maxImageExtent := {| width := 4096; height := 4096 |} |}.

(** A driver on which every call succeeds; the format features, the
    result of the image acquisition and of the presentation, and what
    the surface supports are left to the example. *)
Definition test_driver (features : Z) (acquire : VkResult * Z) (present : VkResult)
    (support : SwapChainSupportDetails) : Driver :=
  {| drv_vkCreateBuffer := fun _ _ => (VK_SUCCESS, 11);
     drv_vkGetBufferMemoryRequirements := fun _ => {| mr_size := 256; memoryTypeBits := 1 |};
     drv_memoryTypes := [6];
     drv_vkAllocateMemory := fun _ _ => (VK_SUCCESS, 12);
     drv_vkBindBufferMemory := fun _ _ => VK_SUCCESS;
     drv_vkMapMemory := fun _ _ _ => (VK_SUCCESS, 13);
     drv_vkFlushMappedMemoryRanges := fun _ _ _ => VK_SUCCESS;
     drv_vkAllocateCommandBuffers := fun _ => (VK_SUCCESS, 21);
     drv_vkBeginCommandBuffer := fun _ => VK_SUCCESS;
     drv_vkEndCommandBuffer := fun _ => VK_SUCCESS;
     drv_vkResetCommandBuffer := fun _ => VK_SUCCESS;
     drv_vkCreateFence := (VK_SUCCESS, 31);
     drv_vkQueueSubmit := fun _ _ _ => VK_SUCCESS;
     drv_vkWaitForFences := fun _ => VK_SUCCESS;
     drv_vkResetFences := fun _ => VK_SUCCESS;
     drv_optimalTilingFeatures := fun _ => features;
     drv_vkAcquireNextImageKHR := fun _ _ => acquire;
     drv_vkQueuePresentKHR := fun _ _ _ => present;
     drv_QuerySwapChainSupport := fun _ => support;
     drv_vkCreateSwapchainKHR := fun _ _ _ _ => (VK_SUCCESS, 41);
     drv_vkGetSwapchainImagesKHR := fun _ => (VK_SUCCESS, [51; 52; 53]);
     drv_vkCreateImageView := fun img _ => (VK_SUCCESS, img + 100);
     drv_FindQueueFamilies := fun _ => (Some 0, Some 0);
     drv_minimizedPolls := O;
     drv_framebufferSize := (800, 600);
     drv_CreateDepthResources := fun _ => Some 61;
     drv_vkCreateRenderPass := fun _ => (VK_SUCCESS, 62);
     drv_CreateGraphicsPipeline := fun _ => Some (63, 64);
     drv_vkCreateFramebuffer := fun v => (VK_SUCCESS, v + 100);
     drv_mappedExtent := fun _ => 256;
     drv_vkCreateCommandPool := fun _ => (VK_SUCCESS, 20);
     drv_vkAllocateFrameCommandBuffers := fun _ _ => (VK_SUCCESS, [21; 22]);
     drv_vkCreateDescriptorSetLayout := fun bindings => (VK_SUCCESS, 65 + bindings);
     drv_vkCreateDescriptorPool := fun _ => (VK_SUCCESS, 70);
     drv_vkAllocateDescriptorSets := fun _ _ _ => (VK_SUCCESS, [71; 72]);
     drv_vkCreateSemaphore := (VK_SUCCESS, 81);
     drv_ImGui_ImplVulkan_RenderDrawData := fun _ => [VK_SUCCESS; VK_SUCCESS];
     drv_ImGui_UpdatePlatformWindows := [];
     drv_ImGui_RenderPlatformWindowsDefault := [VK_SUCCESS; VK_SUCCESS; VK_SUCCESS] |}.

Definition full_support : SwapChainSupportDetails :=
  {| capabilities := test_capabilities;
     formats := [ {| format := VK_FORMAT_B8G8R8A8_SRGB;
                     colorSpace := VK_COLOR_SPACE_SRGB_NONLINEAR_KHR |} ];
     presentModes := [VK_PRESENT_MODE_FIFO_KHR] |}.

Definition no_support : SwapChainSupportDetails :=
  {| capabilities := test_capabilities; formats := []; presentModes := [] |}.

Definition good_driver : Driver :=
  test_driver all_blit_features (VK_SUCCESS, 0) VK_SUCCESS full_support.

(** A context with a live device and a live surface. *)
Definition live_context : VulkanContext :=
  {| device := 1; physicalDevice := 2; surface := 3;
     graphicsQueue := 4; presentQueue := 5; imageCount := 0; minImageCount := 0 |}.

(** A live device without a surface. *)
Definition surfaceless_context : VulkanContext :=
  {| device := 1; physicalDevice := 2; surface := VK_NULL_HANDLE;
     graphicsQueue := 4; presentQueue := 5; imageCount := 0; minImageCount := 0 |}.

(** The context of [DummyVulkanContextSL]: Vulkan initialisation skipped. *)
Definition dummy_context : VulkanContext :=
  {| device := VK_NULL_HANDLE; physicalDevice := VK_NULL_HANDLE;
     surface := VK_NULL_HANDLE; graphicsQueue := VK_NULL_HANDLE;
     presentQueue := VK_NULL_HANDLE; imageCount := 0; minImageCount := 0 |}.

Definition host_visible_coherent : Z :=
  Z.lor VK_MEMORY_PROPERTY_HOST_VISIBLE_BIT VK_MEMORY_PROPERTY_HOST_COHERENT_BIT.

(** A uniform buffer as [CreateUniformBuffers] leaves it: host visible,
    coherent and persistently mapped. *)
Definition test_ubo (size : Z) : VulkanBuffer :=
  {| m_Buffer := 11; m_Memory := 12; m_MappedMemory := 13;
     m_BufferSize := size; m_InstanceCount := 1; m_InstanceSize := size;
     m_AlignmentSize := size; m_UsageFlags := 16;
     m_MemoryPropertyFlags := host_visible_coherent |}.

Definition test_swapchain : Swapchain.Swapchain :=
  {| Swapchain.m_CurrentWindowWidth := 800;
     Swapchain.m_CurrentWindowHeight := 600;
     Swapchain.m_SwapChain := 41;
     Swapchain.m_SwapChainImages := [51; 52; 53];
     Swapchain.m_SwapChainImageViews := [151; 152; 153];
     Swapchain.m_SwapChainImageFormat := VK_FORMAT_B8G8R8A8_SRGB;
     Swapchain.m_SwapChainExtent := {| width := 800; height := 600 |} |}.

(** A renderer as [InitVulkan] leaves it, with three swapchain images. *)
Definition test_renderer (resized : bool) : Renderer :=
  {| m_VulkanContext := live_context;
     m_Swapchain := test_swapchain;
     m_CommandManager := {| m_CommandPool := 20; m_CommandBuffers := [21; 22] |};
     m_RenderPass := 62; m_PipelineLayout := 63; m_GraphicsPipeline := 64;
     m_SwapChainFramebuffers := [251; 252; 253];
     m_DepthImageView := 61;
     m_UniformBuffers := [test_ubo 128; test_ubo 128];
     m_LightUniformBuffers := [test_ubo 32; test_ubo 32];
     m_FrameDescriptorSets := [71; 72];
     m_ImageAvailableSemaphores := [81; 82];
     m_RenderFinishedSemaphores := [83; 84];
     m_InFlightFences := [85; 86];
     m_CurrentFrameIndex := 0;
     m_CurrentImageIndex := 0;
     m_FramebufferResized := resized |}.

Definition vertex_buffer : VulkanBuffer :=
  {| m_Buffer := 91; m_Memory := 92; m_MappedMemory := 0;
     m_BufferSize := 1024; m_InstanceCount := 16; m_InstanceSize := 64;
     m_AlignmentSize := 64; m_UsageFlags := 128; m_MemoryPropertyFlags := 1 |}.

Definition index_buffer : VulkanBuffer :=
  {| m_Buffer := 93; m_Memory := 94; m_MappedMemory := 0;
     m_BufferSize := 144; m_InstanceCount := 36; m_InstanceSize := 4;
     m_AlignmentSize := 4; m_UsageFlags := 64; m_MemoryPropertyFlags := 1 |}.

Definition test_mesh (count : Z) (mat : N) : Mesh :=
  {| vertexBuffer := Some vertex_buffer; vertexBufferOffset := 0;
     indexBuffer := Some index_buffer; indexBufferOffset := 0;
     indexCount := count; material := mat |}.

(** Material 0 is bound, material 1 has no descriptor set yet. *)
Definition test_assets : AssetManager :=
  RealAssetManager
    [ {| name := "DefaultMaterial"; descriptorSet := 500 |};
      {| name := "Unbound"; descriptorSet := VK_NULL_HANDLE |} ] 0%N.

(** The UI as [UIManager::InitImGui] leaves it, with something to draw. *)
Definition test_ui : UIManager :=
  {| m_IsInitialized := true; has_draw_data := true; viewports_enabled := true |}.

(** The same driver with other answers to the ImGui backend. *)
Definition with_ui_results (D : Driver) (draw update render : list VkResult) : Driver :=
  {| drv_vkCreateBuffer := drv_vkCreateBuffer D;
     drv_vkGetBufferMemoryRequirements := drv_vkGetBufferMemoryRequirements D;
     drv_memoryTypes := drv_memoryTypes D;
     drv_vkAllocateMemory := drv_vkAllocateMemory D;
     drv_vkBindBufferMemory := drv_vkBindBufferMemory D;
     drv_vkMapMemory := drv_vkMapMemory D;
     drv_vkFlushMappedMemoryRanges := drv_vkFlushMappedMemoryRanges D;
     drv_vkAllocateCommandBuffers := drv_vkAllocateCommandBuffers D;
     drv_vkBeginCommandBuffer := drv_vkBeginCommandBuffer D;
     drv_vkEndCommandBuffer := drv_vkEndCommandBuffer D;
     drv_vkResetCommandBuffer := drv_vkResetCommandBuffer D;
     drv_vkCreateFence := drv_vkCreateFence D;
     drv_vkQueueSubmit := drv_vkQueueSubmit D;
     drv_vkWaitForFences := drv_vkWaitForFences D;
     drv_vkResetFences := drv_vkResetFences D;
     drv_optimalTilingFeatures := drv_optimalTilingFeatures D;
     drv_vkAcquireNextImageKHR := drv_vkAcquireNextImageKHR D;
     drv_vkQueuePresentKHR := drv_vkQueuePresentKHR D;
     drv_QuerySwapChainSupport := drv_QuerySwapChainSupport D;
     drv_vkCreateSwapchainKHR := drv_vkCreateSwapchainKHR D;
     drv_vkGetSwapchainImagesKHR := drv_vkGetSwapchainImagesKHR D;
     drv_vkCreateImageView := drv_vkCreateImageView D;
     drv_FindQueueFamilies := drv_FindQueueFamilies D;
     drv_minimizedPolls := drv_minimizedPolls D;
     drv_framebufferSize := drv_framebufferSize D;
     drv_CreateDepthResources := drv_CreateDepthResources D;
     drv_vkCreateRenderPass := drv_vkCreateRenderPass D;
     drv_CreateGraphicsPipeline := drv_CreateGraphicsPipeline D;
     drv_vkCreateFramebuffer := drv_vkCreateFramebuffer D;
     drv_mappedExtent := drv_mappedExtent D;
     drv_vkCreateCommandPool := drv_vkCreateCommandPool D;
     drv_vkAllocateFrameCommandBuffers := drv_vkAllocateFrameCommandBuffers D;
     drv_vkCreateDescriptorSetLayout := drv_vkCreateDescriptorSetLayout D;
     drv_vkCreateDescriptorPool := drv_vkCreateDescriptorPool D;
     drv_vkAllocateDescriptorSets := drv_vkAllocateDescriptorSets D;
     drv_vkCreateSemaphore := drv_vkCreateSemaphore D;
     drv_ImGui_ImplVulkan_RenderDrawData := fun _ => draw;
     drv_ImGui_UpdatePlatformWindows := update;
     drv_ImGui_RenderPlatformWindowsDefault := render |}.

(** A valid renderable, one whose material is not bound, one without a
    mesh, and another valid one. *)
Definition test_renderables : list RenderObjectInfo :=
  [ {| mesh := Some (test_mesh 36 0%N); transform := Some 7 |};
    {| mesh := Some (test_mesh 12 1%N); transform := Some 8 |};
    {| mesh := None; transform := Some 9 |};
    {| mesh := Some (test_mesh 6 0%N); transform := Some 10 |} ].

Definition test_frame : FrameInput :=
  {| f_driver := good_driver; f_assets := test_assets; f_ui := test_ui;
     f_renderables := test_renderables; f_camera := None |}.

End Fixtures.

(* ================================================================== *)
(** * Specification-level vocabulary                                   *)
(* ================================================================== *)

(** The notions the statements below are phrased in: the quantities the
    specification names, the conditions under which the driver lets an
    operation run to its end, and measures over the API trace. *)

Module Spec.
Import Buffer Utils Swapchain Renderer Fixtures.

(** ** Buffer *)

(** The spec's stride: the least multiple of [A] not below [S]. *)
Definition ceil_div (S A : Z) : Z := (S + A - 1) / A.
Definition spec_stride (S A : Z) : Z := ceil_div S A * A.
Definition spec_total (S C A : Z) : Z := spec_stride S A * C.

(** When the driver lets the constructor run to its end. *)
Definition creation_succeeds (D : Driver) (context : VulkanContext)
    (bufferSize usageFlags memoryPropertyFlags : Z) : bool :=
  negb (is_null (device context))
  && (fst (drv_vkCreateBuffer D bufferSize usageFlags) =? VK_SUCCESS)
  && (let buffer := snd (drv_vkCreateBuffer D bufferSize usageFlags) in
      let req := drv_vkGetBufferMemoryRequirements D buffer in
      match findMemoryType_from (drv_memoryTypes D) 0 (memoryTypeBits req)
              memoryPropertyFlags with
      | None => false
      | Some i =>
          (fst (drv_vkAllocateMemory D (mr_size req) i) =? VK_SUCCESS)
          && (drv_vkBindBufferMemory D buffer
                (snd (drv_vkAllocateMemory D (mr_size req) i)) =? VK_SUCCESS)
      end).

(** ** Utils *)

(** The five transitions the spec enumerates. *)
Definition enumerated_pairs : list (VkImageLayout * VkImageLayout) :=
  [ (VK_IMAGE_LAYOUT_UNDEFINED, VK_IMAGE_LAYOUT_TRANSFER_DST_OPTIMAL);
    (VK_IMAGE_LAYOUT_TRANSFER_DST_OPTIMAL, VK_IMAGE_LAYOUT_SHADER_READ_ONLY_OPTIMAL);
    (VK_IMAGE_LAYOUT_UNDEFINED, VK_IMAGE_LAYOUT_DEPTH_STENCIL_ATTACHMENT_OPTIMAL);
    (VK_IMAGE_LAYOUT_TRANSFER_DST_OPTIMAL, VK_IMAGE_LAYOUT_TRANSFER_SRC_OPTIMAL);
    (VK_IMAGE_LAYOUT_TRANSFER_SRC_OPTIMAL, VK_IMAGE_LAYOUT_SHADER_READ_ONLY_OPTIMAL) ].

(** Valid handles and a driver that accepts the one-shot submission. *)
Definition one_shot_succeeds (D : Driver) (device commandPool queue : Handle) : bool :=
  negb (is_null device) && negb (is_null commandPool) && negb (is_null queue)
  && (fst (drv_vkAllocateCommandBuffers D commandPool) =? VK_SUCCESS)
  && (let commandBuffer := snd (drv_vkAllocateCommandBuffers D commandPool) in
      negb (is_null commandBuffer)
      && (drv_vkBeginCommandBuffer D commandBuffer =? VK_SUCCESS)
      && (drv_vkEndCommandBuffer D commandBuffer =? VK_SUCCESS)
      && (fst (drv_vkCreateFence D) =? VK_SUCCESS)
      && (drv_vkQueueSubmit D queue commandBuffer (snd (drv_vkCreateFence D)) =? VK_SUCCESS)
      && (drv_vkWaitForFences D (snd (drv_vkCreateFence D)) =? VK_SUCCESS)).

(** Computations that never raise [std::invalid_argument]. *)
Definition never_invalid_argument {A} (m : M A) : Prop :=
  forall w what w', m w <> (Throw (invalid_argument what), w').

(** The commands one run of the loop records, for [n] remaining levels. *)
Fixpoint mip_cmds (n : nat) (image : Handle) (i mipWidth mipHeight : Z) : list Cmd :=
  match n with
  | O => []
  | S n' =>
      CmdPipelineBarrier VK_PIPELINE_STAGE_TRANSFER_BIT VK_PIPELINE_STAGE_TRANSFER_BIT
        (mip_barrier image (i - 1) 1
           VK_IMAGE_LAYOUT_TRANSFER_DST_OPTIMAL VK_IMAGE_LAYOUT_TRANSFER_SRC_OPTIMAL
           VK_ACCESS_TRANSFER_WRITE_BIT VK_ACCESS_TRANSFER_READ_BIT)
      :: CmdPipelineBarrier VK_PIPELINE_STAGE_TOP_OF_PIPE_BIT VK_PIPELINE_STAGE_TRANSFER_BIT
           (mip_barrier image i 1
              VK_IMAGE_LAYOUT_UNDEFINED VK_IMAGE_LAYOUT_TRANSFER_DST_OPTIMAL
              0 VK_ACCESS_TRANSFER_WRITE_BIT)
      :: CmdBlitImage (i - 1) mipWidth mipHeight i
           (if mipWidth >? 1 then Z.quot mipWidth 2 else 1)
           (if mipHeight >? 1 then Z.quot mipHeight 2 else 1)
      :: mip_cmds n' image (i + 1)
           (if mipWidth >? 1 then Z.quot mipWidth 2 else mipWidth)
           (if mipHeight >? 1 then Z.quot mipHeight 2 else mipHeight)
  end.

Definition is_blit (c : ApiCall) : bool :=
  match c with
  | Recorded _ (CmdBlitImage _ _ _ _ _ _) => true
  | _ => false
  end.

Definition blit_count (trace : list ApiCall) : nat := List.length (filter is_blit trace).
Arguments blit_count : simpl never.

Definition linear_filter_warning : LogEntry :=
  (WARN, "Mipmap generation: Texture format does not support linear blit filtering! Mipmaps may look worse.").
Definition no_blit_error : LogEntry :=
  (ERROR, "Mipmap generation: Texture format does not support blit operations (SRC or DST). Cannot generate mipmaps.").

Definition blit_only_features : Z :=
  Z.lor VK_FORMAT_FEATURE_BLIT_SRC_BIT VK_FORMAT_FEATURE_BLIT_DST_BIT.

(** ** Swapchain *)

(** The spec's clamp into [[lo, hi]]. *)
Definition clamp_into (v lo hi : Z) : Z := Z.max lo (Z.min v hi).

Definition fixed_capabilities : VkSurfaceCapabilitiesKHR :=
  {| cap_minImageCount := 2; cap_maxImageCount := 3;
     currentExtent := {| width := 800; height := 600 |};
     minImageExtent := {| width := 800; height := 600 |};
     maxImageExtent := {| width := 800; height := 600 |} |}.

Definition inadequate_support_error : exn :=
  runtime_error "Device does not adequately support swapchains (no formats/present modes).".
Definition null_surface_error : exn :=
  runtime_error "Cannot initialize swapchain with null device or surface.".

(** ** Renderer *)

(** [n] frames of the driver's loop rendered to completion, one after
    the other: each [BeginFrame] returned true, and [RecordCommands] and
    [EndFrameAndPresent] returned normally. *)
Inductive completed_cycles
  : Renderer -> World -> nat -> Renderer -> World -> Prop :=
| cycles_none r w : completed_cycles r w O r w
| cycles_step r w n r1 w1 f r2 w2 :
    completed_cycles r w n r1 w1 ->
    RenderFrame f r1 w1 = (Ok (true, r2), w2) ->
    completed_cycles r w (S n) r2 w2.

(** The indexed draws recorded in a trace, in order, by index count. *)
Definition is_draw (c : ApiCall) : option Z :=
  match c with
  | Recorded _ (CmdDrawIndexed n) => Some n
  | _ => None
  end.

Fixpoint draw_calls (trace : list ApiCall) : list Z :=
  match trace with
  | [] => []
  | c :: rest =>
      match is_draw c with
      | Some n => n :: draw_calls rest
      | None => draw_calls rest
      end
  end.

(** The soft-binding warnings in a log. *)
Definition is_soft_warning (e : LogEntry) : bool :=
  match fst e with
  | WARN => String.eqb (snd e) (snd null_descriptor_set_warning)
  | _ => false
  end.

Definition soft_warning_count (l : list LogEntry) : nat :=
  List.length (filter is_soft_warning l).

(** A renderable none of whose GPU handles is null draws its mesh; any
    other renderable draws nothing. *)
Definition draws_of (renderInfo : RenderObjectInfo) : list Z :=
  match mesh renderInfo, transform renderInfo with
  | Some m, Some _ =>
      match vertexBuffer m, indexBuffer m with
      | Some _, Some _ => [indexCount m]
      | _, _ => []
      end
  | _, _ => []
  end.

Definition expected_draws (renderables : list RenderObjectInfo) : list Z :=
  flat_map draws_of renderables.

(** The material a handle resolves to. *)
Definition material_of (am : AssetManager) (handle : N) : option Material :=
  match am with
  | NullAssetManager =>
      Some {| name := "DefaultMaterial"; descriptorSet := VK_NULL_HANDLE |}
  | RealAssetManager m_LoadedMaterials m_DefaultMaterial =>
      if (Z.of_N handle =? InvalidMaterialHandle)
         || (Z.of_N handle >=? Z.of_nat (List.length m_LoadedMaterials))
      then nth_error m_LoadedMaterials (N.to_nat m_DefaultMaterial)
      else nth_error m_LoadedMaterials (N.to_nat handle)
  end.

(** A renderable that is drawn although its material has no descriptor
    set: the cause of the soft-binding warning. *)
Definition unbound (am : AssetManager) (renderInfo : RenderObjectInfo) : bool :=
  match mesh renderInfo, transform renderInfo with
  | Some m, Some _ =>
      match vertexBuffer m, indexBuffer m with
      | Some _, Some _ =>
          match material_of am (material m) with
          | Some mat => is_null (descriptorSet mat)
          | None => false
          end
      | _, _ => false
      end
  | _, _ => false
  end.









End Spec.


(* ================================================================== *)
(** * Further operations of the same components                        *)
(* ================================================================== *)

(** ** Buffer.cpp: descriptors and moves *)

Module BufferOps.
Import Buffer.

Record VkDescriptorBufferInfo := {
  info_buffer : Handle;
  info_offset : Z;
  info_range : Z
}.

(** [VulkanBuffer::GetDescriptorInfo]. *)
Definition GetDescriptorInfo (b : VulkanBuffer) (size offset : Z)
  : M VkDescriptorBufferInfo :=
  if is_null (m_Buffer b) then
    emit_log ERROR "VulkanBuffer::GetDescriptorInfo: Buffer is null." ;;
    ret {| info_buffer := VK_NULL_HANDLE; info_offset := 0; info_range := 0 |}
  else
    ret {| info_buffer := m_Buffer b;
           info_offset := offset;
           info_range := if size =? VK_WHOLE_SIZE
                         then wrap64 (m_BufferSize b - offset) else size |}.

(** The move constructor [VulkanBuffer(VulkanBuffer&& other)]: the
    object constructed and what is left in [other]. *)
Definition move_construct (other : VulkanBuffer) : VulkanBuffer * VulkanBuffer :=
  ({| m_Buffer := m_Buffer other; m_Memory := m_Memory other;
      m_MappedMemory := m_MappedMemory other;
      m_BufferSize := m_BufferSize other;
      m_InstanceCount := m_InstanceCount other;
      m_InstanceSize := m_InstanceSize other;
      m_AlignmentSize := m_AlignmentSize other;
      m_UsageFlags := m_UsageFlags other;
      m_MemoryPropertyFlags := m_MemoryPropertyFlags other |},
   {| m_Buffer := VK_NULL_HANDLE; m_Memory := VK_NULL_HANDLE;
      m_MappedMemory := 0;
      m_BufferSize := 0;
      m_InstanceCount := 0;
      m_InstanceSize := m_InstanceSize other;
      m_AlignmentSize := m_AlignmentSize other;
      m_UsageFlags := m_UsageFlags other;
      m_MemoryPropertyFlags := m_MemoryPropertyFlags other |}).

End BufferOps.

(** ** VulkanUtils.cpp: the format finder *)

Module UtilsOps.

(** [VkImageTiling]. *)
Definition VK_IMAGE_TILING_OPTIMAL : Z := 0.
Definition VK_IMAGE_TILING_LINEAR : Z := 1.

(** [Utils::findSupportedFormat].  The driver record answers the
    optimal-tiling features of a format; [linearTilingFeatures] answers
    the other field of the same [VkFormatProperties]. *)
Fixpoint findSupportedFormat (D : Driver) (linearTilingFeatures : Z -> Z)
    (candidates : list Z) (tiling features : Z) : M Z :=
  match candidates with
  | [] => throw (runtime_error "Failed to find supported format!")
  | format :: rest =>
      api (VkGetPhysicalDeviceFormatProperties format) ;;
      if (tiling =? VK_IMAGE_TILING_LINEAR)
         && (Z.land (linearTilingFeatures format) features =? features)
      then ret format
      else if (tiling =? VK_IMAGE_TILING_OPTIMAL)
              && (Z.land (drv_optimalTilingFeatures D format) features =? features)
      then ret format
      else findSupportedFormat D linearTilingFeatures rest tiling features
  end.

End UtilsOps.

(** ** CommandManager.cpp: the checked accessor *)

Module CommandManagerOps.
Import Renderer.

(** [CommandManager::GetCommandBuffer]. *)
Definition GetCommandBuffer (cm : CommandManager) (frameIndex : Z) : M Handle :=
  if frameIndex >=? Z.of_nat (List.length (m_CommandBuffers cm)) then
    emit_log ERROR "CommandManager::GetCommandBuffer: Invalid frame index requested." ;;
    throw (out_of_range "Invalid command buffer frame index.")
  else vector_at (m_CommandBuffers cm) frameIndex.

End CommandManagerOps.

(* ================================================================== *)
(** * Vocabulary of the further properties                             *)
(* ================================================================== *)

Module Invariants.
Import Buffer BufferOps Utils UtilsOps Swapchain Renderer Fixtures Spec.

(** ** Traces *)

(** A computation that only ever appends to the API trace, and appends
    only calls satisfying [P], whether it returns, throws or runs into
    undefined behaviour. *)
Definition emits {A} (P : ApiCall -> Prop) (m : M A) : Prop :=
  forall w res w', m w = (res, w') ->
    exists t, calls w' = calls w ++ t /\ Forall P t.

(** A computation that never throws: it returns, or runs into undefined
    behaviour. *)
Definition never_throws {A} (m : M A) : Prop :=
  forall w e w', m w <> (Throw e, w').

(** ** Buffer *)

(** Memory type [i] is allowed by the filter and has the properties. *)
Definition suitable_memory_type (D : Driver) (typeFilter properties i : Z) : Prop :=
  0 <= i
  /\ Z.testbit typeFilter i = true
  /\ exists propertyFlags,
       nth_error (drv_memoryTypes D) (Z.to_nat i) = Some propertyFlags
       /\ Z.land propertyFlags properties = properties.

(** The size of a buffer is its stride times its element count. *)
Definition size_invariant (b : VulkanBuffer) : Prop :=
  m_BufferSize b = wrap64 (m_AlignmentSize b * m_InstanceCount b).

(** A buffer the driver can map: live handles, host-visible memory. *)
Definition mappable (b : VulkanBuffer) : Prop :=
  m_Buffer b <> VK_NULL_HANDLE /\ m_Memory b <> VK_NULL_HANDLE
  /\ has_flag (m_MemoryPropertyFlags b) VK_MEMORY_PROPERTY_HOST_VISIBLE_BIT = true.



(** A small live buffer for the examples: host visible, not coherent,
    not mapped. *)
Definition nonzero_buffer : VulkanBuffer :=
  {| m_Buffer := 11; m_Memory := 12; m_MappedMemory := 0;
     m_BufferSize := 256; m_InstanceCount := 4; m_InstanceSize := 64;
     m_AlignmentSize := 64; m_UsageFlags := 16;
     m_MemoryPropertyFlags := VK_MEMORY_PROPERTY_HOST_VISIBLE_BIT |}.

(** ** Utils *)

(** What [findSupportedFormat] tests on a candidate. *)
Definition format_supported (D : Driver) (linearTilingFeatures : Z -> Z)
    (tiling features format : Z) : Prop :=
  (tiling = VK_IMAGE_TILING_LINEAR
   /\ Z.land (linearTilingFeatures format) features = features)
  \/ (tiling = VK_IMAGE_TILING_OPTIMAL
      /\ Z.land (drv_optimalTilingFeatures D format) features = features).

(** Whether the driver accepts every call of a one-shot submission of
    [commandBuffer] on [queue]. *)
Definition submission_accepted (D : Driver) (queue commandBuffer : Handle) : bool :=
  (drv_vkEndCommandBuffer D commandBuffer =? VK_SUCCESS)
  && (fst (drv_vkCreateFence D) =? VK_SUCCESS)
  && (drv_vkQueueSubmit D queue commandBuffer (snd (drv_vkCreateFence D)) =? VK_SUCCESS)
  && (drv_vkWaitForFences D (snd (drv_vkCreateFence D)) =? VK_SUCCESS).

(** The extent of mip level [k] of an image whose base level has extent
    [size]: halved [k] times, rounding down, and never below 1. *)
Definition mip_extent (size : Z) (k : nat) : Z := Z.max 1 (Z.shiftr size (Z.of_nat k)).

(** The blits recorded in a trace, in order. *)
Definition blit_of (c : ApiCall) : option Cmd :=
  match c with
  | Recorded _ (CmdBlitImage srcMip srcW srcH dstMip dstW dstH) =>
      Some (CmdBlitImage srcMip srcW srcH dstMip dstW dstH)
  | _ => None
  end.

Fixpoint blits (trace : list ApiCall) : list Cmd :=
  match trace with
  | [] => []
  | c :: rest =>
      match blit_of c with
      | Some b => b :: blits rest
      | None => blits rest
      end
  end.

(** The blit that fills level [k + 1] from level [k]. *)
Definition level_blit (texWidth texHeight : Z) (k : nat) : Cmd :=
  CmdBlitImage (Z.of_nat k) (mip_extent texWidth k) (mip_extent texHeight k)
    (Z.of_nat k + 1) (mip_extent texWidth (S k)) (mip_extent texHeight (S k)).

(** ** Swapchain *)

(** One non-null view per image. *)
Definition views_match_images (s : Swapchain.Swapchain) : Prop :=
  List.length (m_SwapChainImageViews s) = List.length (m_SwapChainImages s)
  /\ Forall (fun v => v <> VK_NULL_HANDLE) (m_SwapChainImageViews s).

Definition live_views (views : list Handle) : list Handle :=
  filter (fun v => negb (is_null v)) views.

(** The surface format the engine prefers: 8-bit BGRA, sRGB. *)
Definition preferred_format (f : VkSurfaceFormatKHR) : Prop :=
  format f = VK_FORMAT_B8G8R8A8_SRGB /\ colorSpace f = VK_COLOR_SPACE_SRGB_NONLINEAR_KHR.

(** What [CleanupCurrentSwapchain] asks of the driver. *)
Definition teardown_calls (context : VulkanContext) (s : Swapchain.Swapchain)
  : list ApiCall :=
  if is_null (device context) then []
  else map VkDestroyImageView (live_views (m_SwapChainImageViews s))
       ++ (if is_null (m_SwapChain s) then []
           else [VkDestroySwapchainKHR (m_SwapChain s)]).

(** What a swapchain rebuild may ask of the driver and the window. *)
Definition rebuild_call (c : ApiCall) : Prop :=
  match c with
  | GetFramebufferSize | GlfwWaitEvents | VkDeviceWaitIdle
  | DestroySwapchainDependents | VkDestroyImageView _ | VkDestroySwapchainKHR _
  | VkCreateSwapchainKHR _ _ _ _ | VkGetSwapchainImagesKHR _ | VkCreateImageView _ _
  | CreateDepthResources _ | VkCreateRenderPass _ | CreateGraphicsPipeline _
  | VkCreateFramebuffer _ => True
  | _ => False
  end.

(** ** Renderer *)

(** What [BeginFrame] may ask of the driver: the synchronisation and
    acquisition of the frame slot, the reset and begin of its command
    buffer, and a rebuild. *)
Definition begin_call (c : ApiCall) : Prop :=
  match c with
  | VkWaitForFences _ | VkAcquireNextImageKHR _ _ | VkResetFences _
  | VkResetCommandBuffer _ | VkBeginCommandBuffer _ => True
  | _ => rebuild_call c
  end.

(** What [RecordCommands] issues by itself: commands recorded into the
    command buffer [cb], and the host-side traffic of the uniform-buffer
    writes. *)
Definition recording_call (cb : Handle) (c : ApiCall) : Prop :=
  match c with
  | Recorded cb' _ => cb' = cb
  | Memcpy _ _ | VkMapMemory _ _ _ | VkUnmapMemory _
  | VkFlushMappedMemoryRanges _ _ _ => True
  | _ => False
  end.

(** What it issues between the begin and the end of the render pass:
    the same, without a begin or an end of a render pass. *)
Definition inside_pass (cb : Handle) (c : ApiCall) : Prop :=
  match c with
  | Recorded _ (CmdBeginRenderPass _ _ _) | Recorded _ CmdEndRenderPass => False
  | Recorded cb' _ => cb' = cb
  | Memcpy _ _ | VkMapMemory _ _ _ | VkUnmapMemory _
  | VkFlushMappedMemoryRanges _ _ _ => True
  | _ => False
  end.

(** The multi-viewport calls of Dear ImGui, inside which ImGui acquires,
    records, submits and presents for its secondary windows. *)
Definition platform_window_call (c : ApiCall) : Prop :=
  match c with
  | ImGuiUpdatePlatformWindows | ImGuiRenderPlatformWindowsDefault => True
  | _ => False
  end.

(** Whether rendering the UI reaches the platform windows: the manager
    is initialised, there is something to draw and viewports are
    enabled. *)
Definition renders_platform_windows (ui : UIManager) : bool :=
  m_IsInitialized ui && has_draw_data ui && viewports_enabled ui.

(** What [RecordCommands] issues with the UI [ui]: its own recording
    calls and, when the UI reaches them, the platform-window calls. *)
Definition frame_call (ui : UIManager) (cb : Handle) (c : ApiCall) : Prop :=
  recording_call cb c
  \/ (renders_platform_windows ui = true /\ platform_window_call c).

(** The same between the begin and the end of the render pass. *)
Definition frame_call_inside_pass (ui : UIManager) (cb : Handle) (c : ApiCall) : Prop :=
  inside_pass cb c
  \/ (renders_platform_windows ui = true /\ platform_window_call c).

(** What a swapchain rebuild never touches: the command manager, the
    per-slot buffers, descriptor sets and synchronisation objects, and
    the two indices. *)
Definition same_frame_state (r r' : Renderer) : Prop :=
  m_CommandManager r' = m_CommandManager r
  /\ m_UniformBuffers r' = m_UniformBuffers r
  /\ m_LightUniformBuffers r' = m_LightUniformBuffers r
  /\ m_FrameDescriptorSets r' = m_FrameDescriptorSets r
  /\ m_ImageAvailableSemaphores r' = m_ImageAvailableSemaphores r
  /\ m_RenderFinishedSemaphores r' = m_RenderFinishedSemaphores r
  /\ m_InFlightFences r' = m_InFlightFences r
  /\ m_CurrentFrameIndex r' = m_CurrentFrameIndex r
  /\ m_CurrentImageIndex r' = m_CurrentImageIndex r.

(** One framebuffer per swapchain image view, one view per image. *)
Definition framebuffers_match_views (r : Renderer) : Prop :=
  List.length (m_SwapChainFramebuffers r)
  = List.length (m_SwapChainImageViews (m_Swapchain r))
  /\ views_match_images (m_Swapchain r).

(** The command buffer of the current frame slot. *)
Definition current_command_buffer (r : Renderer) : Handle :=
  nth (Z.to_nat (m_CurrentFrameIndex r)) (m_CommandBuffers (m_CommandManager r))
    VK_NULL_HANDLE.

(** The presentation results that ask for a new swapchain. *)
Definition wants_new_swapchain (result : VkResult) : bool :=
  (result =? VK_ERROR_OUT_OF_DATE_KHR) || (result =? VK_SUBOPTIMAL_KHR).

End Invariants.

(* ================================================================== *)
(** * Construction of the renderer and the renderer service            *)
(* ================================================================== *)

(** ** CommandManager.cpp and Renderer.cpp: the constructors *)

Module Construction.
Import Buffer BufferOps Renderer.

(** [VkBufferUsageFlagBits]. *)
Definition VK_BUFFER_USAGE_UNIFORM_BUFFER_BIT : Z := 16.

(** A vector of [n] handles, value-initialised by [resize] and then
    filled by the driver through [data()]. *)
Definition filled (n : nat) (answers : list Handle) : list Handle :=
  firstn n (answers ++ repeat VK_NULL_HANDLE n).

(** [CommandManager::CreateCommandPool]; the result is [m_CommandPool]. *)
Definition CreateCommandPool (D : Driver) (context : VulkanContext) : M Handle :=
  match fst (drv_FindQueueFamilies D (physicalDevice context)) with
  | None =>
      throw (runtime_error "Failed to find graphics queue family for command pool creation.")
  | Some graphicsFamily =>
      api (VkCreateCommandPool graphicsFamily) ;;
      let '(res, pool) := drv_vkCreateCommandPool D graphicsFamily in
      VK_CHECK res ;;
      emit_log INFO "Vulkan Command Pool Created." ;;
      ret pool
  end.

(** [CommandManager::CreateCommandBuffers]; the result is
    [m_CommandBuffers]. *)
Definition CreateCommandBuffers (D : Driver) (pool : Handle) (frameCount : Z)
  : M (list Handle) :=
  if is_null pool then
    emit_log ERROR "CommandManager::CreateCommandBuffers: Command pool is null!" ;;
    throw (runtime_error "Cannot create command buffers without a command pool.")
  else
    api (VkAllocateFrameCommandBuffers pool frameCount) ;;
    let '(res, buffers) := drv_vkAllocateFrameCommandBuffers D pool frameCount in
    VK_CHECK res ;;
    emit_log INFO "Allocated Primary Command Buffers." ;;
    ret (filled (Z.to_nat frameCount) buffers).

(** The constructor [CommandManager::CommandManager]. *)
Definition CommandManager_new (D : Driver) (context : VulkanContext) (frameCount : Z)
    (skipInit : bool) : M CommandManager :=
  if skipInit then
    emit_log WARN "CommandManager: Skipping Vulkan Initialization for Dummy/Null instance!" ;;
    ret {| m_CommandPool := VK_NULL_HANDLE; m_CommandBuffers := [] |}
  else if is_null (device context) then
    emit_log ERROR "CommandManager: Cannot initialize with a null Vulkan device in context!" ;;
    throw (runtime_error "CommandManager requires a valid Vulkan device.")
  else if frameCount =? 0 then
    emit_log ERROR "CommandManager: Frame count cannot be zero!" ;;
    throw (invalid_argument "CommandManager frame count must be greater than zero.")
  else
    emit_log INFO "Creating Command Manager..." ;;
    pool <- CreateCommandPool D context ;;
    if is_null pool then
      throw (runtime_error "Command pool creation failed in CommandManager constructor.")
    else
      buffers <- CreateCommandBuffers D pool frameCount ;;
      emit_log INFO "Command Manager Created." ;;
      ret {| m_CommandPool := pool; m_CommandBuffers := buffers |}.

(** [Renderer::CreateDescriptorSetLayouts]: the layout of the frame data
    (two bindings) and the layout of the material sampler (one). *)
Definition CreateDescriptorSetLayouts (D : Driver) : M (Handle * Handle) :=
  emit_log INFO "Creating Descriptor Set Layouts..." ;;
  api (VkCreateDescriptorSetLayout 2) ;;
  let '(res, frameLayout) := drv_vkCreateDescriptorSetLayout D 2 in
  VK_CHECK res ;;
  api (VkCreateDescriptorSetLayout 1) ;;
  let '(res, materialLayout) := drv_vkCreateDescriptorSetLayout D 1 in
  VK_CHECK res ;;
  emit_log INFO "Descriptor Set Layouts Created (Set0: Frame, Set1: Material)." ;;
  ret (frameLayout, materialLayout).

(** The loop of [CreateUniformBuffers] and of [CreateLightUniformBuffers]:
    a host-visible, host-coherent buffer of one instance per frame in
    flight, mapped whole for the life of the renderer. *)
Fixpoint create_uniform_buffers (D : Driver) (context : VulkanContext) (bufferSize : Z)
    (n : nat) : M (list VulkanBuffer) :=
  match n with
  | O => ret []
  | S n' =>
      b <- VulkanBuffer_new D context bufferSize 1 VK_BUFFER_USAGE_UNIFORM_BUFFER_BIT
             (Z.lor VK_MEMORY_PROPERTY_HOST_VISIBLE_BIT VK_MEMORY_PROPERTY_HOST_COHERENT_BIT)
             1 ;;
      '(res, b) <- Map D b VK_WHOLE_SIZE 0 ;;
      VK_CHECK res ;;
      rest <- create_uniform_buffers D context bufferSize n' ;;
      ret (b :: rest)
  end.

(** [Renderer::CreateUniformBuffers]. *)
Definition CreateUniformBuffers (D : Driver) (context : VulkanContext)
  : M (list VulkanBuffer) :=
  emit_log INFO "Creating Camera Uniform Buffers..." ;;
  create_uniform_buffers D context sizeof_CameraMatricesUBO (Z.to_nat MAX_FRAMES_IN_FLIGHT).

(** [Renderer::CreateLightUniformBuffers]. *)
Definition CreateLightUniformBuffers (D : Driver) (context : VulkanContext)
  : M (list VulkanBuffer) :=
  emit_log INFO "Creating Light Uniform Buffers..." ;;
  create_uniform_buffers D context sizeof_LightDataUBO (Z.to_nat MAX_FRAMES_IN_FLIGHT).

(** [Renderer::CreateDescriptorPool]. *)
Definition CreateDescriptorPool (D : Driver) : M Handle :=
  emit_log INFO "Creating Descriptor Pool (Frame + Material)..." ;;
  let maxTotalSets := wrap32 (MAX_FRAMES_IN_FLIGHT + 1000) in
  api (VkCreateDescriptorPool maxTotalSets) ;;
  let '(res, pool) := drv_vkCreateDescriptorPool D maxTotalSets in
  VK_CHECK res ;;
  emit_log INFO "Descriptor Pool Created." ;;
  ret pool.

(** The loop of [CreateFrameDescriptorSets], from slot [i] on. *)
Fixpoint update_frame_sets (sets : list Handle) (cameras lights : list VulkanBuffer)
    (i : Z) (n : nat) : M unit :=
  match n with
  | O => ret tt
  | S n' =>
      camera <- vector_at cameras i ;;
      cameraInfo <- GetDescriptorInfo camera sizeof_CameraMatricesUBO 0 ;;
      light <- vector_at lights i ;;
      lightInfo <- GetDescriptorInfo light sizeof_LightDataUBO 0 ;;
      set <- vector_at sets i ;;
      api (VkUpdateDescriptorSets set (info_buffer cameraInfo) (info_buffer lightInfo)) ;;
      update_frame_sets sets cameras lights (i + 1) n'
  end.

(** [Renderer::CreateFrameDescriptorSets]; the result is
    [m_FrameDescriptorSets]. *)
Definition CreateFrameDescriptorSets (D : Driver) (pool frameLayout : Handle)
    (cameras lights : list VulkanBuffer) : M (list Handle) :=
  emit_log INFO "Creating Frame Descriptor Sets (Set 0 - Camera UBO + Light UBO)..." ;;
  api (VkAllocateDescriptorSets pool frameLayout (wrap32 MAX_FRAMES_IN_FLIGHT)) ;;
  let '(res, answers) :=
    drv_vkAllocateDescriptorSets D pool frameLayout (wrap32 MAX_FRAMES_IN_FLIGHT) in
  VK_CHECK res ;;
  let sets := filled (Z.to_nat MAX_FRAMES_IN_FLIGHT) answers in
  update_frame_sets sets cameras lights 0 (Z.to_nat MAX_FRAMES_IN_FLIGHT) ;;
  emit_log INFO "Frame Descriptor Sets Updated." ;;
  ret sets.

(** The loop of [CreateSyncObjects]: per frame in flight the semaphore
    for the acquired image, the semaphore for the finished rendering and
    the fence. *)
Fixpoint create_sync_objects (D : Driver) (n : nat)
  : M (list Handle * list Handle * list Handle) :=
  match n with
  | O => ret ([], [], [])
  | S n' =>
      api VkCreateSemaphore ;;
      let '(res, imageAvailable) := drv_vkCreateSemaphore D in
      VK_CHECK res ;;
      api VkCreateSemaphore ;;
      let '(res, renderFinished) := drv_vkCreateSemaphore D in
      VK_CHECK res ;;
      api VkCreateFence ;;
      let '(res, inFlight) := drv_vkCreateFence D in
      VK_CHECK res ;;
      '(imageAvailables, renderFinisheds, inFlights) <- create_sync_objects D n' ;;
      ret (imageAvailable :: imageAvailables, renderFinished :: renderFinisheds,
           inFlight :: inFlights)
  end.

(** [Renderer::CreateSyncObjects]. *)
Definition CreateSyncObjects (D : Driver) : M (list Handle * list Handle * list Handle) :=
  emit_log INFO "Creating Synchronization Objects..." ;;
  r <- create_sync_objects D (Z.to_nat MAX_FRAMES_IN_FLIGHT) ;;
  emit_log INFO "Synchronization Objects Created." ;;
  ret r.

(** [Renderer::InitVulkan], all the constructor [Renderer::Renderer]
    does.  [context] is the context that
    [std::make_unique<VulkanContext>(m_Window)] has returned, [width] and
    [height] what the window reports. *)
Definition InitVulkan (D : Driver) (context : VulkanContext) (width height : Z)
  : M Renderer :=
  emit_log INFO "Renderer: Initializing Vulkan Resources..." ;;
  cm <- CommandManager_new D context MAX_FRAMES_IN_FLIGHT false ;;
  '(s, context) <- Swapchain.Swapchain_new D context (wrap32 width) (wrap32 height)
                     VK_NULL_HANDLE ;;
  '(frameLayout, materialLayout) <- CreateDescriptorSetLayouts D ;;
  cameras <- CreateUniformBuffers D context ;;
  lights <- CreateLightUniformBuffers D context ;;
  pool <- CreateDescriptorPool D ;;
  sets <- CreateFrameDescriptorSets D pool frameLayout cameras lights ;;
  '(imageAvailable, renderFinished, inFlight) <- CreateSyncObjects D ;;
  r <- CreateSwapchainDependents D
         {| m_VulkanContext := context;
            m_Swapchain := s;
            m_CommandManager := cm;
            m_RenderPass := VK_NULL_HANDLE;
            m_PipelineLayout := VK_NULL_HANDLE;
            m_GraphicsPipeline := VK_NULL_HANDLE;
            m_SwapChainFramebuffers := [];
            m_DepthImageView := VK_NULL_HANDLE;
            m_UniformBuffers := cameras;
            m_LightUniformBuffers := lights;
            m_FrameDescriptorSets := sets;
            m_ImageAvailableSemaphores := imageAvailable;
            m_RenderFinishedSemaphores := renderFinished;
            m_InFlightFences := inFlight;
            m_CurrentFrameIndex := 0;
            m_CurrentImageIndex := 0;
            m_FramebufferResized := false |} ;;
  let context :=
    Swapchain.set_imageCount (m_VulkanContext r)
      (wrap32 (Z.of_nat (List.length (Swapchain.m_SwapChainImages (m_Swapchain r))))) in
  emit_log INFO "Renderer: Vulkan Initialization Complete." ;;
  ret (set_swapchain r context (m_Swapchain r) (m_RenderPass r) (m_PipelineLayout r)
         (m_GraphicsPipeline r) (m_DepthImageView r) (m_SwapChainFramebuffers r)).

End Construction.

(** ** ServiceLocator.h: the renderer service *)

Module Service.
Import Renderer Construction Fixtures.

(** The renderer a caller holds: a [Renderer] that was constructed, or
    the [NullRenderer] stand-in for running without a display, which
    overrides every method of the interface and keeps the static
    [DummyWindowSL], [DummyVulkanContextSL] and [DummyCommandManagerSL]. *)
Inductive RendererService : Type :=
| RealRenderer (r : Renderer)
| NullRenderer.


(** The virtual [BeginFrame]: [Renderer::BeginFrame], or the override
    [NullRenderer::BeginFrame], which returns false. *)
Definition BeginFrame (D : Driver) (s : RendererService) : M (bool * RendererService) :=
  match s with
  | RealRenderer r =>
      '(began, r) <- Renderer.BeginFrame D r ;;
      ret (began, RealRenderer r)
  | NullRenderer => ret (false, NullRenderer)
  end.




End Service.
(* ================================================================== *)
(** * Verified properties                                              *)
(* ================================================================== *)


(** ** Equations of the effect monad *)

Module MonadFacts.

Lemma bind_ret {A B} (a : A) (k : A -> M B) w : bind (ret a) k w = k a w.
Proof. reflexivity. Qed.

Lemma bind_api {B} c (k : unit -> M B) w :
  bind (api c) k w
  = k tt {| log := log w; calls := calls w ++ [c];
            warned_null_descriptor_set := warned_null_descriptor_set w |}.
Proof. reflexivity. Qed.

Lemma bind_log {B} l msg (k : unit -> M B) w :
  bind (emit_log l msg) k w
  = k tt {| log := log w ++ [(l, msg)]; calls := calls w;
            warned_null_descriptor_set := warned_null_descriptor_set w |}.
Proof. reflexivity. Qed.

Lemma bind_run {A B} (m : M A) (k : A -> M B) w a w' :
  m w = (Ok a, w') -> bind m k w = k a w'.
Proof. intros E. unfold bind. rewrite E. reflexivity. Qed.

Lemma bind_throw {A B} (m : M A) (k : A -> M B) w e w' :
  m w = (Throw e, w') -> bind m k w = (Throw e, w').
Proof. intros E. unfold bind. rewrite E. reflexivity. Qed.

Lemma bind_ok_inv {A B} (m : M A) (k : A -> M B) w b w' :
  bind m k w = (Ok b, w') ->
  exists a w1, m w = (Ok a, w1) /\ k a w1 = (Ok b, w').
Proof.
  unfold bind. destruct (m w) as [[a | e |] w1]; intros H; try discriminate.
  exists a, w1. split; [reflexivity | exact H].
Qed.

Lemma bind_assoc {A B C} (m : M A) (f : A -> M B) (g : B -> M C) w :
  bind (bind m f) g w = bind m (fun x => bind (f x) g) w.
Proof. unfold bind. destruct (m w) as [[a | e |] w']; reflexivity. Qed.

Lemma world_eta w :
  {| log := log w; calls := calls w;
     warned_null_descriptor_set := warned_null_descriptor_set w |} = w.
Proof. destruct w; reflexivity. Qed.

Lemma VK_CHECK_success res w : res = VK_SUCCESS -> VK_CHECK res w = (Ok tt, w).
Proof. intros ->. reflexivity. Qed.

Lemma VK_CHECK_cases res w :
  VK_CHECK res w = (Ok tt, w) \/ exists e w', VK_CHECK res w = (Throw e, w').
Proof.
  unfold VK_CHECK. destruct (res =? VK_SUCCESS).
  - left. reflexivity.
  - right. eexists. eexists. reflexivity.
Qed.

Lemma vector_at_nth {A} (v : list A) (i : Z) (a : A) w :
  0 <= i -> nth_error v (Z.to_nat i) = Some a -> vector_at v i w = (Ok a, w).
Proof.
  intros Hi E. unfold vector_at.
  destruct (Z.ltb_spec i 0); [lia|]. rewrite E. reflexivity.
Qed.

End MonadFacts.
Import MonadFacts.
Module BufferCorrect.
Import Buffer Fixtures Spec.

Lemma land_wrap64_r a b :
  0 <= a < 2 ^ 64 -> Z.land a (wrap64 b) = Z.land a b.
Proof.
  intros Ha. unfold wrap64.
  rewrite <- (Z.land_ones b 64) by lia.
  rewrite (Z.land_comm b), Z.land_assoc, (Z.land_ones a 64) by lia.
  rewrite Z.mod_small by lia. reflexivity.
Qed.

Lemma wrap64_range z : 0 <= wrap64 z < 2 ^ 64.
Proof. unfold wrap64. apply Z.mod_pos_bound. lia. Qed.

(** Clearing the low [k] bits rounds down to a multiple of [2^k], and
    this commutes with the 64-bit wrap-around. *)
Lemma mask_low_bits k x :
  0 <= k < 64 ->
  Z.land (wrap64 x) (not64 (wrap64 (2 ^ k - 1))) = wrap64 (x / 2 ^ k * 2 ^ k).
Proof.
  intros Hk.
  assert (HA : 0 < 2 ^ k) by (apply Z.pow_pos_nonneg; lia).
  assert (HAlt : 2 ^ k < 2 ^ 64) by (apply Z.pow_lt_mono_r; lia).
  assert (HB : 0 < 2 ^ (64 - k)) by (apply Z.pow_pos_nonneg; lia).
  assert (Hsplit : 2 ^ 64 = 2 ^ k * 2 ^ (64 - k)).
  { rewrite <- Z.pow_add_r by lia. f_equal. lia. }
  unfold not64.
  rewrite land_wrap64_r by apply wrap64_range.
  replace (wrap64 (2 ^ k - 1)) with (Z.ones k).
  2:{ rewrite Z.ones_equiv. unfold wrap64. rewrite Z.mod_small; lia. }
  rewrite <- Z.ldiff_land, Z.ldiff_ones_r by lia.
  rewrite Z.shiftr_div_pow2, Z.shiftl_mul_pow2 by lia.
  unfold wrap64. rewrite Hsplit.
  rewrite (Z.mul_comm (x / 2 ^ k) (2 ^ k)), Zmult_mod_distr_l.
  rewrite Z.rem_mul_r by lia.
  rewrite (Z.mul_comm (2 ^ k) ((x / 2 ^ k) mod 2 ^ (64 - k))).
  rewrite Z.div_add by lia.
  rewrite (Z.div_small (x mod 2 ^ k)) by (apply Z.mod_pos_bound; lia).
  lia.
Qed.

Lemma CalculateAlignment_pow2 k S :
  0 <= k < 64 ->
  CalculateAlignment S (2 ^ k) = wrap64 (spec_stride S (2 ^ k)).
Proof.
  intros Hk. unfold CalculateAlignment, spec_stride, ceil_div.
  assert (HA : 0 < 2 ^ k) by (apply Z.pow_pos_nonneg; lia).
  destruct (Z.gtb_spec (2 ^ k) 0); [| lia].
  replace (wrap64 (wrap64 (S + 2 ^ k) - 1)) with (wrap64 (S + 2 ^ k - 1)).
  2:{ unfold wrap64. rewrite Zminus_mod_idemp_l. reflexivity. }
  apply mask_low_bits. exact Hk.
Qed.

Lemma VulkanBuffer_new_succeeds D context S C usage props A w :
  S <> 0 -> C <> 0 ->
  creation_succeeds D context (wrap64 (CalculateAlignment S A * C)) usage props = true ->
  exists b w',
    VulkanBuffer_new D context S C usage props A w = (Ok b, w')
    /\ m_AlignmentSize b = CalculateAlignment S A
    /\ m_BufferSize b = wrap64 (CalculateAlignment S A * C)
    /\ m_InstanceCount b = C.
Proof.
  intros HS HC Hok. unfold creation_succeeds in Hok.
  unfold VulkanBuffer_new.
  destruct (Z.eqb_spec C 0); [contradiction|].
  destruct (Z.eqb_spec S 0); [contradiction|]. cbn [orb].
  apply andb_prop in Hok. destruct Hok as [Hok Hrest].
  apply andb_prop in Hok. destruct Hok as [Hdev Hcreate].
  apply negb_true_iff in Hdev. rewrite Hdev.
  unfold findMemoryType, bind, api, VK_CHECK, ret in *. cbn.
  destruct (drv_vkCreateBuffer D _ usage) as [res buffer]. cbn in *.
  rewrite Hcreate. cbn.
  destruct (findMemoryType_from _ 0 _ props) as [i|]; [| discriminate]. cbn.
  destruct (drv_vkAllocateMemory D _ i) as [res' memory]. cbn in *.
  apply andb_prop in Hrest. destruct Hrest as [Halloc Hbind].
  rewrite Halloc. cbn. rewrite Hbind. cbn.
  eexists. eexists. split; [reflexivity|]. cbn. auto.
Qed.

(** ** C1 *)

(** C1 (amended): for an element size [S > 0], a count [C > 0] and an
    alignment that is a power of two [2^k], a buffer whose creation the
    driver accepts has aligned stride [ceil(S/A)*A] and total size
    [ceil(S/A)*A*C], both in 64-bit unsigned arithmetic; when the product
    fits in 64 bits the total is exactly [ceil(S/A)*A*C]. *)
Theorem C1_total_size_power_of_two_alignment :
  forall D context S C usage props k w,
    0 < S -> 0 < C -> 0 <= k < 64 ->
    creation_succeeds D context
      (wrap64 (CalculateAlignment S (2 ^ k) * C)) usage props = true ->
    exists b w',
      VulkanBuffer_new D context S C usage props (2 ^ k) w = (Ok b, w')
      /\ m_AlignmentSize b = wrap64 (spec_stride S (2 ^ k))
      /\ m_BufferSize b = wrap64 (spec_total S C (2 ^ k))
      /\ (spec_total S C (2 ^ k) < 2 ^ 64 ->
          m_BufferSize b = spec_total S C (2 ^ k)).
Proof.
  intros D context S C usage props k w HS HC Hk Hok.
  destruct (VulkanBuffer_new_succeeds D context S C usage props (2 ^ k) w)
    as (b & w' & Hrun & Hal & Hsz & _); try lia; try assumption.
  exists b, w'. split; [exact Hrun|].
  rewrite Hal, Hsz, CalculateAlignment_pow2 by exact Hk.
  assert (Htot : wrap64 (wrap64 (spec_stride S (2 ^ k)) * C)
                 = wrap64 (spec_total S C (2 ^ k))).
  { unfold wrap64, spec_total. rewrite Z.mul_mod_idemp_l by lia. reflexivity. }
  repeat split; try exact Htot.
  intros Hfit. rewrite Htot. unfold wrap64. apply Z.mod_small.
  split; [| exact Hfit].
  unfold spec_total, spec_stride, ceil_div.
  assert (0 < 2 ^ k) by (apply Z.pow_pos_nonneg; lia).
  assert (0 <= (S + 2 ^ k - 1) / 2 ^ k) by (apply Z.div_pos; lia).
  nia.
Qed.

Lemma C1_total_size_witness :
  exists b w',
    VulkanBuffer_new good_driver live_context 100 3 16 host_visible_coherent (2 ^ 4)
      empty_world = (Ok b, w')
    /\ m_AlignmentSize b = wrap64 (spec_stride 100 (2 ^ 4))
    /\ m_BufferSize b = wrap64 (spec_total 100 3 (2 ^ 4))
    /\ (spec_total 100 3 (2 ^ 4) < 2 ^ 64 ->
        m_BufferSize b = spec_total 100 3 (2 ^ 4)).
Proof.
  apply (C1_total_size_power_of_two_alignment good_driver live_context
           100 3 16 host_visible_coherent 4 empty_world);
    [lia | lia | lia | reflexivity].
Defined.

(** C1 as stated fails for an alignment that is not a power of two:
    with element size 4, one element and alignment 3 the buffer is 4
    bytes long, while [ceil(4/3)*3*1 = 6]. *)
Lemma C1_counterexample_alignment_three :
  exists b w',
    VulkanBuffer_new good_driver live_context 4 1 16 host_visible_coherent 3
      empty_world = (Ok b, w')
    /\ m_BufferSize b = 4
    /\ spec_total 4 1 3 = 6
    /\ m_BufferSize b <> spec_total 4 1 3.
Proof.
  eexists. eexists. split; [vm_compute; reflexivity|].
  repeat split; try reflexivity. discriminate.
Qed.

(** ** C10 *)

(** C10: constructing a buffer with element count 0 or element size 0
    does not throw: for any driver and any context the constructor logs
    one error, issues no driver call (nothing is allocated) and returns
    a buffer with total size 0, aligned stride 0 and null buffer, memory
    and mapping handles. *)
Theorem C10_zero_count_or_size_returns_empty_buffer :
  forall D context S C usage props A w,
    C = 0 \/ S = 0 ->
    exists b,
      VulkanBuffer_new D context S C usage props A w
      = (Ok b,
         {| log := log w ++ [(ERROR, "VulkanBuffer: Instance count or size cannot be zero.")];
            calls := calls w;
            warned_null_descriptor_set := warned_null_descriptor_set w |})
      /\ m_BufferSize b = 0
      /\ m_AlignmentSize b = 0
      /\ m_Buffer b = VK_NULL_HANDLE
      /\ m_Memory b = VK_NULL_HANDLE
      /\ m_MappedMemory b = 0.
Proof.
  intros D context S C usage props A w H.
  unfold VulkanBuffer_new.
  assert (E : (C =? 0) || (S =? 0) = true).
  { destruct H as [-> | ->]; [reflexivity | apply orb_true_r]. }
  rewrite E. eexists. split; [reflexivity|]. cbn. auto.
Qed.

Lemma C10_zero_count_witness :
  exists b,
    VulkanBuffer_new good_driver dummy_context 64 0 16 host_visible_coherent 1 empty_world
    = (Ok b,
       {| log := [(ERROR, "VulkanBuffer: Instance count or size cannot be zero.")];
          calls := [];
          warned_null_descriptor_set := false |})
    /\ m_BufferSize b = 0
    /\ m_AlignmentSize b = 0
    /\ m_Buffer b = VK_NULL_HANDLE
    /\ m_Memory b = VK_NULL_HANDLE
    /\ m_MappedMemory b = 0.
Proof.
  apply (C10_zero_count_or_size_returns_empty_buffer good_driver dummy_context
           64 0 16 host_visible_coherent 1 empty_world).
  left. reflexivity.
Defined.

End BufferCorrect.

Module UtilsCorrect.
Import Utils Fixtures Spec.

(** Beginning a one-shot command buffer returns or throws; it has no
    undefined behaviour. *)
Lemma BeginSingleTimeCommands_cases D device commandPool w :
  (exists cb w', BeginSingleTimeCommands D device commandPool w = (Ok cb, w'))
  \/ (exists e w', BeginSingleTimeCommands D device commandPool w = (Throw e, w')).
Proof.
  unfold BeginSingleTimeCommands.
  destruct (is_null device || is_null commandPool).
  - right. eexists. eexists. reflexivity.
  - destruct (drv_vkAllocateCommandBuffers D commandPool) as [res cb].
    unfold bind, api, ret. cbn.
    match goal with |- context [VK_CHECK res ?w0] =>
      destruct (VK_CHECK_cases res w0) as [E | (e & w' & E)]; rewrite E end.
    + match goal with |- context [VK_CHECK ?r ?w0] =>
        destruct (VK_CHECK_cases r w0) as [E' | (e & w' & E')]; rewrite E' end.
      * left. eexists. eexists. reflexivity.
      * right. eexists. eexists. reflexivity.
    + right. eexists. eexists. reflexivity.
Qed.

Lemma BeginSingleTimeCommands_succeeds D device commandPool queue w :
  one_shot_succeeds D device commandPool queue = true ->
  BeginSingleTimeCommands D device commandPool w
  = (Ok (snd (drv_vkAllocateCommandBuffers D commandPool)),
     {| log := log w;
        calls := calls w ++ [VkAllocateCommandBuffers commandPool;
                             VkBeginCommandBuffer
                               (snd (drv_vkAllocateCommandBuffers D commandPool))];
        warned_null_descriptor_set := warned_null_descriptor_set w |}).
Proof.
  unfold one_shot_succeeds. intros H.
  repeat (apply andb_prop in H; destruct H as [H ?]).
  match goal with H : _ && _ = true |- _ =>
    repeat (apply andb_prop in H; destruct H as [H ?]) end.
  unfold BeginSingleTimeCommands.
  apply negb_true_iff in H. rewrite H.
  match goal with H : negb (is_null commandPool) = true |- _ =>
    apply negb_true_iff in H; rewrite H end.
  cbn [orb].
  destruct (drv_vkAllocateCommandBuffers D commandPool) as [res cb]. cbn [fst snd] in *.
  unfold bind, api, ret. cbn.
  rewrite VK_CHECK_success by (apply Z.eqb_eq; assumption).
  rewrite VK_CHECK_success by (apply Z.eqb_eq; assumption).
  cbn. rewrite <- app_assoc. reflexivity.
Qed.

Lemma EndSingleTimeCommands_succeeds D device commandPool queue w :
  one_shot_succeeds D device commandPool queue = true ->
  exists w',
    EndSingleTimeCommands D device commandPool queue
      (snd (drv_vkAllocateCommandBuffers D commandPool)) w = (Ok tt, w')
    /\ log w' = log w
    /\ exists tail, calls w' = calls w ++ tail
         /\ forall cb c, ~ In (Recorded cb c) tail.
Proof.
  unfold one_shot_succeeds. intros H.
  repeat (apply andb_prop in H; destruct H as [H ?]).
  match goal with H : _ && _ = true |- _ =>
    repeat (apply andb_prop in H; destruct H as [H ?]) end.
  unfold EndSingleTimeCommands.
  repeat match goal with H : negb _ = true |- _ =>
    apply negb_true_iff in H; rewrite H end.
  cbn [orb].
  destruct (drv_vkCreateFence D) as [res fence]. cbn [fst snd] in *.
  unfold bind, api, ret. cbn.
  repeat (rewrite VK_CHECK_success by (apply Z.eqb_eq; assumption); cbn).
  eexists. split; [reflexivity|]. cbn. split; [reflexivity|].
  repeat rewrite <- app_assoc. cbn.
  eexists. split; [reflexivity|].
  intros cb c Hin. cbn in Hin.
  repeat (destruct Hin as [Hin | Hin]; [discriminate|]). exact Hin.
Qed.


Lemma nia_ret {A} (a : A) : never_invalid_argument (ret a).
Proof. intros w what w' H. discriminate. Qed.

Lemma nia_api c : never_invalid_argument (api c).
Proof. intros w what w' H. discriminate. Qed.

Lemma nia_log l msg : never_invalid_argument (emit_log l msg).
Proof. intros w what w' H. discriminate. Qed.

Lemma nia_throw_runtime {A} msg : never_invalid_argument (@throw A (runtime_error msg)).
Proof. intros w what w' H. discriminate. Qed.

Lemma nia_bind {A B} (m : M A) (k : A -> M B) :
  never_invalid_argument m ->
  (forall a, never_invalid_argument (k a)) ->
  never_invalid_argument (bind m k).
Proof.
  intros Hm Hk w what w' H. unfold bind in H.
  destruct (m w) as [[a | e |] w1] eqn:E.
  - exact (Hk a w1 what w' H).
  - injection H as -> ->. exact (Hm w what w' E).
  - discriminate.
Qed.

Ltac solve_nia :=
  repeat first
    [ apply nia_ret | apply nia_api | apply nia_log | apply nia_throw_runtime
    | apply nia_bind; [| intros ?]
    | match goal with
      | |- never_invalid_argument (if ?b then _ else _) => destruct b
      | |- never_invalid_argument (let '(_, _) := ?p in _) => destruct p
      end ].

Lemma nia_VK_CHECK res : never_invalid_argument (VK_CHECK res).
Proof. unfold VK_CHECK. solve_nia. Qed.

Lemma BeginSingleTimeCommands_nia D device commandPool :
  never_invalid_argument (BeginSingleTimeCommands D device commandPool).
Proof. unfold BeginSingleTimeCommands. solve_nia; apply nia_VK_CHECK. Qed.

Lemma EndSingleTimeCommands_nia D device commandPool queue cb :
  never_invalid_argument (EndSingleTimeCommands D device commandPool queue cb).
Proof. unfold EndSingleTimeCommands. solve_nia; apply nia_VK_CHECK. Qed.

(** The cascade selects a transition for the enumerated pairs and for
    no other pair. *)
Lemma select_transition_accepts_exactly oldLayout newLayout :
  (exists t, select_transition oldLayout newLayout = Some t)
  <-> In (oldLayout, newLayout) enumerated_pairs.
Proof.
  unfold select_transition, enumerated_pairs.
  unfold VK_IMAGE_LAYOUT_UNDEFINED, VK_IMAGE_LAYOUT_TRANSFER_DST_OPTIMAL,
    VK_IMAGE_LAYOUT_SHADER_READ_ONLY_OPTIMAL,
    VK_IMAGE_LAYOUT_DEPTH_STENCIL_ATTACHMENT_OPTIMAL,
    VK_IMAGE_LAYOUT_TRANSFER_SRC_OPTIMAL.
  cbn [In].
  destruct (Z.eqb_spec oldLayout 0); destruct (Z.eqb_spec oldLayout 7);
    destruct (Z.eqb_spec oldLayout 6); try lia;
    destruct (Z.eqb_spec newLayout 7); destruct (Z.eqb_spec newLayout 5);
    destruct (Z.eqb_spec newLayout 3); destruct (Z.eqb_spec newLayout 6);
    try lia; subst; cbn [andb];
    (split;
     [ intros [t Ht]; try discriminate; auto 6
     | intros Hin; try (eexists; reflexivity);
       repeat (destruct Hin as [Hin | Hin];
               [injection Hin; intros; lia |]); contradiction ]).
Qed.

(** ** C2 *)

(** C2: [TransitionImageLayout] accepts exactly the five enumerated
    (old, new) layout pairs.  For every other pair it raises, whatever the
    driver answers; for an enumerated pair it never raises the
    unsupported-transition error and, with valid device, pool and queue
    handles and a driver that accepts the one-shot submission, it returns
    normally after recording one pipeline barrier carrying the access
    masks and stages selected for that pair. *)
Theorem C2_transition_table_is_closed :
  forall D device commandPool queue image fmt oldLayout newLayout
         mipLevels baseMip layers baseLayer w,
    let run := TransitionImageLayout D device commandPool queue image fmt
                 oldLayout newLayout mipLevels baseMip layers baseLayer w in
    ((exists t, select_transition oldLayout newLayout = Some t)
     <-> In (oldLayout, newLayout) enumerated_pairs)
    /\ (~ In (oldLayout, newLayout) enumerated_pairs ->
        exists e w', run = (Throw e, w'))
    /\ (In (oldLayout, newLayout) enumerated_pairs ->
        (forall what w', run <> (Throw (invalid_argument what), w'))
        /\ (one_shot_succeeds D device commandPool queue = true ->
            exists t w',
              select_transition oldLayout newLayout = Some t
              /\ run = (Ok tt, w')
              /\ In (Recorded (snd (drv_vkAllocateCommandBuffers D commandPool))
                       (CmdPipelineBarrier (t_sourceStage t) (t_destinationStage t)
                          (transition_barrier image fmt oldLayout newLayout
                             mipLevels baseMip layers baseLayer t)))
                    (calls w'))).
Proof.
  intros D device commandPool queue image fmt oldLayout newLayout
         mipLevels baseMip layers baseLayer w run.
  pose proof (select_transition_accepts_exactly oldLayout newLayout) as Htable.
  split; [exact Htable|]. split.
  - intros Hnot. subst run. unfold TransitionImageLayout, bind.
    destruct (BeginSingleTimeCommands_cases D device commandPool w)
      as [(cb & w' & E) | (e & w' & E)]; rewrite E.
    + destruct (select_transition oldLayout newLayout) as [t|] eqn:Et.
      * exfalso. apply Hnot, Htable. eauto.
      * eexists. eexists. reflexivity.
    + eexists. eexists. reflexivity.
  - intros Hin. apply Htable in Hin. destruct Hin as [t Et]. split.
    + intros what w'. subst run. unfold TransitionImageLayout.
      apply nia_bind; [apply BeginSingleTimeCommands_nia | intros cb].
      rewrite Et.
      apply nia_bind; [apply nia_api | intros _].
      apply EndSingleTimeCommands_nia.
    + intros Hok. exists t. subst run.
      unfold TransitionImageLayout, bind.
      rewrite (BeginSingleTimeCommands_succeeds D device commandPool queue w Hok).
      rewrite Et. unfold api at 1. cbn.
      match goal with |- context [EndSingleTimeCommands _ _ _ _ _ ?w0] =>
        destruct (EndSingleTimeCommands_succeeds D device commandPool queue w0 Hok)
          as (w' & E & _ & tail & Hcalls & _) end.
      exists w'. split; [reflexivity|]. split; [exact E|].
      rewrite Hcalls. cbn. apply in_or_app. left.
      apply in_or_app. right. left. reflexivity.
Qed.

Lemma C2_accepted_pair_witness :
  (exists e w',
      TransitionImageLayout good_driver 1 20 4 100 VK_FORMAT_B8G8R8A8_SRGB
        VK_IMAGE_LAYOUT_UNDEFINED VK_IMAGE_LAYOUT_SHADER_READ_ONLY_OPTIMAL 1 0 1 0 empty_world
      = (Throw e, w'))
  /\ (exists t w',
         select_transition VK_IMAGE_LAYOUT_UNDEFINED VK_IMAGE_LAYOUT_TRANSFER_DST_OPTIMAL
         = Some t
         /\ TransitionImageLayout good_driver 1 20 4 100 VK_FORMAT_B8G8R8A8_SRGB
              VK_IMAGE_LAYOUT_UNDEFINED VK_IMAGE_LAYOUT_TRANSFER_DST_OPTIMAL 1 0 1 0
              empty_world
            = (Ok tt, w')
         /\ In (Recorded (snd (drv_vkAllocateCommandBuffers good_driver 20))
                  (CmdPipelineBarrier (t_sourceStage t) (t_destinationStage t)
                     (transition_barrier 100 VK_FORMAT_B8G8R8A8_SRGB
                        VK_IMAGE_LAYOUT_UNDEFINED VK_IMAGE_LAYOUT_TRANSFER_DST_OPTIMAL
                        1 0 1 0 t)))
               (calls w')).
Proof.
  split.
  - destruct (C2_transition_table_is_closed good_driver 1 20 4 100 VK_FORMAT_B8G8R8A8_SRGB
                VK_IMAGE_LAYOUT_UNDEFINED VK_IMAGE_LAYOUT_SHADER_READ_ONLY_OPTIMAL 1 0 1 0
                empty_world) as (_ & H & _).
    apply H. intros Hin. cbn in Hin.
    repeat (destruct Hin as [Hin | Hin]; [discriminate|]). exact Hin.
  - destruct (C2_transition_table_is_closed good_driver 1 20 4 100 VK_FORMAT_B8G8R8A8_SRGB
                VK_IMAGE_LAYOUT_UNDEFINED VK_IMAGE_LAYOUT_TRANSFER_DST_OPTIMAL 1 0 1 0
                empty_world) as (_ & _ & H).
    apply H; [left; reflexivity | reflexivity].
Defined.

(** A pair outside the table, on a driver that accepts everything. *)
Example undefined_to_shader_read_is_rejected :
  fst (TransitionImageLayout good_driver 1 20 4 100 VK_FORMAT_B8G8R8A8_SRGB
         VK_IMAGE_LAYOUT_UNDEFINED VK_IMAGE_LAYOUT_SHADER_READ_ONLY_OPTIMAL 1 0 1 0
         empty_world)
  = Throw (invalid_argument "Unsupported layout transition in Utils::TransitionImageLayout!").
Proof. reflexivity. Qed.

(** ** Mipmap generation *)

Lemma blit_count_app t1 t2 : blit_count (t1 ++ t2) = (blit_count t1 + blit_count t2)%nat.
Proof. unfold blit_count. rewrite filter_app, length_app. reflexivity. Qed.

Lemma blit_count_no_commands t :
  (forall cb c, ~ In (Recorded cb c) t) -> blit_count t = O.
Proof.
  unfold blit_count. induction t as [| a t IH]; intros H; [reflexivity|].
  cbn [filter]. destruct (is_blit a) eqn:E.
  - destruct a; try discriminate. exfalso. eapply H. left. reflexivity.
  - apply IH. intros cb c Hin. apply (H cb c). right. exact Hin.
Qed.

Lemma blit_count_mip_cmds n cb image i mw mh :
  blit_count (map (Recorded cb) (mip_cmds n image i mw mh)) = n.
Proof.
  revert i mw mh. induction n as [| n IH]; intros i mw mh; [reflexivity|].
  cbn [mip_cmds map]. unfold blit_count in *. cbn. rewrite IH. reflexivity.
Qed.

Lemma mip_loop_run n cb image i mw mh w :
  mip_loop n cb image i mw mh w
  = (Ok tt,
     {| log := log w;
        calls := calls w ++ map (Recorded cb) (mip_cmds n image i mw mh);
        warned_null_descriptor_set := warned_null_descriptor_set w |}).
Proof.
  revert i mw mh w. induction n as [| n IH]; intros i mw mh w.
  - cbn. rewrite app_nil_r. destruct w; reflexivity.
  - cbn [mip_loop mip_cmds map]. unfold bind, api. rewrite IH. cbn.
    repeat rewrite <- app_assoc. reflexivity.
Qed.

(** ** C3 *)

(** C3 (amended): with more than one level requested, [GenerateMipmaps]
    refuses exactly when the format lacks blit-source or blit-destination
    support: it then returns after logging an error, having recorded no
    command and issued no layout transition (its only driver interaction
    is the format-properties query).  A format that has both blit
    features but lacks linear filtering is not refused: a warning is
    logged and, on valid handles and an accepting driver, one blit per
    generated level is recorded. *)
Theorem C3_mipmaps_refused_only_without_blit_support :
  forall D device commandPool queue image fmt texWidth texHeight mipLevels w,
    1 < mipLevels ->
    let features := drv_optimalTilingFeatures D fmt in
    let run := GenerateMipmaps D device commandPool queue image fmt
                 texWidth texHeight mipLevels w in
    (has_flag features VK_FORMAT_FEATURE_BLIT_SRC_BIT = false
     \/ has_flag features VK_FORMAT_FEATURE_BLIT_DST_BIT = false ->
     exists w',
       run = (Ok tt, w')
       /\ calls w' = calls w ++ [VkGetPhysicalDeviceFormatProperties fmt]
       /\ log w'
          = log w
            ++ (if has_flag features VK_FORMAT_FEATURE_SAMPLED_IMAGE_FILTER_LINEAR_BIT
                then [] else [linear_filter_warning])
            ++ [no_blit_error]
       /\ blit_count (calls w') = blit_count (calls w))
    /\ (has_flag features VK_FORMAT_FEATURE_BLIT_SRC_BIT = true ->
        has_flag features VK_FORMAT_FEATURE_BLIT_DST_BIT = true ->
        has_flag features VK_FORMAT_FEATURE_SAMPLED_IMAGE_FILTER_LINEAR_BIT = false ->
        one_shot_succeeds D device commandPool queue = true ->
        exists w',
          run = (Ok tt, w')
          /\ In linear_filter_warning (log w')
          /\ blit_count (calls w')
             = (blit_count (calls w) + Z.to_nat (mipLevels - 1))%nat).
Proof.
  intros D device commandPool queue image fmt texWidth texHeight mipLevels w Hlev
         features run.
  assert (Hle : (mipLevels <=? 1) = false) by (apply Z.leb_gt; lia).
  assert (Hgt : (mipLevels >? 1) = true) by (apply Z.gtb_lt; lia).
  split.
  - intros Hno. subst run. unfold GenerateMipmaps. rewrite Hle.
    fold features.
    assert (E : negb (has_flag features VK_FORMAT_FEATURE_BLIT_SRC_BIT)
                || negb (has_flag features VK_FORMAT_FEATURE_BLIT_DST_BIT) = true).
    { destruct Hno as [-> | ->]; [reflexivity | apply orb_true_r]. }
    rewrite E. unfold bind, api, emit_log, ret.
    destruct (has_flag features VK_FORMAT_FEATURE_SAMPLED_IMAGE_FILTER_LINEAR_BIT);
      cbn; eexists; (split; [reflexivity|]); cbn;
      rewrite <- ?app_assoc; (split; [reflexivity|]); (split; [reflexivity|]);
      rewrite blit_count_app; unfold blit_count at 2; cbn; lia.
  - intros Hsrc Hdst Hlin Hok. subst run. unfold GenerateMipmaps. rewrite Hle.
    fold features. rewrite Hsrc, Hdst, Hlin, Hgt. cbn [negb orb].
    rewrite bind_api, bind_log.
    rewrite (bind_run _ _ _ _ _
               (BeginSingleTimeCommands_succeeds D device commandPool queue _ Hok)).
    rewrite (bind_run _ _ _ _ _ (mip_loop_run _ _ _ _ _ _ _)).
    rewrite bind_assoc, bind_api, bind_api.
    cbn [log calls warned_null_descriptor_set].
    match goal with |- context [EndSingleTimeCommands _ _ _ _ _] =>
      match goal with |- bind _ _ ?w0 = _ =>
        destruct (EndSingleTimeCommands_succeeds D device commandPool queue w0 Hok)
          as (w1 & E & Hlog & tail & Hcalls & Hnone)
      | |- exists _, bind _ _ ?w0 = _ /\ _ =>
        destruct (EndSingleTimeCommands_succeeds D device commandPool queue w0 Hok)
          as (w1 & E & Hlog & tail & Hcalls & Hnone)
      end end.
    rewrite (bind_run _ _ _ _ _ E). unfold emit_log.
    eexists. split; [reflexivity|]. cbn. split.
    + rewrite Hlog. cbn. apply in_or_app. left. apply in_or_app. right. left. reflexivity.
    + rewrite Hcalls. cbn.
      repeat rewrite blit_count_app.
      rewrite blit_count_mip_cmds, (blit_count_no_commands tail Hnone).
      repeat match goal with
             | |- context [blit_count (?a :: ?l)] => change (blit_count (a :: l)) with O
             end.
      lia.
Qed.

Lemma C3_refusal_witness :
  (exists w',
      GenerateMipmaps (test_driver 0 (VK_SUCCESS, 0) VK_SUCCESS full_support)
        1 20 4 100 VK_FORMAT_B8G8R8A8_SRGB 4 4 3 empty_world = (Ok tt, w')
      /\ calls w' = calls empty_world
                    ++ [VkGetPhysicalDeviceFormatProperties VK_FORMAT_B8G8R8A8_SRGB]
      /\ log w'
         = log empty_world
           ++ (if has_flag 0 VK_FORMAT_FEATURE_SAMPLED_IMAGE_FILTER_LINEAR_BIT
               then [] else [linear_filter_warning])
           ++ [no_blit_error]
      /\ blit_count (calls w') = blit_count (calls empty_world))
  /\ (exists w',
         GenerateMipmaps
           (test_driver blit_only_features (VK_SUCCESS, 0) VK_SUCCESS full_support)
           1 20 4 100 VK_FORMAT_B8G8R8A8_SRGB 4 4 3 empty_world = (Ok tt, w')
         /\ In linear_filter_warning (log w')
         /\ blit_count (calls w')
            = (blit_count (calls empty_world) + Z.to_nat (3 - 1))%nat).
Proof.
  split.
  - destruct (C3_mipmaps_refused_only_without_blit_support
                (test_driver 0 (VK_SUCCESS, 0) VK_SUCCESS full_support)
                1 20 4 100 VK_FORMAT_B8G8R8A8_SRGB 4 4 3 empty_world) as (H & _);
      [lia|].
    apply H. left. reflexivity.
  - destruct (C3_mipmaps_refused_only_without_blit_support
                (test_driver blit_only_features (VK_SUCCESS, 0) VK_SUCCESS full_support)
                1 20 4 100 VK_FORMAT_B8G8R8A8_SRGB 4 4 3 empty_world) as (_ & H);
      [lia|].
    apply H; reflexivity.
Defined.

(** C3 as stated fails: a format with blit support but without linear
    filtering is not refused.  With two levels on a 4x4 image the blit
    from level 0 into level 1 is recorded. *)
Lemma C3_counterexample_no_linear_filter_still_blits :
  has_flag blit_only_features VK_FORMAT_FEATURE_SAMPLED_IMAGE_FILTER_LINEAR_BIT = false
  /\ exists w',
       GenerateMipmaps (test_driver blit_only_features (VK_SUCCESS, 0) VK_SUCCESS full_support)
         1 20 4 100 VK_FORMAT_B8G8R8A8_SRGB 4 4 2 empty_world = (Ok tt, w')
       /\ In (Recorded 21 (CmdBlitImage 0 4 4 1 2 2)) (calls w')
       /\ calls w' <> calls empty_world.
Proof.
  split; [reflexivity|].
  eexists. split; [vm_compute; reflexivity|].
  split; [cbn; auto 20 | discriminate].
Qed.

End UtilsCorrect.

Module SwapchainCorrect.
Import Swapchain Fixtures Spec.

Lemma std_clamp_is_clamp_into v lo hi :
  lo <= hi -> std_clamp v lo hi = clamp_into v lo hi.
Proof.
  intros H. unfold std_clamp, clamp_into.
  destruct (Z.ltb_spec v lo); [lia|].
  destruct (Z.ltb_spec hi v); lia.
Qed.

(** ** C9 *)

(** C9: extent selection.  If the capability dictates an extent (its
    current-extent width is not the sentinel [UINT32_MAX]) that extent is
    returned whatever size was requested; otherwise, the capability's
    minimum not exceeding its maximum, the requested width and height are
    each clamped into [[minImageExtent, maxImageExtent]]: the result lies
    in the range and equals the request when the request already does.
    Nothing but a log line is produced. *)
Theorem C9_extent_selection :
  forall caps windowWidth windowHeight w,
    let run := ChooseSwapExtent caps windowWidth windowHeight w in
    calls (snd run) = calls w
    /\ (width (currentExtent caps) <> UINT32_MAX ->
        fst run = Ok (currentExtent caps))
    /\ (width (currentExtent caps) = UINT32_MAX ->
        width (minImageExtent caps) <= width (maxImageExtent caps) ->
        height (minImageExtent caps) <= height (maxImageExtent caps) ->
        exists e,
          fst run = Ok e
          /\ width e = clamp_into windowWidth (width (minImageExtent caps))
                         (width (maxImageExtent caps))
          /\ height e = clamp_into windowHeight (height (minImageExtent caps))
                          (height (maxImageExtent caps))
          /\ width (minImageExtent caps) <= width e <= width (maxImageExtent caps)
          /\ height (minImageExtent caps) <= height e <= height (maxImageExtent caps)
          /\ (width (minImageExtent caps) <= windowWidth <= width (maxImageExtent caps) ->
              width e = windowWidth)
          /\ (height (minImageExtent caps) <= windowHeight <= height (maxImageExtent caps) ->
              height e = windowHeight)).
Proof.
  intros caps windowWidth windowHeight w run. subst run.
  unfold ChooseSwapExtent.
  destruct (Z.eqb_spec (width (currentExtent caps)) UINT32_MAX) as [E | E]; cbn [negb].
  - split; [reflexivity|]. split; [intros H; contradiction|].
    intros _ Hw Hh. eexists. split; [reflexivity|]. cbn [width height].
    rewrite !std_clamp_is_clamp_into by assumption.
    unfold clamp_into. repeat split; lia.
  - split; [reflexivity|]. split; [reflexivity|].
    intros H; contradiction.
Qed.

Lemma C9_fixed_extent_witness :
  fst (ChooseSwapExtent fixed_capabilities 1024 768 empty_world)
  = Ok {| width := 800; height := 600 |}
  /\ exists e,
       fst (ChooseSwapExtent test_capabilities 5000 0 empty_world) = Ok e
       /\ width e = clamp_into 5000 1 4096
       /\ height e = clamp_into 0 1 4096.
Proof.
  split.
  - destruct (C9_extent_selection fixed_capabilities 1024 768 empty_world)
      as (_ & H & _).
    apply H. discriminate.
  - destruct (C9_extent_selection test_capabilities 5000 0 empty_world)
      as (_ & _ & H).
    destruct H as (e & He & Hw & Hh & _); [reflexivity | cbn; lia | cbn; lia |].
    exists e. auto.
Defined.

Example clamped_extent_example :
  fst (ChooseSwapExtent test_capabilities 5000 0 empty_world)
  = Ok {| width := 4096; height := 1 |}.
Proof. reflexivity. Qed.

(** ** C7 *)

(** C7 (amended): on a live device, swapchain construction fails fatally
    when a live surface reports zero surface formats or zero present
    modes, and also when the surface is null; on a null device (the dummy,
    headless context) construction completes without error and without
    any driver call, and yields an image set and a view set of size
    zero. *)
Theorem C7_swapchain_construction_failures :
  forall D context windowWidth windowHeight previous w,
    let run := Swapchain_new D context windowWidth windowHeight previous w in
    let support := drv_QuerySwapChainSupport D (physicalDevice context) in
    (device context <> VK_NULL_HANDLE -> surface context <> VK_NULL_HANDLE ->
     formats support = [] \/ presentModes support = [] ->
     fst run = Throw inadequate_support_error)
    /\ (device context <> VK_NULL_HANDLE -> surface context = VK_NULL_HANDLE ->
        fst run = Throw null_surface_error)
    /\ (device context = VK_NULL_HANDLE ->
        exists s w',
          run = (Ok (s, context), w')
          /\ m_SwapChainImages s = []
          /\ m_SwapChainImageViews s = []
          /\ m_SwapChain s = VK_NULL_HANDLE
          /\ calls w' = calls w).
Proof.
  intros D context windowWidth windowHeight previous w run support.
  subst run. unfold Swapchain_new. rewrite bind_log. unfold Init.
  repeat split.
  - intros Hdev Hsurf Hempty.
    assert (Hd : is_null (device context) = false).
    { unfold is_null. apply Z.eqb_neq. assumption. }
    assert (Hs : is_null (surface context) = false).
    { unfold is_null. apply Z.eqb_neq. assumption. }
    rewrite Hd, Hs. cbn [orb]. unfold CreateActualSwapchain. fold support.
    destruct Hempty as [E | E]; rewrite E.
    + unfold bind. cbn. rewrite Hs. reflexivity.
    + destruct (formats support); unfold bind; cbn; rewrite Hs; reflexivity.
  - intros Hdev Hsurf.
    assert (Hd : is_null (device context) = false).
    { unfold is_null. apply Z.eqb_neq. assumption. }
    assert (Hs : is_null (surface context) = true).
    { unfold is_null. apply Z.eqb_eq. assumption. }
    rewrite Hd, Hs. reflexivity.
  - intros Hdev.
    assert (Hd : is_null (device context) = true).
    { unfold is_null. apply Z.eqb_eq. assumption. }
    rewrite Hd. cbn. eexists. eexists. split; [reflexivity|]. cbn. auto.
Qed.

Lemma C7_headless_witness :
  fst (Swapchain_new (test_driver all_blit_features (VK_SUCCESS, 0) VK_SUCCESS no_support)
         live_context 800 600 VK_NULL_HANDLE empty_world)
  = Throw inadequate_support_error
  /\ fst (Swapchain_new good_driver surfaceless_context 800 600 VK_NULL_HANDLE empty_world)
     = Throw null_surface_error
  /\ exists s w',
       Swapchain_new good_driver dummy_context 1 1 VK_NULL_HANDLE empty_world
       = (Ok (s, dummy_context), w')
       /\ m_SwapChainImages s = []
       /\ m_SwapChainImageViews s = []
       /\ m_SwapChain s = VK_NULL_HANDLE
       /\ calls w' = calls empty_world.
Proof.
  split; [| split].
  - destruct (C7_swapchain_construction_failures
                (test_driver all_blit_features (VK_SUCCESS, 0) VK_SUCCESS no_support)
                live_context 800 600 VK_NULL_HANDLE empty_world) as (H & _).
    apply H; [discriminate | discriminate | left; reflexivity].
  - destruct (C7_swapchain_construction_failures good_driver surfaceless_context
                800 600 VK_NULL_HANDLE empty_world) as (_ & H & _).
    apply H; [discriminate | reflexivity].
  - destruct (C7_swapchain_construction_failures good_driver dummy_context
                1 1 VK_NULL_HANDLE empty_world) as (_ & _ & H).
    apply H. reflexivity.
Defined.

Example live_surface_without_formats_is_fatal :
  fst (Swapchain_new (test_driver all_blit_features (VK_SUCCESS, 0) VK_SUCCESS no_support)
         live_context 800 600 VK_NULL_HANDLE empty_world)
  = Throw inadequate_support_error.
Proof. reflexivity. Qed.

Example live_surface_is_built :
  exists s c w',
    Swapchain_new good_driver live_context 800 600 VK_NULL_HANDLE empty_world
    = (Ok (s, c), w')
    /\ m_SwapChainImages s = [51; 52; 53]
    /\ m_SwapChainImageViews s = [151; 152; 153]
    /\ m_SwapChainExtent s = {| width := 800; height := 600 |}
    /\ imageCount c = 3.
Proof.
  eexists. eexists. eexists. split; [vm_compute; reflexivity|].
  cbn. auto.
Qed.

(** C7 as stated fails: a surface-less construction on a live device
    does not complete, it throws. *)
Lemma C7_counterexample_surfaceless_live_device :
  surface surfaceless_context = VK_NULL_HANDLE
  /\ fst (Swapchain_new good_driver surfaceless_context 800 600 VK_NULL_HANDLE empty_world)
     = Throw null_surface_error.
Proof. split; reflexivity. Qed.

End SwapchainCorrect.

Module RendererCorrect.
Import Buffer Renderer Fixtures Spec.

(** ** The frame-slot index *)

Lemma wrap32_mod_2 z : Z.modulo (wrap32 z) MAX_FRAMES_IN_FLIGHT = z mod 2.
Proof.
  unfold wrap32, MAX_FRAMES_IN_FLIGHT.
  change (2 ^ 32) with (2 * 2 ^ 31).
  rewrite Z.rem_mul_r by lia.
  rewrite Z.mul_comm, Z.mod_add by lia.
  apply Z.mod_mod. lia.
Qed.

Lemma EndFrameAndPresent_advances D r w r' w' :
  EndFrameAndPresent D r w = (Ok r', w') ->
  m_CurrentFrameIndex r' = (m_CurrentFrameIndex r + 1) mod MAX_FRAMES_IN_FLIGHT.
Proof.
  unfold EndFrameAndPresent. intros H.
  do 8 (apply bind_ok_inv in H; destruct H as (? & ? & _ & H)).
  apply bind_ok_inv in H. destruct H as (r1 & w1 & Hflag & H).
  injection H as <- <-.
  unfold set_CurrentFrameIndex. cbn [m_CurrentFrameIndex set_frame].
  rewrite wrap32_mod_2.
  assert (E : m_CurrentFrameIndex r1 = m_CurrentFrameIndex r).
  { destruct (_ || m_FramebufferResized r) in Hflag.
    - injection Hflag as <- <-. reflexivity.
    - destruct (negb _) in Hflag.
      + unfold bind, emit_log, throw in Hflag. discriminate.
      + injection Hflag as <- <-. reflexivity. }
  rewrite E. reflexivity.
Qed.

(** ** Quiet computations *)













(** ** The draw loop *)





(** ** Recording a frame *)









(** ** Beginning a frame *)

(** What a normal return of [BeginFrame] tells: either the acquisition
    reported out-of-date and the frame is skipped, or it reported success
    or suboptimal and the renderer differs from the one before only in
    the acquired image index and, when suboptimal, in the resize flag; a
    return of true moreover needs an initialised command manager. *)
Lemma BeginFrame_ok_inv D r w b r' w' :
  BeginFrame D r w = (Ok (b, r'), w') ->
  exists semaphore,
    let result := fst (drv_vkAcquireNextImageKHR D
                         (Swapchain.m_SwapChain (m_Swapchain r)) semaphore) in
    let imageIndex := snd (drv_vkAcquireNextImageKHR D
                             (Swapchain.m_SwapChain (m_Swapchain r)) semaphore) in
    (result = VK_ERROR_OUT_OF_DATE_KHR /\ b = false)
    \/ (result <> VK_ERROR_OUT_OF_DATE_KHR
        /\ r' = set_frame r (m_CurrentFrameIndex r) imageIndex
                  (if result =? VK_SUBOPTIMAL_KHR then true
                   else m_FramebufferResized r)
        /\ (b = true -> m_CommandPool (m_CommandManager r) <> VK_NULL_HANDLE)).
Proof.
  unfold BeginFrame. intros H.
  apply bind_ok_inv in H. destruct H as (fence & w1 & _ & H).
  apply bind_ok_inv in H. destruct H as ([] & w2 & _ & H).
  apply bind_ok_inv in H. destruct H as ([] & w3 & _ & H).
  apply bind_ok_inv in H. destruct H as (semaphore & w4 & _ & H).
  apply bind_ok_inv in H. destruct H as ([] & w5 & _ & H).
  exists semaphore.
  destruct (drv_vkAcquireNextImageKHR D _ semaphore) as [result imageIndex].
  cbn [fst snd].
  destruct (Z.eqb_spec result VK_ERROR_OUT_OF_DATE_KHR) as [Eood | Eood].
  - apply bind_ok_inv in H. destruct H as (r1 & w6 & _ & H).
    injection H as <- _ _. left. auto.
  - right. split; [exact Eood|].
    destruct (result =? VK_SUCCESS) eqn:Esucc;
      destruct (result =? VK_SUBOPTIMAL_KHR) eqn:Esub; cbn [orb negb andb] in H.
    + apply Z.eqb_eq in Esucc, Esub. subst result. discriminate.
    + apply bind_ok_inv in H. destruct H as (r1 & w6 & Hr1 & H).
      injection Hr1 as <- <-.
      do 2 (apply bind_ok_inv in H; destruct H as ([] & ? & _ & H)).
      apply bind_ok_inv in H. destruct H as (cb & w8 & Hcb & H).
      assert (Hpool : is_null cb = false ->
                      m_CommandPool (m_CommandManager r) <> VK_NULL_HANDLE).
      { intros Hnn Hnull. unfold BeginFrameRecording in Hcb.
        cbn [m_CommandManager set_CurrentImageIndex set_frame] in Hcb.
        unfold is_null at 1 in Hcb. rewrite Hnull in Hcb. cbn in Hcb.
        injection Hcb as <- _. discriminate. }
      destruct (is_null cb).
      * rewrite bind_log in H. injection H as <- <- _.
        split; [reflexivity | discriminate].
      * injection H as <- <- _. split; [reflexivity | auto].
    + apply bind_ok_inv in H. destruct H as (r1 & w6 & Hr1 & H).
      rewrite bind_log in Hr1. injection Hr1 as <- _.
      do 2 (apply bind_ok_inv in H; destruct H as ([] & ? & _ & H)).
      apply bind_ok_inv in H. destruct H as (cb & w8 & Hcb & H).
      assert (Hpool : is_null cb = false ->
                      m_CommandPool (m_CommandManager r) <> VK_NULL_HANDLE).
      { intros Hnn Hnull. unfold BeginFrameRecording in Hcb.
        cbn [m_CommandManager set_CurrentImageIndex set_FramebufferResized set_frame]
          in Hcb.
        unfold is_null at 1 in Hcb. rewrite Hnull in Hcb. cbn in Hcb.
        injection Hcb as <- _. discriminate. }
      destruct (is_null cb).
      * rewrite bind_log in H. injection H as <- <- _.
        split; [reflexivity | discriminate].
      * injection H as <- <- _. split; [reflexivity | auto].
    + rewrite bind_log in H. discriminate.
Qed.

(** ** Whole frames *)

Lemma RecordCommands_keeps_frame_index D am ui r renderables camera w r' w' :
  RecordCommands D am ui r renderables camera w = (Ok r', w') ->
  m_CurrentFrameIndex r' = m_CurrentFrameIndex r.
Proof.
  unfold RecordCommands. intros H.
  do 6 (apply bind_ok_inv in H; destruct H as (? & ? & _ & H)).
  apply bind_ok_inv in H. destruct H as (r1 & w1 & Hcam & H).
  apply bind_ok_inv in H. destruct H as (r2 & w2 & Hlight & H).
  do 5 (apply bind_ok_inv in H; destruct H as (? & ? & _ & H)).
  injection H as <- _.
  assert (E1 : m_CurrentFrameIndex r1 = m_CurrentFrameIndex r).
  { assert (Hinv : forall view proj w0,
               UpdateCameraUBO D r (m_CurrentFrameIndex r) view proj w0 = (Ok r1, w1) ->
               m_CurrentFrameIndex r1 = m_CurrentFrameIndex r).
    { intros view proj w0 Hu. unfold UpdateCameraUBO in Hu.
      do 2 (apply bind_ok_inv in Hu; destruct Hu as (? & ? & _ & Hu)).
      injection Hu as <- _. reflexivity. }
    destruct camera as [[view proj]|]; eapply Hinv; exact Hcam. }
  unfold UpdateLightUBO in Hlight.
  do 2 (apply bind_ok_inv in Hlight; destruct Hlight as (? & ? & _ & Hlight)).
  injection Hlight as <- _. exact E1.
Qed.

Lemma RenderFrame_advances f r w r' w' :
  RenderFrame f r w = (Ok (true, r'), w') ->
  m_CurrentFrameIndex r' = (m_CurrentFrameIndex r + 1) mod MAX_FRAMES_IN_FLIGHT.
Proof.
  unfold RenderFrame. intros H.
  apply bind_ok_inv in H. destruct H as ([began r1] & w1 & Hbegin & H).
  destruct began; [| discriminate].
  apply bind_ok_inv in H. destruct H as (r2 & w2 & Hrec & H).
  apply bind_ok_inv in H. destruct H as (r3 & w3 & Hend & H).
  injection H as <- _.
  apply EndFrameAndPresent_advances in Hend.
  apply RecordCommands_keeps_frame_index in Hrec.
  apply BeginFrame_ok_inv in Hbegin. destruct Hbegin as (sem & [[_ ?] | (_ & -> & _)]);
    [discriminate|].
  rewrite Hend, Hrec. reflexivity.
Qed.

(** ** C4 *)

(** C4: every [EndFrameAndPresent] that returns advances the frame-slot
    index from [i] to [(i+1) mod N], with [N = MAX_FRAMES_IN_FLIGHT]; so,
    starting from slot 0, after [n] completed BeginFrame / RecordCommands /
    EndFrameAndPresent cycles the index is [n mod N], always within
    [0 .. N-1]. *)
Theorem C4_frame_slot_round_robin :
  (forall D r w r' w',
      EndFrameAndPresent D r w = (Ok r', w') ->
      m_CurrentFrameIndex r' = (m_CurrentFrameIndex r + 1) mod MAX_FRAMES_IN_FLIGHT)
  /\ (forall r w n r' w',
         m_CurrentFrameIndex r = 0 ->
         completed_cycles r w n r' w' ->
         m_CurrentFrameIndex r' = Z.of_nat n mod MAX_FRAMES_IN_FLIGHT
         /\ 0 <= m_CurrentFrameIndex r' <= MAX_FRAMES_IN_FLIGHT - 1).
Proof.
  split; [exact EndFrameAndPresent_advances|].
  intros r w n r' w' H0 Hcycles.
  assert (E : m_CurrentFrameIndex r' = Z.of_nat n mod MAX_FRAMES_IN_FLIGHT).
  { induction Hcycles as [r w | r w n r1 w1 f r2 w2 _ IH Hstep].
    - rewrite H0. reflexivity.
    - apply RenderFrame_advances in Hstep. rewrite Hstep, (IH H0).
      unfold MAX_FRAMES_IN_FLIGHT. rewrite Nat2Z.inj_succ.
      rewrite Zplus_mod_idemp_l. f_equal; lia. }
  split; [exact E|].
  rewrite E. unfold MAX_FRAMES_IN_FLIGHT.
  pose proof (Z.mod_pos_bound (Z.of_nat n) 2). lia.
Qed.

Lemma C4_three_cycles_witness :
  exists r' w',
    completed_cycles (test_renderer false) empty_world 3 r' w'
    /\ m_CurrentFrameIndex r' = Z.of_nat 3 mod MAX_FRAMES_IN_FLIGHT
    /\ 0 <= m_CurrentFrameIndex r' <= MAX_FRAMES_IN_FLIGHT - 1.
Proof.
  assert (H : exists r' w', completed_cycles (test_renderer false) empty_world 3 r' w').
  { eexists. eexists.
    eapply (cycles_step _ _ _ _ _ test_frame).
    - eapply (cycles_step _ _ _ _ _ test_frame).
      + eapply (cycles_step _ _ _ _ _ test_frame).
        * apply cycles_none.
        * vm_compute. reflexivity.
      + vm_compute. reflexivity.
    - vm_compute. reflexivity. }
  destruct H as (r' & w' & H). exists r', w'. split; [exact H|].
  apply (proj2 C4_frame_slot_round_robin (test_renderer false) empty_world 3%nat r' w');
    [reflexivity | exact H].
Defined.

(** ** C5 *)

(** Unless the acquisition reports out-of-date, a [BeginFrame] that
    returns leaves the swapchain and its framebuffers as they were and
    does not clear a resize flag that was set: the flag is never read. *)
Lemma BeginFrame_rebuilds_only_on_out_of_date D r w b r' w' :
  BeginFrame D r w = (Ok (b, r'), w') ->
  (forall semaphore,
      fst (drv_vkAcquireNextImageKHR D (Swapchain.m_SwapChain (m_Swapchain r)) semaphore)
      <> VK_ERROR_OUT_OF_DATE_KHR) ->
  m_Swapchain r' = m_Swapchain r
  /\ m_SwapChainFramebuffers r' = m_SwapChainFramebuffers r
  /\ (m_FramebufferResized r = true -> m_FramebufferResized r' = true).
Proof.
  intros H Hacq. apply BeginFrame_ok_inv in H.
  destruct H as (sem & [[E _] | (_ & -> & _)]).
  - exfalso. exact (Hacq sem E).
  - cbn. repeat split. intros ->. destruct (_ =? _); reflexivity.
Qed.

(** [EndFrameAndPresent] never rebuilds: it only raises the flag. *)
Lemma EndFrameAndPresent_defers D r w r' w' :
  EndFrameAndPresent D r w = (Ok r', w') ->
  m_Swapchain r' = m_Swapchain r
  /\ m_SwapChainFramebuffers r' = m_SwapChainFramebuffers r
  /\ (m_FramebufferResized r = true -> m_FramebufferResized r' = true).
Proof.
  unfold EndFrameAndPresent. intros H.
  do 8 (apply bind_ok_inv in H; destruct H as (? & ? & _ & H)).
  apply bind_ok_inv in H. destruct H as (r1 & w1 & Hflag & H).
  injection H as <- _.
  destruct (m_FramebufferResized r) eqn:Eflag.
  - rewrite orb_true_r in Hflag. injection Hflag as <- _.
    cbn. rewrite ?Eflag. auto.
  - rewrite orb_false_r in Hflag. destruct (_ || _) in Hflag.
    + injection Hflag as <- _. cbn. repeat split; discriminate.
    + destruct (negb _) in Hflag.
      * rewrite bind_log in Hflag. discriminate.
      * injection Hflag as <- _. cbn. repeat split; discriminate.
Qed.

(** C5, evaluated where the code departs from it: after a resize
    notification (which only sets the flag) the next [BeginFrame], on a
    driver whose acquisition succeeds, returns true having issued only
    the fence wait, the acquisition, the fence reset and the command
    buffer reset and begin; the swapchain and the framebuffers are the old
    ones and the flag is still set. *)
Theorem C5_BeginFrame_does_not_consume_resize_flag :
  let r := HandleResize (test_renderer false) 1024 768 in
  r = set_FramebufferResized (test_renderer false) true
  /\ exists r' w',
       BeginFrame good_driver r empty_world = (Ok (true, r'), w')
       /\ m_FramebufferResized r' = true
       /\ m_Swapchain r' = m_Swapchain r
       /\ m_SwapChainFramebuffers r' = m_SwapChainFramebuffers r
       /\ calls w' = [ VkWaitForFences 85; VkAcquireNextImageKHR 41 81;
                       VkResetFences 85; VkResetCommandBuffer 21;
                       VkBeginCommandBuffer 21 ].
Proof.
  split; [reflexivity|].
  eexists. eexists. split; [vm_compute; reflexivity|].
  cbn. auto.
Qed.

(** The rebuild does happen when the acquisition reports out-of-date,
    and it clears the flag. *)
Example out_of_date_acquisition_rebuilds :
  exists r' w',
    BeginFrame (test_driver all_blit_features (VK_ERROR_OUT_OF_DATE_KHR, 0)
                  VK_SUCCESS full_support)
      (test_renderer true) empty_world = (Ok (false, r'), w')
    /\ m_FramebufferResized r' = false
    /\ m_SwapChainFramebuffers r' = [251; 252; 253]
    /\ In (VkCreateSwapchainKHR 3 3 {| width := 800; height := 600 |} VK_NULL_HANDLE)
          (calls w').
Proof.
  eexists. eexists. split; [vm_compute; reflexivity|].
  cbn. repeat split. auto 20.
Qed.

(** ** C6 *)






(** The scenario of the spec: one entry with an unbound material among
    valid ones gives three draws and one warning.  The UI is initialised,
    has draw data and renders its platform windows. *)
Example one_unbound_material_scenario :
  expected_draws test_renderables = [36; 12; 6]
  /\ existsb (unbound test_assets) test_renderables = true
  /\ exists r' w',
       RecordCommands good_driver test_assets test_ui (test_renderer false)
         test_renderables None empty_world = (Ok r', w')
       /\ draw_calls (calls w') = [36; 12; 6]
       /\ soft_warning_count (log w') = 1%nat
       /\ In ImGuiRenderPlatformWindowsDefault (calls w').
Proof.
  split; [reflexivity|]. split; [reflexivity|].
  eexists. eexists. split; [vm_compute; reflexivity|].
  split; [reflexivity|]. split; [reflexivity|].
  cbn. auto 30.
Qed.

(** What the condition on the UI backend excludes: an error result makes
    [RecordCommands] throw, whatever the renderables, after their draws
    were recorded; a positive result is only logged. *)
Example ui_backend_error_is_thrown :
  exists w',
    RecordCommands (with_ui_results good_driver [VK_SUCCESS; VK_ERROR_DEVICE_LOST] [] [])
      test_assets test_ui (test_renderer false) test_renderables None empty_world
    = (Throw (runtime_error "ImGui Vulkan backend error: -4"), w')
    /\ draw_calls (calls w') = [36; 12; 6].
Proof. eexists. split; [vm_compute; reflexivity | reflexivity]. Qed.

Example ui_backend_suboptimal_is_logged :
  exists r' w',
    RecordCommands (with_ui_results good_driver [VK_SUCCESS] [] [VK_SUBOPTIMAL_KHR])
      test_assets test_ui (test_renderer false) test_renderables None empty_world
    = (Ok r', w')
    /\ In (ERROR, "[ImGui Vulkan] Error: VkResult") (log w').
Proof. eexists. eexists. split; [vm_compute; reflexivity | cbn; auto]. Qed.

End RendererCorrect.

(* ================================================================== *)
(** * Further verified properties                                      *)
(* ================================================================== *)

(** ** Trace discipline *)

Module TraceFacts.
Import Invariants.

Lemma emits_ret {A} P (a : A) : emits P (ret a).
Proof.
  intros w res w' H. injection H as <- <-.
  exists []. rewrite app_nil_r. auto.
Qed.

Lemma emits_throw {A} P e : emits P (@throw A e).
Proof.
  intros w res w' H. injection H as <- <-.
  exists []. rewrite app_nil_r. auto.
Qed.

Lemma emits_undefined {A} P : emits P (@undefined A).
Proof.
  intros w res w' H. injection H as <- <-.
  exists []. rewrite app_nil_r. auto.
Qed.

Lemma emits_log P l msg : emits P (emit_log l msg).
Proof.
  intros w res w' H. injection H as <- <-.
  exists []. cbn. rewrite app_nil_r. auto.
Qed.

Lemma emits_api (P : ApiCall -> Prop) c : P c -> emits P (api c).
Proof.
  intros Hc w res w' H. injection H as <- <-.
  exists [c]. cbn. auto.
Qed.

Lemma emits_bind {A B} P (m : M A) (k : A -> M B) :
  emits P m -> (forall a, emits P (k a)) -> emits P (bind m k).
Proof.
  intros Hm Hk w res w' H. unfold bind in H.
  destruct (m w) as [[a | e |] w1] eqn:E.
  - destruct (Hm _ _ _ E) as (t1 & E1 & F1).
    destruct (Hk a _ _ _ H) as (t2 & E2 & F2).
    exists (t1 ++ t2). rewrite E2, E1, app_assoc. split; [reflexivity|].
    apply Forall_app. auto.
  - injection H as <- <-. exact (Hm _ _ _ E).
  - injection H as <- <-. exact (Hm _ _ _ E).
Qed.

Lemma emits_weaken {A} (P Q : ApiCall -> Prop) (m : M A) :
  (forall c, P c -> Q c) -> emits P m -> emits Q m.
Proof.
  intros HPQ Hm w res w' H. destruct (Hm _ _ _ H) as (t & E & F).
  exists t. split; [exact E|]. eapply Forall_impl; [exact HPQ | exact F].
Qed.

Lemma emits_vector_at {A} P (v : list A) i : emits P (vector_at v i).
Proof.
  unfold vector_at. destruct (i <? 0); [apply emits_undefined|].
  destruct (nth_error v (Z.to_nat i)); [apply emits_ret | apply emits_undefined].
Qed.

Lemma emits_VK_CHECK P res : emits P (VK_CHECK res).
Proof.
  unfold VK_CHECK. destruct (res =? VK_SUCCESS); [apply emits_ret|].
  apply emits_bind; [apply emits_log | intros; apply emits_throw].
Qed.

Ltac solve_emits :=
  repeat first
    [ apply emits_ret | apply emits_log | apply emits_throw | apply emits_undefined
    | apply emits_VK_CHECK | apply emits_vector_at
    | apply emits_api; solve [cbn; auto]
    | apply emits_bind; [| intros ?]
    | match goal with
      | |- emits _ (if ?b then _ else _) => destruct b
      | |- emits _ (match ?x with _ => _ end) => destruct x
      end ].

End TraceFacts.
Import TraceFacts.

(** ** Buffer.cpp *)

Module BufferMore.
Import Buffer BufferOps Fixtures Spec Invariants.

(** *** Memory types *)

Lemma land_bit_testbit a i :
  0 <= i -> (Z.land a (Z.shiftl 1 i) =? 0) = negb (Z.testbit a i).
Proof.
  intros Hi. rewrite Z.shiftl_1_l.
  destruct (Z.testbit a i) eqn:E; cbn [negb].
  - apply Z.eqb_neq. intros H0.
    assert (Hb : Z.testbit (Z.land a (2 ^ i)) i = true).
    { rewrite Z.land_spec, E, Z.pow2_bits_true by lia. reflexivity. }
    rewrite H0, Z.bits_0 in Hb. discriminate.
  - apply Z.eqb_eq. apply Z.bits_inj'. intros n Hn.
    rewrite Z.land_spec, Z.bits_0, Z.pow2_bits_eqb by lia.
    destruct (Z.eqb_spec i n) as [-> | Hne].
    + rewrite E. reflexivity.
    + apply andb_false_r.
Qed.

Lemma findMemoryType_from_spec types i0 typeFilter properties :
  0 <= i0 ->
  match findMemoryType_from types i0 typeFilter properties with
  | Some i =>
      i0 <= i
      /\ Z.testbit typeFilter i = true
      /\ (exists propertyFlags,
             nth_error types (Z.to_nat (i - i0)) = Some propertyFlags
             /\ Z.land propertyFlags properties = properties)
      /\ forall j propertyFlags,
           i0 <= j < i ->
           nth_error types (Z.to_nat (j - i0)) = Some propertyFlags ->
           ~ (Z.testbit typeFilter j = true
              /\ Z.land propertyFlags properties = properties)
  | None =>
      forall j propertyFlags,
        i0 <= j ->
        nth_error types (Z.to_nat (j - i0)) = Some propertyFlags ->
        ~ (Z.testbit typeFilter j = true
           /\ Z.land propertyFlags properties = properties)
  end.
Proof.
  revert i0. induction types as [| flags rest IH]; intros i0 Hi0.
  - cbn. intros j pf _ Hnth. destruct (Z.to_nat (j - i0)); discriminate.
  - cbn [findMemoryType_from]. rewrite land_bit_testbit by exact Hi0.
    rewrite negb_involutive.
    destruct (Z.testbit typeFilter i0) eqn:Ebit;
      [destruct (Z.eqb_spec (Z.land flags properties) properties) as [Eflags | Eflags]|];
      cbn [andb].
    + split; [lia|]. split; [exact Ebit|]. split.
      * exists flags. rewrite Z.sub_diag. auto.
      * intros j pf Hj. lia.
    + specialize (IH (i0 + 1) ltac:(lia)).
      destruct (findMemoryType_from rest (i0 + 1) typeFilter properties) as [i|].
      * destruct IH as (Hle & Hbit & (pf & Hnth & Hpf) & Hmin).
        split; [lia|]. split; [exact Hbit|]. split.
        -- exists pf. replace (Z.to_nat (i - i0)) with (S (Z.to_nat (i - (i0 + 1)))) by lia.
           auto.
        -- intros j pf' Hj Hnth'. destruct (Z.eq_dec j i0) as [-> | Hne].
           ++ rewrite Z.sub_diag in Hnth'. injection Hnth' as <-. tauto.
           ++ apply (Hmin j pf'); [lia|].
              replace (Z.to_nat (j - i0)) with (S (Z.to_nat (j - (i0 + 1)))) in Hnth' by lia.
              exact Hnth'.
      * intros j pf' Hj Hnth'. destruct (Z.eq_dec j i0) as [-> | Hne].
        -- rewrite Z.sub_diag in Hnth'. injection Hnth' as <-. tauto.
        -- apply (IH j pf'); [lia|].
           replace (Z.to_nat (j - i0)) with (S (Z.to_nat (j - (i0 + 1)))) in Hnth' by lia.
           exact Hnth'.
    + specialize (IH (i0 + 1) ltac:(lia)).
      destruct (findMemoryType_from rest (i0 + 1) typeFilter properties) as [i|].
      * destruct IH as (Hle & Hbit & (pf & Hnth & Hpf) & Hmin).
        split; [lia|]. split; [exact Hbit|]. split.
        -- exists pf. replace (Z.to_nat (i - i0)) with (S (Z.to_nat (i - (i0 + 1)))) by lia.
           auto.
        -- intros j pf' Hj Hnth'. destruct (Z.eq_dec j i0) as [-> | Hne].
           ++ rewrite Ebit. intros [? _]. discriminate.
           ++ apply (Hmin j pf'); [lia|].
              replace (Z.to_nat (j - i0)) with (S (Z.to_nat (j - (i0 + 1)))) in Hnth' by lia.
              exact Hnth'.
      * intros j pf' Hj Hnth'. destruct (Z.eq_dec j i0) as [-> | Hne].
        -- rewrite Ebit. intros [? _]. discriminate.
        -- apply (IH j pf'); [lia|].
           replace (Z.to_nat (j - i0)) with (S (Z.to_nat (j - (i0 + 1)))) in Hnth' by lia.
           exact Hnth'.
Qed.

(** X1: [findMemoryType] returns the least index of a memory type that the
    filter allows (bit [i] of the filter is set) and whose property flags
    contain all the requested ones; it throws exactly when the device has
    no such memory type.  It reaches neither the log nor the trace. *)
Theorem findMemoryType_returns_first_suitable :
  forall D typeFilter properties w,
    (exists i,
        findMemoryType D typeFilter properties w = (Ok i, w)
        /\ suitable_memory_type D typeFilter properties i
        /\ forall j, j < i -> ~ suitable_memory_type D typeFilter properties j)
    \/ (findMemoryType D typeFilter properties w
        = (Throw (runtime_error "Failed to find suitable memory type!"), w)
        /\ forall j, ~ suitable_memory_type D typeFilter properties j).
Proof.
  intros D typeFilter properties w. unfold findMemoryType.
  pose proof (findMemoryType_from_spec (drv_memoryTypes D) 0 typeFilter properties
                ltac:(lia)) as H.
  destruct (findMemoryType_from (drv_memoryTypes D) 0 typeFilter properties) as [i|].
  - left. exists i. destruct H as (Hle & Hbit & (pf & Hnth & Hpf) & Hmin).
    rewrite Z.sub_0_r in Hnth.
    split; [reflexivity|]. split.
    + split; [exact Hle|]. split; [exact Hbit|]. eauto.
    + intros j Hj (Hj0 & Hjbit & pf' & Hnth' & Hpf').
      apply (Hmin j pf'); [lia | rewrite Z.sub_0_r; exact Hnth' | auto].
  - right. split; [reflexivity|].
    intros j (Hj0 & Hjbit & pf' & Hnth' & Hpf').
    apply (H j pf'); [lia | rewrite Z.sub_0_r; exact Hnth' | auto].
Qed.

(** *** Construction and moves *)

(** X2: Every buffer the constructor returns, on any driver, satisfies the
    size invariant (total size = aligned stride * element count, in
    64-bit arithmetic), is unmapped and records the element size and
    count it was asked for; and a buffer with elements is only ever
    returned for a live device. *)
Theorem VulkanBuffer_new_establishes_size_invariant :
  forall D context S C usage props A w b w',
    VulkanBuffer_new D context S C usage props A w = (Ok b, w') ->
    size_invariant b
    /\ m_MappedMemory b = VK_NULL_HANDLE
    /\ m_InstanceSize b = S
    /\ m_InstanceCount b = C
    /\ (m_BufferSize b <> 0 -> device context <> VK_NULL_HANDLE).
Proof.
  intros D context S C usage props A w b w' H.
  unfold VulkanBuffer_new in H.
  destruct ((C =? 0) || (S =? 0)).
  - rewrite bind_log in H. injection H as <- _.
    unfold size_invariant. cbn. repeat split. intros Hne. contradiction.
  - destruct (is_null (device context)) eqn:Edev.
    + rewrite bind_log in H. discriminate.
    + rewrite bind_api in H.
      destruct (drv_vkCreateBuffer D _ usage) as [res buffer].
      apply bind_ok_inv in H. destruct H as ([] & w1 & _ & H).
      rewrite bind_api in H.
      apply bind_ok_inv in H. destruct H as (idx & w2 & _ & H).
      rewrite bind_api in H.
      destruct (drv_vkAllocateMemory D _ idx) as [res' memory].
      apply bind_ok_inv in H. destruct H as ([] & w3 & _ & H).
      rewrite bind_api in H.
      apply bind_ok_inv in H. destruct H as ([] & w4 & _ & H).
      injection H as <- _.
      unfold size_invariant. cbn. repeat split.
      intros _ Hnull. unfold is_null in Edev. rewrite Hnull in Edev. discriminate.
Qed.

Lemma VulkanBuffer_new_invariant_witness :
  exists b w',
    VulkanBuffer_new good_driver live_context 100 3 16 host_visible_coherent 16
      empty_world = (Ok b, w')
    /\ size_invariant b
    /\ m_MappedMemory b = VK_NULL_HANDLE
    /\ m_InstanceSize b = 100
    /\ m_InstanceCount b = 3
    /\ (m_BufferSize b <> 0 -> device live_context <> VK_NULL_HANDLE).
Proof.
  eexists. eexists. split; [vm_compute; reflexivity|].
  eapply (VulkanBuffer_new_establishes_size_invariant good_driver live_context
            100 3 16 host_visible_coherent 16 empty_world).
  vm_compute. reflexivity.
Defined.

(** X3: Moving a buffer hands every field to the new object and leaves the
    source inert: it still satisfies the size invariant, and mapping it,
    writing to it, flushing it, unmapping it or asking for its descriptor
    never reaches the driver and never throws. *)
Theorem moved_from_buffer_is_inert :
  forall D context other data size offset w,
    let b := fst (move_construct other) in
    let rest := snd (move_construct other) in
    b = other
    /\ size_invariant rest
    /\ (exists w', Map D rest size offset w = (Ok (VK_ERROR_INITIALIZATION_FAILED, rest), w')
                   /\ calls w' = calls w)
    /\ (exists w', WriteToBuffer D context rest data size offset w = (Ok rest, w')
                   /\ calls w' = calls w)
    /\ Flush D rest size offset w = (Ok VK_ERROR_INITIALIZATION_FAILED, w)
    /\ Unmap context rest w = (Ok rest, w)
    /\ (exists w', GetDescriptorInfo rest size offset w
                   = (Ok {| info_buffer := VK_NULL_HANDLE; info_offset := 0;
                            info_range := 0 |}, w')
                   /\ calls w' = calls w).
Proof.
  intros D context other data size offset w b rest. subst b rest.
  unfold move_construct. cbn [fst snd].
  split; [destruct other; reflexivity|].
  split; [unfold size_invariant; cbn; rewrite Z.mul_0_r; reflexivity|].
  split; [eexists; split; reflexivity|].
  split; [eexists; split; reflexivity|].
  split; [reflexivity|].
  split; [reflexivity|].
  eexists; split; reflexivity.
Qed.

(** *** Mapping *)

(** X4: [Map] never throws.  It reaches the driver only for a buffer with
    live handles and host-visible memory that is not mapped yet, and then
    with exactly one [vkMapMemory]; otherwise it answers by itself: an
    error code for a buffer that cannot be mapped, success for one that
    is mapped already.  Whenever the result is not success the buffer is
    left as it was, and the mapping pointer is the only field that can
    change. *)
Theorem Map_reaches_driver_only_when_unmapped :
  forall D b size offset w,
    exists res b' w',
      Map D b size offset w = (Ok (res, b'), w')
      /\ (res <> VK_SUCCESS -> b' = b)
      /\ set_mapped b' (m_MappedMemory b) = b
      /\ ((mappable b /\ m_MappedMemory b = VK_NULL_HANDLE
           /\ calls w' = calls w ++ [VkMapMemory (m_Memory b) offset size]
           /\ res = fst (drv_vkMapMemory D (m_Memory b) offset size))
          \/ (~ (mappable b /\ m_MappedMemory b = VK_NULL_HANDLE)
              /\ calls w' = calls w /\ b' = b
              /\ (res = VK_SUCCESS <-> mappable b))).
Proof.
  intros D b size offset w. unfold Map, mappable.
  assert (Heta : set_mapped b (m_MappedMemory b) = b) by (destruct b; reflexivity).
  destruct (Z.eqb_spec (m_Buffer b) VK_NULL_HANDLE) as [Eb | Eb];
    [| destruct (Z.eqb_spec (m_Memory b) VK_NULL_HANDLE) as [Em | Em]];
    unfold is_null; try rewrite Eb; try rewrite Em;
    try (rewrite (proj2 (Z.eqb_neq _ _) Eb)); try (rewrite (proj2 (Z.eqb_neq _ _) Em));
    cbn [Z.eqb orb].
  - change (VK_NULL_HANDLE =? VK_NULL_HANDLE) with true. cbn [orb].
    eexists. eexists. eexists. split; [reflexivity|].
    split; [reflexivity|]. split; [exact Heta|]. right.
    split; [tauto|]. split; [reflexivity|]. split; [reflexivity|].
    split; [discriminate | tauto].
  - change (VK_NULL_HANDLE =? VK_NULL_HANDLE) with true. cbn [orb].
    eexists. eexists. eexists. split; [reflexivity|].
    split; [reflexivity|]. split; [exact Heta|]. right.
    split; [tauto|]. split; [reflexivity|]. split; [reflexivity|].
    split; [discriminate | tauto].
  - destruct (has_flag (m_MemoryPropertyFlags b) VK_MEMORY_PROPERTY_HOST_VISIBLE_BIT)
      eqn:Ev; cbn [negb].
    2:{ eexists. eexists. eexists. split; [reflexivity|].
        split; [reflexivity|]. split; [exact Heta|]. right.
        split; [intros [(_ & _ & ?) _]; discriminate|].
        split; [reflexivity|]. split; [reflexivity|].
        split; [discriminate | intros (_ & _ & ?); discriminate]. }
    destruct (Z.eqb_spec (m_MappedMemory b) VK_NULL_HANDLE) as [Ep | Ep]; cbn [negb].
    + rewrite bind_api.
      destruct (drv_vkMapMemory D (m_Memory b) offset size) as [res p] eqn:Edrv.
      eexists. eexists. eexists. split; [reflexivity|].
      cbn [fst log calls warned_null_descriptor_set].
      split; [intros Hne; apply Z.eqb_neq in Hne; rewrite Hne; reflexivity|].
      split; [destruct (res =? VK_SUCCESS); destruct b; reflexivity|].
      left. auto 6.
    + eexists. eexists. eexists. split; [reflexivity|].
      split; [reflexivity|]. split; [exact Heta|]. right.
      split; [tauto|]. split; [reflexivity|]. split; [reflexivity|].
      split; [auto | reflexivity].
Qed.

Lemma is_null_true h : is_null h = true -> h = VK_NULL_HANDLE.
Proof. apply Z.eqb_eq. Qed.

Lemma set_mapped_back b p :
  m_MappedMemory b = VK_NULL_HANDLE -> set_mapped (set_mapped b p) 0 = b.
Proof. destruct b. cbn. intros ->. reflexivity. Qed.

Lemma set_mapped_same b p : m_MappedMemory b = p -> set_mapped b p = b.
Proof. destruct b. cbn. intros ->. reflexivity. Qed.

(** X5: Mapping an unmapped buffer and unmapping it again gives back the
    buffer as it was, with one [vkMapMemory] and one [vkUnmapMemory];
    unmapping a second time does nothing. *)
Theorem Map_then_Unmap_round_trip :
  forall D context b size offset w,
    mappable b -> m_MappedMemory b = VK_NULL_HANDLE ->
    device context <> VK_NULL_HANDLE ->
    fst (drv_vkMapMemory D (m_Memory b) offset size) = VK_SUCCESS ->
    snd (drv_vkMapMemory D (m_Memory b) offset size) <> VK_NULL_HANDLE ->
    (r <- Map D b size offset ;;
     b1 <- Unmap context (snd r) ;;
     Unmap context b1) w
    = (Ok b,
       {| log := log w;
          calls := calls w ++ [VkMapMemory (m_Memory b) offset size;
                               VkUnmapMemory (m_Memory b)];
          warned_null_descriptor_set := warned_null_descriptor_set w |}).
Proof.
  intros D context b size offset w (Hb & Hm & Hv) Emap Hdev Hres Hp.
  apply Z.eqb_neq in Hb, Hm, Hdev.
  unfold Map. unfold is_null. rewrite Hb, Hm, Hv, Emap.
  change (VK_NULL_HANDLE =? VK_NULL_HANDLE) with true. cbn [orb negb].
  rewrite bind_assoc, bind_api.
  destruct (drv_vkMapMemory D (m_Memory b) offset size) as [res p].
  cbn [fst snd] in Hres, Hp. subst res. apply Z.eqb_neq in Hp.
  rewrite bind_ret. change (VK_SUCCESS =? VK_SUCCESS) with true. cbn [snd].
  unfold Unmap at 1. cbn [m_MappedMemory m_Memory set_mapped].
  unfold is_null. rewrite Hp, Hdev, Hm. cbn [negb andb].
  rewrite bind_assoc, bind_api, bind_ret.
  rewrite set_mapped_back by exact Emap.
  unfold Unmap. unfold is_null. rewrite Emap.
  change (VK_NULL_HANDLE =? VK_NULL_HANDLE) with true. cbn [negb].
  unfold ret. cbn [log calls warned_null_descriptor_set].
  rewrite <- app_assoc. reflexivity.
Qed.

Lemma Map_then_Unmap_witness :
  (r <- Map good_driver nonzero_buffer 256 0 ;;
   b1 <- Unmap live_context (snd r) ;;
   Unmap live_context b1) empty_world
  = (Ok nonzero_buffer,
     {| log := []; calls := [VkMapMemory 12 0 256; VkUnmapMemory 12];
        warned_null_descriptor_set := false |}).
Proof.
  apply (Map_then_Unmap_round_trip good_driver live_context nonzero_buffer 256 0
           empty_world).
  - unfold mappable. cbn. repeat split; discriminate.
  - reflexivity.
  - discriminate.
  - reflexivity.
  - discriminate.
Defined.

(** *** Writing *)

Lemma never_throws_ret {A} (a : A) : never_throws (ret a).
Proof. intros w e w' H. discriminate. Qed.

Lemma never_throws_undefined {A} : never_throws (@undefined A).
Proof. intros w e w' H. discriminate. Qed.

Lemma never_throws_api c : never_throws (api c).
Proof. intros w e w' H. discriminate. Qed.

Lemma never_throws_log l msg : never_throws (emit_log l msg).
Proof. intros w e w' H. discriminate. Qed.

Lemma never_throws_bind {A B} (m : M A) (k : A -> M B) :
  never_throws m -> (forall a, never_throws (k a)) -> never_throws (bind m k).
Proof.
  intros Hm Hk w e w' H. unfold bind in H.
  destruct (m w) as [[a | e0 |] w1] eqn:E.
  - exact (Hk a _ _ _ H).
  - exact (Hm _ _ _ E).
  - discriminate.
Qed.

Ltac solve_never_throws :=
  repeat first
    [ apply never_throws_ret | apply never_throws_undefined
    | apply never_throws_api | apply never_throws_log
    | apply never_throws_bind; [| intros ?]
    | match goal with
      | |- never_throws (if ?b then _ else _) => destruct b
      | |- never_throws (match ?p with (_, _) => _ end) => destruct p
      end ].

Lemma Map_never_throws D b size offset : never_throws (Map D b size offset).
Proof. unfold Map. solve_never_throws. Qed.

Lemma Unmap_never_throws context b : never_throws (Unmap context b).
Proof. unfold Unmap. solve_never_throws. Qed.

Lemma Flush_never_throws D b size offset : never_throws (Flush D b size offset).
Proof. unfold Flush. solve_never_throws. Qed.

Lemma memcpy_never_throws base extent dst data n :
  never_throws (memcpy base extent dst data n).
Proof. unfold memcpy. solve_never_throws. Qed.

(** On host-visible memory [WriteToBuffer] does not throw. *)
Lemma WriteToBuffer_host_visible_never_throws D context b data size offset :
  has_flag (m_MemoryPropertyFlags b) VK_MEMORY_PROPERTY_HOST_VISIBLE_BIT = true ->
  never_throws (WriteToBuffer D context b data size offset).
Proof.
  intros Ev. unfold WriteToBuffer. rewrite Ev. cbn [negb]. cbv zeta.
  destruct (is_null (m_Buffer b)); [solve_never_throws|].
  destruct (is_null (block_address data)); [solve_never_throws|].
  assert (Hcopy : forall (temp : bool) b0,
             never_throws
               (if is_null (m_MappedMemory b0)
                then emit_log ERROR "VulkanBuffer::WriteToBuffer: Memory not mapped after Map() call." ;;
                     ret b0
                else
                  (if size =? VK_WHOLE_SIZE
                   then if offset >? 0
                        then memcpy (m_MappedMemory b0)
                               (if temp
                                then if size =? VK_WHOLE_SIZE then m_BufferSize b else size
                                else drv_mappedExtent D (m_Memory b0))
                               (m_MappedMemory b0 + offset) data
                               (wrap64 (m_BufferSize b0 - offset))
                        else memcpy (m_MappedMemory b0)
                               (if temp
                                then if size =? VK_WHOLE_SIZE then m_BufferSize b else size
                                else drv_mappedExtent D (m_Memory b0))
                               (m_MappedMemory b0) data (m_BufferSize b0)
                   else memcpy (m_MappedMemory b0)
                          (if temp
                           then if size =? VK_WHOLE_SIZE then m_BufferSize b else size
                           else drv_mappedExtent D (m_Memory b0))
                          (m_MappedMemory b0 + offset) data size) ;;
                  (if negb (has_flag (m_MemoryPropertyFlags b0)
                              VK_MEMORY_PROPERTY_HOST_COHERENT_BIT)
                   then Flush D b0 size offset ;; ret tt else ret tt) ;;
                  (if temp then Unmap context b0 else ret b0))).
  { intros temp b0. destruct (is_null (m_MappedMemory b0)); [solve_never_throws|].
    apply never_throws_bind.
    - destruct (size =? VK_WHOLE_SIZE); [destruct (offset >? 0)|];
        apply memcpy_never_throws.
    - intros _. apply never_throws_bind.
      + destruct (negb _); [| apply never_throws_ret].
        apply never_throws_bind; [apply Flush_never_throws | intros; apply never_throws_ret].
      + intros _. destruct temp; [apply Unmap_never_throws | apply never_throws_ret]. }
  destruct (is_null (m_MappedMemory b)) eqn:Emap.
  - apply never_throws_bind; [apply Map_never_throws | intros [mapResult b1]].
    destruct (negb _); [solve_never_throws|]. exact (Hcopy true b1).
  - pose proof (Hcopy false b) as H. rewrite Emap in H. exact H.
Qed.

(** What [Map] returns: the buffer as it was, or, on success for a
    buffer that was not mapped, the buffer with the new pointer. *)
Lemma Map_ok_inv D b size offset w res b' w' :
  Map D b size offset w = (Ok (res, b'), w') ->
  b' = b
  \/ (res = VK_SUCCESS /\ m_MappedMemory b = VK_NULL_HANDLE
      /\ exists p, b' = set_mapped b p).
Proof.
  unfold Map. intros H.
  destruct (_ || _); [rewrite bind_log in H; injection H as _ <- _; auto|].
  destruct (negb (has_flag _ _)); [rewrite bind_log in H; injection H as _ <- _; auto|].
  destruct (is_null (m_MappedMemory b)) eqn:Emap; cbn [negb] in H.
  - rewrite bind_api in H.
    match type of H with context [drv_vkMapMemory D ?m ?o ?s] =>
      destruct (drv_vkMapMemory D m o s) as [r p] end.
    injection H as <- <- _.
    destruct (Z.eqb_spec r VK_SUCCESS) as [-> | _]; [right | left; reflexivity].
    split; [reflexivity|]. split; [apply is_null_true; exact Emap|].
    exists p. reflexivity.
  - rewrite bind_log in H. injection H as _ <- _. auto.
Qed.

Lemma WriteToBuffer_ok_same D context b data size offset w b' w' :
  WriteToBuffer D context b data size offset w = (Ok b', w') -> b' = b.
Proof.
  unfold WriteToBuffer. intros H.
  destruct (is_null (m_Buffer b)); [rewrite bind_log in H; injection H as <- _; reflexivity|].
  destruct (negb _); [rewrite bind_log in H; discriminate|].
  destruct (is_null (block_address data));
    [rewrite bind_log in H; injection H as <- _; reflexivity|].
  cbv zeta in H.
  destruct (is_null (m_MappedMemory b)) eqn:Emap.
  - apply bind_ok_inv in H. destruct H as ([mapResult b1] & w1 & Hmap & H).
    apply Map_ok_inv in Hmap.
    destruct (Z.eqb_spec mapResult VK_SUCCESS) as [Hres | Hres]; cbn [negb] in H.
    + destruct (is_null (m_MappedMemory b1)) eqn:E1.
      * rewrite bind_log in H. injection H as <- _.
        destruct Hmap as [-> | (_ & Hnull & p & ->)]; [reflexivity|].
        cbn [m_MappedMemory set_mapped] in E1. apply is_null_true in E1. subst p.
        apply set_mapped_same. exact Hnull.
      * apply bind_ok_inv in H. destruct H as ([] & w2 & _ & H).
        apply bind_ok_inv in H. destruct H as ([] & w3 & _ & H).
        unfold Unmap in H. rewrite E1 in H. cbn [negb] in H.
        apply bind_ok_inv in H. destruct H as ([] & w4 & _ & H).
        injection H as <- _.
        destruct Hmap as [-> | (_ & Hnull & p & ->)].
        -- rewrite Emap in E1. discriminate.
        -- apply set_mapped_back. exact Hnull.
    + rewrite bind_log in H. injection H as <- _.
      destruct Hmap as [-> | (Hs & _)]; [reflexivity | contradiction].
  - apply bind_ok_inv in H. destruct H as ([] & w2 & _ & H).
    apply bind_ok_inv in H. destruct H as ([] & w3 & _ & H).
    injection H as <- _. reflexivity.
Qed.

(** X6: [WriteToBuffer] throws in one case only: on a live buffer whose memory
    is not host visible, before any driver call.  In every other case it
    does not throw, and whenever it returns the buffer object is exactly
    as before the call: a mapping made for the write is undone, a
    persistent mapping is kept.  What is left is the unguarded copy,
    which is undefined behaviour when it leaves the mapping or reads
    past the source. *)
Theorem WriteToBuffer_throws_only_without_host_visible_memory :
  forall D context b data size offset w,
    if negb (is_null (m_Buffer b))
       && negb (has_flag (m_MemoryPropertyFlags b) VK_MEMORY_PROPERTY_HOST_VISIBLE_BIT)
    then WriteToBuffer D context b data size offset w
         = (Throw (runtime_error "Writing to non-host-visible buffer without staging."),
            {| log := log w ++ [(ERROR, "VulkanBuffer::WriteToBuffer: Cannot write directly to non-host-visible buffer. Use staging.")];
               calls := calls w;
               warned_null_descriptor_set := warned_null_descriptor_set w |})
    else (forall e w', WriteToBuffer D context b data size offset w <> (Throw e, w'))
         /\ (forall b' w',
                WriteToBuffer D context b data size offset w = (Ok b', w') -> b' = b).
Proof.
  intros D context b data size offset w.
  destruct (is_null (m_Buffer b)) eqn:Eb; cbn [negb andb].
  - split.
    + intros e w' H. unfold WriteToBuffer in H. rewrite Eb, bind_log in H. discriminate.
    + intros b' w'. apply WriteToBuffer_ok_same.
  - destruct (has_flag (m_MemoryPropertyFlags b) VK_MEMORY_PROPERTY_HOST_VISIBLE_BIT)
      eqn:Ev; cbn [negb].
    + split.
      * intros e w'. apply WriteToBuffer_host_visible_never_throws. exact Ev.
      * intros b' w'. apply WriteToBuffer_ok_same.
    + unfold WriteToBuffer. rewrite Eb, Ev. reflexivity.
Qed.



(** The other branch: 64 bytes at offset 64 through a temporary mapping
    of 64 bytes. *)
Example explicit_size_at_an_offset_leaves_the_mapping :
  WriteToBuffer good_driver live_context nonzero_buffer
    {| block_address := 1; block_bytes := 64 |} 64 64 empty_world
  = (Undefined,
     {| log := []; calls := [VkMapMemory 12 64 64];
        warned_null_descriptor_set := false |}).
Proof. reflexivity. Qed.

(** *** Descriptors and strides *)

(** X8: For a live buffer, the descriptor for [VK_WHOLE_SIZE] at an offset
    inside the buffer covers exactly the bytes from that offset to the
    end; the offset is not checked, and one past the end wraps around to
    a range of almost [2^64] bytes. *)
Theorem GetDescriptorInfo_whole_size_range :
  forall b offset w,
    m_Buffer b <> VK_NULL_HANDLE ->
    0 <= offset < 2 ^ 64 -> 0 <= m_BufferSize b < 2 ^ 64 ->
    exists info,
      GetDescriptorInfo b VK_WHOLE_SIZE offset w = (Ok info, w)
      /\ info_buffer info = m_Buffer b
      /\ info_offset info = offset
      /\ info_range info
         = if offset <=? m_BufferSize b then m_BufferSize b - offset
           else 2 ^ 64 - (offset - m_BufferSize b).
Proof.
  intros b offset w Hb Hoff Hsize. unfold GetDescriptorInfo.
  apply Z.eqb_neq in Hb. unfold is_null. rewrite Hb.
  eexists. split; [reflexivity|]. cbn [info_buffer info_offset info_range].
  split; [reflexivity|]. split; [reflexivity|].
  change (VK_WHOLE_SIZE =? VK_WHOLE_SIZE) with true. cbn iota. unfold wrap64.
  destruct (Z.leb_spec offset (m_BufferSize b)).
  - apply Z.mod_small. lia.
  - symmetry. apply (Z.mod_unique_pos _ _ (-1)); [lia | ring].
Qed.

Lemma GetDescriptorInfo_witness :
  exists info,
    GetDescriptorInfo nonzero_buffer VK_WHOLE_SIZE 64 empty_world = (Ok info, empty_world)
    /\ info_buffer info = 11
    /\ info_offset info = 64
    /\ info_range info = 192.
Proof.
  apply (GetDescriptorInfo_whole_size_range nonzero_buffer 64 empty_world).
  - discriminate.
  - lia.
  - cbn. lia.
Defined.

(** X9: For a power-of-two alignment [2^k] and an element size that leaves
    room for it below [2^64], the stride is the least multiple of the
    alignment that is not below the element size (so alignment 1 leaves
    the size as it is).  An element size closer than the alignment to
    [2^64] overflows the rounding: the stride is 0. *)
Theorem CalculateAlignment_least_multiple :
  forall S k,
    0 <= k < 64 -> 0 < S < 2 ^ 64 ->
    let A := 2 ^ k in
    let stride := CalculateAlignment S A in
    if S <=? 2 ^ 64 - A
    then S <= stride < S + A /\ stride mod A = 0
    else stride = 0.
Proof.
  intros S k Hk HS A stride. subst stride A.
  rewrite BufferCorrect.CalculateAlignment_pow2 by exact Hk.
  unfold spec_stride, ceil_div, wrap64.
  assert (HA : 0 < 2 ^ k) by (apply Z.pow_pos_nonneg; lia).
  assert (Hsplit : 2 ^ 64 = 2 ^ (64 - k) * 2 ^ k).
  { rewrite <- Z.pow_add_r by lia. f_equal. lia. }
  set (A := 2 ^ k) in *. set (q := (S + A - 1) / A).
  assert (Hq : q * A <= S + A - 1 < q * A + A).
  { subst q. pose proof (Z.div_mod (S + A - 1) A ltac:(lia)).
    pose proof (Z.mod_pos_bound (S + A - 1) A HA). lia. }
  destruct (Z.leb_spec S (2 ^ 64 - A)).
  - rewrite Z.mod_small by lia.
    split; [lia|]. apply Z.mod_mul. lia.
  - assert (Eq : q = 2 ^ (64 - k)).
    { subst q. symmetry. apply (Z.div_unique _ _ _ (S + A - 1 - 2 ^ 64)); lia. }
    rewrite Eq, <- Hsplit. apply Z.mod_same. lia.
Qed.

Lemma CalculateAlignment_witness :
  (100 <= CalculateAlignment 100 (2 ^ 4) < 100 + 2 ^ 4
   /\ CalculateAlignment 100 (2 ^ 4) mod 2 ^ 4 = 0)
  /\ CalculateAlignment (2 ^ 64 - 1) (2 ^ 8) = 0.
Proof.
  split.
  - apply (CalculateAlignment_least_multiple 100 4); lia.
  - apply (CalculateAlignment_least_multiple (2 ^ 64 - 1) 8); lia.
Defined.

End BufferMore.

(** ** VulkanUtils.cpp *)

Module UtilsMore.
Import Utils UtilsOps Fixtures Spec Invariants.

(** *** The format finder *)

Lemma format_supported_dec D linear tiling features format :
  ((tiling =? VK_IMAGE_TILING_LINEAR)
   && (Z.land (linear format) features =? features) = false
   /\ (tiling =? VK_IMAGE_TILING_OPTIMAL)
      && (Z.land (drv_optimalTilingFeatures D format) features =? features) = false)
  <-> ~ format_supported D linear tiling features format.
Proof.
  unfold format_supported. split.
  - intros [H1 H2] [[Et Ef] | [Et Ef]].
    + rewrite (proj2 (Z.eqb_eq _ _) Et), (proj2 (Z.eqb_eq _ _) Ef) in H1. discriminate.
    + rewrite (proj2 (Z.eqb_eq _ _) Et), (proj2 (Z.eqb_eq _ _) Ef) in H2. discriminate.
  - intros Hno. split.
    + destruct (Z.eqb_spec tiling VK_IMAGE_TILING_LINEAR); [| reflexivity].
      destruct (Z.eqb_spec (Z.land (linear format) features) features); [| reflexivity].
      exfalso. apply Hno. left. auto.
    + destruct (Z.eqb_spec tiling VK_IMAGE_TILING_OPTIMAL); [| reflexivity].
      destruct (Z.eqb_spec (Z.land (drv_optimalTilingFeatures D format) features) features);
        [| reflexivity].
      exfalso. apply Hno. right. auto.
Qed.

(** X10: [findSupportedFormat] queries the candidates in order and returns the
    first whose features, for the requested tiling, contain all the
    requested ones, without querying any later candidate; when no
    candidate qualifies (always the case for a tiling that is neither
    linear nor optimal) it throws after having queried them all. *)
Theorem findSupportedFormat_returns_first_supported :
  forall D linear candidates tiling features w,
    (exists before format after,
        candidates = before ++ format :: after
        /\ Forall (fun f => ~ format_supported D linear tiling features f) before
        /\ format_supported D linear tiling features format
        /\ findSupportedFormat D linear candidates tiling features w
           = (Ok format,
              {| log := log w;
                 calls := calls w
                          ++ map VkGetPhysicalDeviceFormatProperties (before ++ [format]);
                 warned_null_descriptor_set := warned_null_descriptor_set w |}))
    \/ (Forall (fun f => ~ format_supported D linear tiling features f) candidates
        /\ findSupportedFormat D linear candidates tiling features w
           = (Throw (runtime_error "Failed to find supported format!"),
              {| log := log w;
                 calls := calls w ++ map VkGetPhysicalDeviceFormatProperties candidates;
                 warned_null_descriptor_set := warned_null_descriptor_set w |})).
Proof.
  intros D linear candidates tiling features.
  induction candidates as [| format rest IH]; intros w.
  - right. split; [constructor|]. cbn. rewrite app_nil_r, world_eta. reflexivity.
  - cbn [findSupportedFormat]. rewrite bind_api.
    destruct ((tiling =? VK_IMAGE_TILING_LINEAR)
              && (Z.land (linear format) features =? features)) eqn:El.
    { left. exists [], format, rest. split; [reflexivity|]. split; [constructor|].
      split; [| reflexivity].
      apply andb_prop in El. destruct El as [Et Ef].
      left. split; apply Z.eqb_eq; assumption. }
    destruct ((tiling =? VK_IMAGE_TILING_OPTIMAL)
              && (Z.land (drv_optimalTilingFeatures D format) features =? features)) eqn:Eo.
    { left. exists [], format, rest. split; [reflexivity|]. split; [constructor|].
      split; [| reflexivity].
      apply andb_prop in Eo. destruct Eo as [Et Ef].
      right. split; apply Z.eqb_eq; assumption. }
    assert (Hno : ~ format_supported D linear tiling features format).
    { apply format_supported_dec. auto. }
    match goal with |- context [findSupportedFormat D linear rest tiling features ?w0] =>
      destruct (IH w0) as [(before & f & after & Hc & Hb & Hf & Hrun) | (Hall & Hrun)];
      rewrite Hrun end; cbn [log calls warned_null_descriptor_set].
    + left. exists (format :: before), f, after. subst rest.
      split; [reflexivity|]. split; [constructor; assumption|]. split; [exact Hf|].
      rewrite <- app_assoc. reflexivity.
    + right. split; [constructor; assumption|].
      rewrite <- app_assoc. reflexivity.
Qed.

(** *** Layout transitions *)

(** X11: A transition outside the table is rejected only after the one-shot
    command buffer has been allocated and begun: on valid handles and an
    accepting driver the call throws [std::invalid_argument] having
    issued exactly these two calls, and the command buffer is neither
    ended, submitted nor freed. *)
Theorem rejected_transition_leaves_command_buffer_allocated :
  forall D device commandPool queue image fmt oldLayout newLayout
         mipLevels baseMip layers baseLayer w,
    ~ In (oldLayout, newLayout) enumerated_pairs ->
    one_shot_succeeds D device commandPool queue = true ->
    TransitionImageLayout D device commandPool queue image fmt oldLayout newLayout
      mipLevels baseMip layers baseLayer w
    = (Throw (invalid_argument
                "Unsupported layout transition in Utils::TransitionImageLayout!"),
       {| log := log w;
          calls := calls w
                   ++ [VkAllocateCommandBuffers commandPool;
                       VkBeginCommandBuffer
                         (snd (drv_vkAllocateCommandBuffers D commandPool))];
          warned_null_descriptor_set := warned_null_descriptor_set w |}).
Proof.
  intros D device commandPool queue image fmt oldLayout newLayout
         mipLevels baseMip layers baseLayer w Hnot Hok.
  unfold TransitionImageLayout.
  rewrite (bind_run _ _ _ _ _
             (UtilsCorrect.BeginSingleTimeCommands_succeeds D device commandPool queue w Hok)).
  destruct (select_transition oldLayout newLayout) as [t|] eqn:Et.
  - exfalso. apply Hnot.
    apply UtilsCorrect.select_transition_accepts_exactly. eauto.
  - reflexivity.
Qed.

Lemma rejected_transition_witness :
  TransitionImageLayout good_driver 1 20 4 900 VK_FORMAT_B8G8R8A8_SRGB
    VK_IMAGE_LAYOUT_UNDEFINED VK_IMAGE_LAYOUT_SHADER_READ_ONLY_OPTIMAL 1 0 1 0 empty_world
  = (Throw (invalid_argument
              "Unsupported layout transition in Utils::TransitionImageLayout!"),
     {| log := [];
        calls := [VkAllocateCommandBuffers 20; VkBeginCommandBuffer 21];
        warned_null_descriptor_set := false |}).
Proof.
  apply (rejected_transition_leaves_command_buffer_allocated good_driver 1 20 4 900
           VK_FORMAT_B8G8R8A8_SRGB VK_IMAGE_LAYOUT_UNDEFINED
           VK_IMAGE_LAYOUT_SHADER_READ_ONLY_OPTIMAL 1 0 1 0 empty_world).
  - cbn. intros H.
    repeat (destruct H as [H | H]; [discriminate|]). exact H.
  - reflexivity.
Defined.

(** *** One-shot submissions *)

(** X12: On valid handles, [EndSingleTimeCommands] returns exactly when the
    driver accepts the end of the recording, the creation of the fence,
    the submission and the wait, and then it has issued these four
    calls, destroyed the fence and freed the command buffer, in this
    order.  When the driver refuses one of them it throws at that call:
    the command buffer is then not freed, and a fence that was created is
    not destroyed. *)
Theorem EndSingleTimeCommands_releases_only_on_success :
  forall D device commandPool queue commandBuffer w,
    device <> VK_NULL_HANDLE -> commandPool <> VK_NULL_HANDLE ->
    queue <> VK_NULL_HANDLE -> commandBuffer <> VK_NULL_HANDLE ->
    let fence := snd (drv_vkCreateFence D) in
    let accepted := submission_accepted D queue commandBuffer in
    exists w' issued,
      EndSingleTimeCommands D device commandPool queue commandBuffer w
      = (if accepted then Ok tt else Throw (runtime_error "Vulkan Error"), w')
      /\ calls w' = calls w ++ issued
      /\ (accepted = true ->
          issued = [VkEndCommandBuffer commandBuffer; VkCreateFence;
                    VkQueueSubmit queue commandBuffer fence; VkWaitForFences fence;
                    VkDestroyFence fence;
                    VkFreeCommandBuffers commandPool commandBuffer])
      /\ (accepted = false ->
          ~ In (VkFreeCommandBuffers commandPool commandBuffer) issued
          /\ ~ In (VkDestroyFence fence) issued).
Proof.
  intros D device commandPool queue cb w Hd Hp Hq Hcb fence accepted.
  subst fence accepted. unfold submission_accepted.
  apply Z.eqb_neq in Hd, Hp, Hq, Hcb.
  unfold EndSingleTimeCommands. unfold is_null. rewrite Hd, Hp, Hq, Hcb. cbn [orb].
  rewrite bind_api.
  destruct (drv_vkCreateFence D) as [res fence]. cbn [fst snd].
  unfold VK_CHECK at 1.
  destruct (drv_vkEndCommandBuffer D cb =? VK_SUCCESS); cbn [andb].
  2:{ eexists. exists [VkEndCommandBuffer cb]. rewrite bind_assoc, bind_log.
      split; [reflexivity|]. split; [reflexivity|].
      split; [discriminate|]. intros _.
      split; intros [H | []]; discriminate. }
  rewrite bind_ret, bind_api. unfold VK_CHECK at 1.
  destruct (res =? VK_SUCCESS); cbn [andb].
  2:{ eexists. exists [VkEndCommandBuffer cb; VkCreateFence].
      rewrite bind_assoc, bind_log.
      split; [reflexivity|]. cbn [calls]. rewrite <- app_assoc.
      split; [reflexivity|].
      split; [discriminate|]. intros _.
      split; intros [H | [H | []]]; discriminate. }
  rewrite bind_ret, bind_api. unfold VK_CHECK at 1.
  destruct (drv_vkQueueSubmit D queue cb fence =? VK_SUCCESS); cbn [andb].
  2:{ eexists. exists [VkEndCommandBuffer cb; VkCreateFence; VkQueueSubmit queue cb fence].
      rewrite bind_assoc, bind_log.
      split; [reflexivity|]. cbn [calls]. rewrite <- !app_assoc.
      split; [reflexivity|].
      split; [discriminate|]. intros _.
      split; intros [H | [H | [H | []]]]; discriminate. }
  rewrite bind_ret, bind_api. unfold VK_CHECK at 1.
  destruct (drv_vkWaitForFences D fence =? VK_SUCCESS); cbn [andb].
  2:{ eexists. exists [VkEndCommandBuffer cb; VkCreateFence; VkQueueSubmit queue cb fence;
                       VkWaitForFences fence].
      rewrite bind_assoc, bind_log.
      split; [reflexivity|]. cbn [calls]. rewrite <- !app_assoc.
      split; [reflexivity|].
      split; [discriminate|]. intros _.
      split; intros [H | [H | [H | [H | []]]]]; discriminate. }
  rewrite bind_ret, bind_api.
  eexists. eexists. split; [reflexivity|]. cbn [calls]. rewrite <- !app_assoc.
  split; [reflexivity|]. split; [reflexivity | discriminate].
Qed.

Lemma EndSingleTimeCommands_witness :
  exists w' issued,
    EndSingleTimeCommands good_driver 1 20 4 21 empty_world = (Ok tt, w')
    /\ calls w' = calls empty_world ++ issued
    /\ (true = true ->
        issued = [VkEndCommandBuffer 21; VkCreateFence; VkQueueSubmit 4 21 31;
                  VkWaitForFences 31; VkDestroyFence 31; VkFreeCommandBuffers 20 21])
    /\ (true = false ->
        ~ In (VkFreeCommandBuffers 20 21) issued /\ ~ In (VkDestroyFence 31) issued).
Proof.
  apply (EndSingleTimeCommands_releases_only_on_success good_driver 1 20 4 21 empty_world);
    discriminate.
Defined.

(** *** Mip chains *)

Lemma blits_app t1 t2 : blits (t1 ++ t2) = blits t1 ++ blits t2.
Proof.
  induction t1 as [| c t1 IH]; [reflexivity|].
  cbn. destruct (blit_of c); cbn; rewrite IH; reflexivity.
Qed.

Lemma blits_no_commands t : (forall cb c, ~ In (Recorded cb c) t) -> blits t = [].
Proof.
  induction t as [| a t IH]; intros H; [reflexivity|].
  cbn [blits]. destruct (blit_of a) eqn:E.
  - destruct a; try discriminate. exfalso. eapply H. left. reflexivity.
  - apply IH. intros cb c Hin. apply (H cb c). right. exact Hin.
Qed.

(** One halving step of the loop, in terms of [mip_extent]. *)
Lemma mip_extent_step size k :
  1 <= size ->
  (if mip_extent size k >? 1 then Z.quot (mip_extent size k) 2 else mip_extent size k)
  = mip_extent size (S k)
  /\ (if mip_extent size k >? 1 then Z.quot (mip_extent size k) 2 else 1)
     = mip_extent size (S k).
Proof.
  intros Hs. unfold mip_extent.
  rewrite Nat2Z.inj_succ, <- Z.add_1_r.
  rewrite <- (Z.shiftr_shiftr size (Z.of_nat k) 1) by lia.
  set (x := Z.shiftr size (Z.of_nat k)).
  assert (Hx : 0 <= x) by (subst x; apply Z.shiftr_nonneg; lia).
  change (Z.shiftr x 1) with (Z.div2 x). rewrite Z.div2_div.
  destruct (Z.gtb_spec (Z.max 1 x) 1) as [Hgt | Hle].
  - rewrite Z.max_r in * by lia. rewrite Z.quot_div_nonneg by lia.
    assert (1 <= x / 2) by (apply Z.div_le_lower_bound; lia).
    rewrite Z.max_r by lia. auto.
  - assert (x / 2 = 0) by (apply Z.div_small; lia).
    rewrite (Z.max_l 1 x) by lia. rewrite Z.max_l by lia. auto.
Qed.

Lemma mip_extent_0 size : 1 <= size -> mip_extent size 0 = size.
Proof. intros H. unfold mip_extent. cbn [Z.of_nat]. rewrite Z.shiftr_0_r. lia. Qed.

Lemma blits_mip_cmds n cb image texWidth texHeight k :
  1 <= texWidth -> 1 <= texHeight ->
  blits (map (Recorded cb)
           (mip_cmds n image (Z.of_nat k + 1)
              (mip_extent texWidth k) (mip_extent texHeight k)))
  = map (level_blit texWidth texHeight) (seq k n).
Proof.
  intros Hw Hh. revert k. induction n as [| n IH]; intros k; [reflexivity|].
  cbn [mip_cmds map blits blit_of seq].
  destruct (mip_extent_step texWidth k Hw) as [Ew1 Ew2].
  destruct (mip_extent_step texHeight k Hh) as [Eh1 Eh2].
  rewrite Ew1, Ew2, Eh1, Eh2.
  replace (Z.of_nat k + 1 + 1) with (Z.of_nat (S k) + 1) by lia.
  rewrite IH. unfold level_blit at 2.
  replace (Z.of_nat k + 1 - 1) with (Z.of_nat k) by lia.
  reflexivity.
Qed.

(** X13: The blits of a mip chain halve the extents, rounding down and never
    below 1: on a format with blit support, valid handles and an
    accepting driver, [GenerateMipmaps] for [mipLevels > 1] records, for
    [k = 0 .. mipLevels - 2] in this order, one blit from level [k] of
    extent [max(1, W >> k) x max(1, H >> k)] into level [k + 1] of extent
    [max(1, W >> (k+1)) x max(1, H >> (k+1))], and no other blit. *)
Theorem GenerateMipmaps_blits_halve_extents :
  forall D device commandPool queue image fmt texWidth texHeight mipLevels w,
    1 < mipLevels -> 1 <= texWidth -> 1 <= texHeight ->
    has_flag (drv_optimalTilingFeatures D fmt) VK_FORMAT_FEATURE_BLIT_SRC_BIT = true ->
    has_flag (drv_optimalTilingFeatures D fmt) VK_FORMAT_FEATURE_BLIT_DST_BIT = true ->
    one_shot_succeeds D device commandPool queue = true ->
    exists w',
      GenerateMipmaps D device commandPool queue image fmt texWidth texHeight mipLevels w
      = (Ok tt, w')
      /\ blits (calls w')
         = blits (calls w)
           ++ map (level_blit texWidth texHeight) (seq 0 (Z.to_nat (mipLevels - 1))).
Proof.
  intros D device commandPool queue image fmt texWidth texHeight mipLevels w
         Hlev Hw Hh Hsrc Hdst Hok.
  assert (Hle : (mipLevels <=? 1) = false) by (apply Z.leb_gt; lia).
  assert (Hgt : (mipLevels >? 1) = true) by (apply Z.gtb_lt; lia).
  unfold GenerateMipmaps. rewrite Hle, Hsrc, Hdst, Hgt. cbn [negb orb].
  rewrite bind_api.
  assert (Hwarn : forall w0, exists w1,
             (if negb (has_flag (drv_optimalTilingFeatures D fmt)
                         VK_FORMAT_FEATURE_SAMPLED_IMAGE_FILTER_LINEAR_BIT)
              then emit_log WARN "Mipmap generation: Texture format does not support linear blit filtering! Mipmaps may look worse."
              else ret tt) w0 = (Ok tt, w1)
             /\ calls w1 = calls w0
             /\ warned_null_descriptor_set w1 = warned_null_descriptor_set w0).
  { intros w0. destruct (negb _); eexists; (split; [reflexivity|]); auto. }
  match goal with |- context [bind _ _ ?w0] => destruct (Hwarn w0) as (w1 & E1 & Hc1 & _) end.
  rewrite (bind_run _ _ _ _ _ E1).
  rewrite (bind_run _ _ _ _ _
             (UtilsCorrect.BeginSingleTimeCommands_succeeds D device commandPool queue _ Hok)).
  rewrite (bind_run _ _ _ _ _ (UtilsCorrect.mip_loop_run _ _ _ _ _ _ _)).
  rewrite bind_assoc, bind_api, bind_api.
  cbn [log calls warned_null_descriptor_set].
  match goal with |- exists _, bind _ _ ?w0 = _ /\ _ =>
    destruct (UtilsCorrect.EndSingleTimeCommands_succeeds D device commandPool queue w0 Hok)
      as (w2 & E2 & Hlog & tail & Hcalls & Hnone) end.
  rewrite (bind_run _ _ _ _ _ E2). unfold emit_log.
  eexists. split; [reflexivity|]. cbn [calls].
  rewrite Hcalls. cbn [calls]. rewrite Hc1. cbn [calls].
  rewrite !blits_app, (blits_no_commands tail Hnone).
  pose proof (blits_mip_cmds (Z.to_nat (mipLevels - 1))
                (snd (drv_vkAllocateCommandBuffers D commandPool)) image
                texWidth texHeight 0 Hw Hh) as Hb.
  rewrite !mip_extent_0 in Hb by assumption.
  change (Z.of_nat 0 + 1) with 1 in Hb. rewrite Hb.
  cbn. rewrite !app_nil_r. reflexivity.
Qed.

Lemma GenerateMipmaps_extents_witness :
  exists w',
    GenerateMipmaps good_driver 1 20 4 900 VK_FORMAT_B8G8R8A8_SRGB 5 2 4 empty_world
    = (Ok tt, w')
    /\ blits (calls w')
       = [CmdBlitImage 0 5 2 1 2 1; CmdBlitImage 1 2 1 2 1 1; CmdBlitImage 2 1 1 3 1 1].
Proof.
  apply (GenerateMipmaps_blits_halve_extents good_driver 1 20 4 900
           VK_FORMAT_B8G8R8A8_SRGB 5 2 4 empty_world);
    first [lia | reflexivity].
Defined.

End UtilsMore.

(** ** Swapchain.cpp *)

Module SwapchainMore.
Import Utils Swapchain Fixtures Spec Invariants.

(** *** Choosing the parameters *)

(** X14: The image count requested from the driver is the surface minimum or
    one more: one more exactly when that neither overflows 32 bits nor
    exceeds a maximum the surface imposes (0 meaning no maximum).  It is
    never below the minimum and, for capabilities whose maximum is not
    below their minimum, never above the maximum. *)
Theorem requested_image_count_bounds :
  forall capabilities,
    0 <= cap_minImageCount capabilities <= UINT32_MAX ->
    0 <= cap_maxImageCount capabilities ->
    let lo := cap_minImageCount capabilities in
    let hi := cap_maxImageCount capabilities in
    let n := requested_image_count capabilities in
    lo <= n <= lo + 1
    /\ (n = lo + 1 <-> lo < UINT32_MAX /\ (hi = 0 \/ lo < hi))
    /\ (0 < hi -> lo <= hi -> n <= hi).
Proof.
  intros capabilities Hlo Hhi lo hi n. subst n lo hi.
  unfold requested_image_count, wrap32, UINT32_MAX in *.
  set (lo := cap_minImageCount capabilities) in *.
  set (hi := cap_maxImageCount capabilities) in *.
  destruct (Z.eq_dec lo (2 ^ 32 - 1)) as [Emax | Emax].
  - replace ((lo + 1) mod 2 ^ 32) with 0
      by (rewrite Emax; symmetry; apply Z.mod_same; lia).
    destruct (Z.gtb_spec hi 0); destruct (Z.gtb_spec 0 hi); cbn [andb]; try lia;
      destruct (Z.ltb_spec 0 lo); lia.
  - rewrite Z.mod_small by lia.
    destruct (Z.gtb_spec hi 0); destruct (Z.gtb_spec (lo + 1) hi); cbn [andb];
      first [ destruct (Z.ltb_spec hi lo); lia
            | destruct (Z.ltb_spec (lo + 1) lo); lia ].
Qed.

Lemma requested_image_count_witness :
  (2 <= requested_image_count test_capabilities <= 2 + 1
   /\ (requested_image_count test_capabilities = 2 + 1
       <-> 2 < UINT32_MAX /\ (3 = 0 \/ 2 < 3))
   /\ (0 < 3 -> 2 <= 3 -> requested_image_count test_capabilities <= 3)).
Proof.
  apply (requested_image_count_bounds test_capabilities); cbn; unfold UINT32_MAX; lia.
Defined.

(** X15: [ChooseSwapPresentMode] never fails: it answers mailbox exactly when
    the surface offers it and FIFO otherwise, whether or not FIFO is
    among the offered modes, without reaching the driver. *)
Theorem ChooseSwapPresentMode_mailbox_or_fifo :
  forall availablePresentModes w,
    exists mode w',
      ChooseSwapPresentMode availablePresentModes w = (Ok mode, w')
      /\ calls w' = calls w
      /\ (mode = VK_PRESENT_MODE_MAILBOX_KHR
          <-> In VK_PRESENT_MODE_MAILBOX_KHR availablePresentModes)
      /\ (mode = VK_PRESENT_MODE_FIFO_KHR
          <-> ~ In VK_PRESENT_MODE_MAILBOX_KHR availablePresentModes).
Proof.
  intros modes w. unfold ChooseSwapPresentMode.
  destruct (existsb (fun m => m =? VK_PRESENT_MODE_MAILBOX_KHR) modes) eqn:E.
  - apply existsb_exists in E. destruct E as (m & Hin & Em).
    apply Z.eqb_eq in Em. subst m.
    eexists. eexists. split; [reflexivity|]. split; [reflexivity|].
    split; [tauto|]. split; [discriminate | tauto].
  - assert (Hno : ~ In VK_PRESENT_MODE_MAILBOX_KHR modes).
    { intros Hin.
      assert (Ht : existsb (fun m => m =? VK_PRESENT_MODE_MAILBOX_KHR) modes = true).
      { apply existsb_exists. exists VK_PRESENT_MODE_MAILBOX_KHR. auto. }
      rewrite Ht in E. discriminate. }
    eexists. eexists. split; [reflexivity|]. split; [reflexivity|].
    split; [split; [discriminate | tauto] | tauto].
Qed.

Lemma find_preferred_format_spec availableFormats :
  match find_preferred_format availableFormats with
  | Some f =>
      exists before after,
        availableFormats = before ++ f :: after
        /\ preferred_format f
        /\ Forall (fun g => ~ preferred_format g) before
  | None => Forall (fun g => ~ preferred_format g) availableFormats
  end.
Proof.
  unfold preferred_format.
  induction availableFormats as [| f rest IH]; [constructor|].
  cbn [find_preferred_format].
  destruct (Z.eqb_spec (format f) VK_FORMAT_B8G8R8A8_SRGB) as [Ef | Ef];
    [destruct (Z.eqb_spec (colorSpace f) VK_COLOR_SPACE_SRGB_NONLINEAR_KHR) as [Ec | Ec]|];
    cbn [andb].
  - exists [], rest. auto.
  - destruct (find_preferred_format rest) as [g|].
    + destruct IH as (before & after & -> & Hg & Hb).
      exists (f :: before), after. split; [reflexivity|]. split; [exact Hg|].
      constructor; [tauto | exact Hb].
    + constructor; [tauto | exact IH].
  - destruct (find_preferred_format rest) as [g|].
    + destruct IH as (before & after & -> & Hg & Hb).
      exists (f :: before), after. split; [reflexivity|]. split; [exact Hg|].
      constructor; [tauto | exact Hb].
    + constructor; [tauto | exact IH].
Qed.

(** X16: [ChooseSwapSurfaceFormat] returns a format the surface offers: the
    first preferred one (8-bit BGRA sRGB with the sRGB colour space) if
    there is any, else the first of the list; on an empty list it reads
    past the end of the vector.  It does not reach the driver. *)
Theorem ChooseSwapSurfaceFormat_picks_an_offered_format :
  forall availableFormats w,
    match availableFormats with
    | [] => ChooseSwapSurfaceFormat availableFormats w = (Undefined, w)
    | first :: _ =>
        exists f w',
          ChooseSwapSurfaceFormat availableFormats w = (Ok f, w')
          /\ calls w' = calls w
          /\ In f availableFormats
          /\ ((exists before after,
                  availableFormats = before ++ f :: after
                  /\ preferred_format f
                  /\ Forall (fun g => ~ preferred_format g) before)
              \/ (f = first
                  /\ Forall (fun g => ~ preferred_format g) availableFormats))
    end.
Proof.
  intros availableFormats w. unfold ChooseSwapSurfaceFormat.
  pose proof (find_preferred_format_spec availableFormats) as H.
  destruct availableFormats as [| first rest].
  - reflexivity.
  - destruct (find_preferred_format (first :: rest)) as [f|].
    + destruct H as (before & after & E & Hp & Hb).
      exists f. eexists. split; [reflexivity|]. split; [reflexivity|].
      split; [rewrite E; apply in_elt|]. left. eauto.
    + exists first. eexists. split; [reflexivity|]. split; [reflexivity|].
      split; [left; reflexivity|]. right. auto.
Qed.

(** *** Tearing down *)

Lemma destroy_views_run context views w :
  destroy_views context views w
  = (Ok tt,
     {| log := log w;
        calls := calls w
                 ++ (if is_null (device context) then []
                     else map VkDestroyImageView (live_views views));
        warned_null_descriptor_set := warned_null_descriptor_set w |}).
Proof.
  revert w. induction views as [| v rest IH]; intros w.
  - cbn. destruct (is_null (device context)); rewrite app_nil_r, world_eta; reflexivity.
  - cbn [destroy_views live_views filter].
    destruct (is_null v); cbn [negb andb].
    + rewrite bind_ret, IH. reflexivity.
    + destruct (is_null (device context)) eqn:Ed; cbn [negb].
      * rewrite bind_ret, IH, ?Ed. reflexivity.
      * rewrite bind_api, IH, ?Ed. cbn [log calls warned_null_descriptor_set map].
        rewrite <- app_assoc. reflexivity.
Qed.

Lemma CleanupCurrentSwapchain_run context s w :
  CleanupCurrentSwapchain context s w
  = (Ok {| m_CurrentWindowWidth := m_CurrentWindowWidth s;
           m_CurrentWindowHeight := m_CurrentWindowHeight s;
           m_SwapChain := if is_null (device context) then m_SwapChain s
                          else VK_NULL_HANDLE;
           m_SwapChainImages := [];
           m_SwapChainImageViews := [];
           m_SwapChainImageFormat := m_SwapChainImageFormat s;
           m_SwapChainExtent := m_SwapChainExtent s |},
     {| log := log w;
        calls := calls w ++ teardown_calls context s;
        warned_null_descriptor_set := warned_null_descriptor_set w |}).
Proof.
  unfold CleanupCurrentSwapchain, teardown_calls.
  rewrite (bind_run _ _ _ _ _ (destroy_views_run _ _ _)).
  cbn [m_SwapChain with_views].
  destruct (is_null (device context)) eqn:Ed; cbn [negb andb].
  - rewrite andb_false_r, bind_ret. unfold ret. cbn. reflexivity.
  - rewrite andb_true_r.
    destruct (is_null (m_SwapChain s)) eqn:Es; cbn [negb].
    + rewrite bind_ret. unfold ret. cbn. rewrite app_nil_r.
      apply Z.eqb_eq in Es. unfold with_images, with_views. cbn. rewrite Es.
      reflexivity.
    + rewrite bind_assoc, bind_api, bind_ret. unfold ret. cbn.
      rewrite <- app_assoc. reflexivity.
Qed.

(** X17: [CleanupCurrentSwapchain] never fails and leaves a swapchain without
    views and images.  On a live device it destroys every non-null view,
    in order, and then the swapchain if there is one, and the handle is
    null afterwards, so that a second cleanup asks nothing of the driver;
    on a null device it asks nothing and keeps the handle. *)
Theorem CleanupCurrentSwapchain_destroys_views_then_chain :
  forall context s w,
    exists s' w',
      CleanupCurrentSwapchain context s w = (Ok s', w')
      /\ m_SwapChainImageViews s' = []
      /\ m_SwapChainImages s' = []
      /\ log w' = log w
      /\ calls w' = calls w ++ teardown_calls context s
      /\ teardown_calls context s' = []
      /\ m_SwapChain s'
         = (if is_null (device context) then m_SwapChain s else VK_NULL_HANDLE).
Proof.
  intros context s w. rewrite CleanupCurrentSwapchain_run.
  eexists. eexists. split; [reflexivity|].
  cbn [m_SwapChainImageViews m_SwapChainImages m_SwapChain log calls].
  repeat split.
  unfold teardown_calls. cbn [m_SwapChainImageViews m_SwapChain].
  destruct (is_null (device context)); reflexivity.
Qed.

(** *** Building *)

Lemma create_views_ok D fmt images w views w' :
  create_views D fmt images w = (Ok views, w') ->
  List.length views = List.length images
  /\ Forall (fun v => v <> VK_NULL_HANDLE) views.
Proof.
  revert w views w'. induction images as [| img rest IH]; intros w views w' H.
  - injection H as <- _. auto.
  - cbn [create_views] in H.
    apply bind_ok_inv in H. destruct H as (view & w1 & _ & H).
    destruct (is_null view) eqn:Ev; [discriminate|].
    apply bind_ok_inv in H. destruct H as (views' & w2 & Hrest & H).
    injection H as <- _. apply IH in Hrest. destruct Hrest as [Hlen Hall].
    cbn [List.length]. split; [congruence|].
    constructor; [apply Z.eqb_neq; exact Ev | exact Hall].
Qed.

(** What a normal return of [Init] tells: on a null device nothing was
    done; otherwise the surface is live, the window size is kept, there
    is one non-null view per image and the context records the number of
    images. *)
Lemma Init_ok_inv D context s old w s' context' w' :
  Init D context s old w = (Ok (s', context'), w') ->
  (device context = VK_NULL_HANDLE /\ s' = s /\ context' = context
   /\ calls w' = calls w)
  \/ (device context <> VK_NULL_HANDLE /\ surface context <> VK_NULL_HANDLE
      /\ views_match_images s'
      /\ m_CurrentWindowWidth s' = m_CurrentWindowWidth s
      /\ m_CurrentWindowHeight s' = m_CurrentWindowHeight s
      /\ imageCount context'
         = wrap32 (Z.of_nat (List.length (m_SwapChainImages s')))
      /\ device context' = device context).
Proof.
  unfold Init. intros H.
  destruct (Z.eqb_spec (device context) VK_NULL_HANDLE) as [Ed | Ed];
    unfold is_null in H.
  - rewrite Ed in H. change (VK_NULL_HANDLE =? VK_NULL_HANDLE) with true in H.
    cbn [orb negb] in H. rewrite bind_log in H. injection H as <- <- <-.
    left. auto.
  - rewrite (proj2 (Z.eqb_neq _ _) Ed) in H. cbn [orb negb] in H.
    destruct (Z.eqb_spec (surface context) VK_NULL_HANDLE) as [Es | Es].
    + rewrite bind_log in H. discriminate.
    + right. split; [exact Ed|]. split; [exact Es|].
      apply bind_ok_inv in H. destruct H as ([s1 c1] & w1 & Hcreate & H).
      apply bind_ok_inv in H. destruct H as (s2 & w2 & Himgs & H).
      apply bind_ok_inv in H. destruct H as (s3 & w3 & Hviews & H).
      injection H as <- <- _.
      (* the swapchain proper keeps the window size and the device *)
      assert (H1 : m_CurrentWindowWidth s1 = m_CurrentWindowWidth s
                   /\ m_CurrentWindowHeight s1 = m_CurrentWindowHeight s
                   /\ device c1 = device context).
      { unfold CreateActualSwapchain in Hcreate.
        destruct (formats _) as [| f fs]; [| destruct (presentModes _) as [| pm pms]].
        - destruct (negb _); [discriminate|]. rewrite bind_log in Hcreate.
          injection Hcreate as <- <- _. auto.
        - destruct (negb _); [discriminate|]. rewrite bind_log in Hcreate.
          injection Hcreate as <- <- _. auto.
        - do 3 (apply bind_ok_inv in Hcreate; destruct Hcreate as (? & ? & _ & Hcreate)).
          destruct (drv_FindQueueFamilies D _) as [[g|] [p|]]; try discriminate.
          rewrite bind_api in Hcreate.
          destruct (drv_vkCreateSwapchainKHR D _ _ _ old) as [result handle].
          destruct (negb _); [discriminate|].
          injection Hcreate as <- <- _. auto. }
      destruct H1 as (Hw1 & Hh1 & Hd1).
      (* the images *)
      assert (H2 : m_CurrentWindowWidth s2 = m_CurrentWindowWidth s1
                   /\ m_CurrentWindowHeight s2 = m_CurrentWindowHeight s1).
      { unfold RetrieveSwapchainImages in Himgs.
        destruct (is_null (m_SwapChain s1)).
        - injection Himgs as <- _. auto.
        - destruct (drv_vkGetSwapchainImagesKHR D _) as [res images].
          do 4 (apply bind_ok_inv in Himgs; destruct Himgs as (? & ? & _ & Himgs)).
          rewrite bind_log in Himgs. injection Himgs as <- _. auto. }
      destruct H2 as (Hw2 & Hh2).
      (* the views *)
      assert (H3 : views_match_images s3
                   /\ m_SwapChainImages s3 = m_SwapChainImages s2
                   /\ m_CurrentWindowWidth s3 = m_CurrentWindowWidth s2
                   /\ m_CurrentWindowHeight s3 = m_CurrentWindowHeight s2).
      { unfold CreateSwapchainImageViews in Hviews. unfold views_match_images.
        destruct (m_SwapChainImages s2) as [| img imgs] eqn:Ei.
        - injection Hviews as <- _. cbn. rewrite Ei. auto.
        - rewrite bind_log in Hviews.
          apply bind_ok_inv in Hviews. destruct Hviews as (views & w4 & Hv & Hviews).
          rewrite bind_log in Hviews. injection Hviews as <- _.
          apply create_views_ok in Hv. cbn. rewrite Ei. tauto. }
      destruct H3 as (Hm & Hi3 & Hw3 & Hh3).
      split; [exact Hm|]. cbn [imageCount device set_imageCount].
      repeat split; congruence.
Qed.

(** X18: A swapchain that was constructed satisfies the class invariant: the
    number of image views equals the number of images and no view is
    null.  It records the window size it was given, and on a live device
    the context records the number of images. *)
Theorem Swapchain_new_views_match_images :
  forall D context windowWidth windowHeight previous w s context' w',
    Swapchain_new D context windowWidth windowHeight previous w
    = (Ok (s, context'), w') ->
    views_match_images s
    /\ m_CurrentWindowWidth s = windowWidth
    /\ m_CurrentWindowHeight s = windowHeight
    /\ (device context <> VK_NULL_HANDLE ->
        surface context <> VK_NULL_HANDLE
        /\ imageCount context'
           = wrap32 (Z.of_nat (List.length (m_SwapChainImages s)))).
Proof.
  intros D context windowWidth windowHeight previous w s context' w' H.
  unfold Swapchain_new in H. rewrite bind_log in H.
  apply bind_ok_inv in H. destruct H as ([s1 c1] & w1 & Hinit & H).
  rewrite bind_log in H. injection H as <- <- _.
  apply Init_ok_inv in Hinit.
  destruct Hinit as [(Hd & -> & -> & _) | (Hd & Hs & Hm & Hw & Hh & Hc & _)].
  - unfold views_match_images. cbn. repeat split; try constructor; contradiction.
  - cbn in Hw, Hh. auto.
Qed.

Lemma Swapchain_new_witness :
  exists s context' w',
    Swapchain_new good_driver live_context 800 600 VK_NULL_HANDLE empty_world
    = (Ok (s, context'), w')
    /\ views_match_images s
    /\ m_CurrentWindowWidth s = 800
    /\ m_CurrentWindowHeight s = 600
    /\ (device live_context <> VK_NULL_HANDLE ->
        surface live_context <> VK_NULL_HANDLE
        /\ imageCount context'
           = wrap32 (Z.of_nat (List.length (m_SwapChainImages s)))).
Proof.
  eexists. eexists. eexists. split; [vm_compute; reflexivity|].
  eapply (Swapchain_new_views_match_images good_driver live_context 800 600
            VK_NULL_HANDLE empty_world).
  vm_compute. reflexivity.
Defined.

(** *** What building and tearing down ask of the driver *)

Lemma createImageView_emits D image fmt : emits rebuild_call (createImageView D image fmt).
Proof. unfold createImageView. solve_emits. Qed.

Lemma create_views_emits D fmt images : emits rebuild_call (create_views D fmt images).
Proof.
  induction images as [| img rest IH]; cbn [create_views]; [apply emits_ret|].
  apply emits_bind; [apply createImageView_emits | intros view].
  destruct (is_null view); [apply emits_throw|].
  apply emits_bind; [exact IH | intros; apply emits_ret].
Qed.

Lemma CreateActualSwapchain_emits D context s old :
  emits rebuild_call (CreateActualSwapchain D context s old).
Proof.
  unfold CreateActualSwapchain, ChooseSwapSurfaceFormat, ChooseSwapPresentMode,
    ChooseSwapExtent.
  solve_emits.
Qed.

Lemma Init_emits D context s old : emits rebuild_call (Init D context s old).
Proof.
  unfold Init. destruct (_ || _); [solve_emits|].
  apply emits_bind; [apply CreateActualSwapchain_emits | intros [s1 c1]].
  apply emits_bind.
  { unfold RetrieveSwapchainImages. solve_emits. }
  intros s2. apply emits_bind; [| intros; apply emits_ret].
  unfold CreateSwapchainImageViews. destruct (m_SwapChainImages s2); [apply emits_ret|].
  apply emits_bind; [apply emits_log | intros _].
  apply emits_bind; [apply create_views_emits | intros; solve_emits].
Qed.

Lemma teardown_calls_rebuild context s : Forall rebuild_call (teardown_calls context s).
Proof.
  unfold teardown_calls. destruct (is_null (device context)); [constructor|].
  apply Forall_app. split.
  - apply Forall_forall. intros c Hin. apply in_map_iff in Hin.
    destruct Hin as (v & <- & _). exact I.
  - destruct (is_null (m_SwapChain s)); repeat constructor.
Qed.

Lemma Recreate_emits D context s newWidth newHeight old :
  emits rebuild_call (Recreate D context s newWidth newHeight old).
Proof.
  unfold Recreate.
  apply emits_bind; [apply emits_log | intros _].
  apply emits_bind.
  { intros w res w' H. rewrite CleanupCurrentSwapchain_run in H.
    injection H as <- <-. eexists. split; [reflexivity|].
    apply teardown_calls_rebuild. }
  intros s1. apply emits_bind; [apply Init_emits | intros; solve_emits].
Qed.

Lemma Recreate_ok_inv D context s newWidth newHeight old w s' context' w' :
  Recreate D context s newWidth newHeight old w = (Ok (s', context'), w') ->
  views_match_images s'
  /\ m_CurrentWindowWidth s' = newWidth
  /\ m_CurrentWindowHeight s' = newHeight
  /\ imageCount context'
     = (if is_null (device context) then imageCount context
        else wrap32 (Z.of_nat (List.length (m_SwapChainImages s'))))
  /\ exists built,
       calls w' = calls w ++ teardown_calls context s ++ built
       /\ Forall rebuild_call built.
Proof.
  intros H. unfold Recreate in H. rewrite bind_log in H.
  rewrite (bind_run _ _ _ _ _ (CleanupCurrentSwapchain_run _ _ _)) in H.
  apply bind_ok_inv in H. destruct H as ([s1 c1] & w1 & Hinit & H).
  rewrite bind_log in H. injection H as <- <- <-.
  cbn [calls].
  destruct (Init_emits _ _ _ _ _ _ _ Hinit) as (built & Hcalls & Hbuilt).
  cbn [calls] in Hcalls.
  change (teardown_calls context (with_window s newWidth newHeight))
    with (teardown_calls context s) in Hcalls.
  apply Init_ok_inv in Hinit.
  destruct Hinit as [(Hd & -> & -> & _) | (Hd & Hs & Hm & Hw & Hh & Hc & _)].
  - unfold views_match_images. cbn.
    unfold is_null. rewrite Hd. change (VK_NULL_HANDLE =? VK_NULL_HANDLE) with true.
    split; [split; [reflexivity | constructor]|].
    do 3 (split; [reflexivity|]).
    exists built. rewrite Hcalls, <- app_assoc. auto.
  - cbn in Hw, Hh. apply Z.eqb_neq in Hd. unfold is_null. rewrite Hd.
    do 4 (split; [assumption|]).
    exists built. rewrite Hcalls, <- app_assoc. auto.
Qed.



End SwapchainMore.

(** ** CommandManager.cpp *)

Module CommandManagerMore.
Import Renderer CommandManagerOps Fixtures Spec Invariants.

(** X20: A slot index at or past the number of command buffers is rejected
    with [std::out_of_range] by the accessor and, on an initialised
    manager, by the begin and the end of a recording, before any driver
    call.  On a manager whose initialisation was skipped (null pool) the
    pool check comes first: both return without throwing, the begin with
    a null handle. *)
Theorem frame_recording_rejects_bad_slot :
  forall D cm frameIndex w,
    Z.of_nat (List.length (m_CommandBuffers cm)) <= frameIndex ->
    (exists w',
        GetCommandBuffer cm frameIndex w
        = (Throw (out_of_range "Invalid command buffer frame index."), w')
        /\ calls w' = calls w)
    /\ (if is_null (m_CommandPool cm)
        then (exists w',
                 BeginFrameRecording D cm frameIndex w = (Ok VK_NULL_HANDLE, w')
                 /\ calls w' = calls w)
             /\ (exists w',
                    EndFrameRecording D cm frameIndex w = (Ok tt, w')
                    /\ calls w' = calls w)
        else (exists w',
                 BeginFrameRecording D cm frameIndex w
                 = (Throw (out_of_range "Invalid frame index for command buffer begin."),
                    w')
                 /\ calls w' = calls w)
             /\ (exists w',
                    EndFrameRecording D cm frameIndex w
                    = (Throw (out_of_range "Invalid frame index for command buffer end."),
                       w')
                    /\ calls w' = calls w)).
Proof.
  intros D cm frameIndex w Hge.
  assert (E : (frameIndex >=? Z.of_nat (List.length (m_CommandBuffers cm))) = true).
  { apply Z.geb_le. exact Hge. }
  unfold GetCommandBuffer, BeginFrameRecording, EndFrameRecording. rewrite E.
  split; [eexists; split; reflexivity|].
  destruct (is_null (m_CommandPool cm)); split; eexists; split; reflexivity.
Qed.

Lemma frame_recording_bad_slot_witness :
  (exists w',
      GetCommandBuffer {| m_CommandPool := 20; m_CommandBuffers := [21; 22] |} 2
        empty_world
      = (Throw (out_of_range "Invalid command buffer frame index."), w')
      /\ calls w' = calls empty_world)
  /\ (exists w',
         BeginFrameRecording good_driver
           {| m_CommandPool := 20; m_CommandBuffers := [21; 22] |} 2 empty_world
         = (Throw (out_of_range "Invalid frame index for command buffer begin."), w')
         /\ calls w' = calls empty_world)
     /\ (exists w',
            EndFrameRecording good_driver
              {| m_CommandPool := 20; m_CommandBuffers := [21; 22] |} 2 empty_world
            = (Throw (out_of_range "Invalid frame index for command buffer end."), w')
            /\ calls w' = calls empty_world).
Proof.
  apply (frame_recording_rejects_bad_slot good_driver
           {| m_CommandPool := 20; m_CommandBuffers := [21; 22] |} 2 empty_world).
  cbn. lia.
Defined.

(** X21: On an initialised manager and an accepting driver, beginning and then
    ending the recording of slot [i] resets, begins and ends the [i]-th
    command buffer and no other: the one the accessor returns for [i]. *)
Theorem frame_recording_uses_the_slot_buffer :
  forall D cm frameIndex commandBuffer w,
    m_CommandPool cm <> VK_NULL_HANDLE ->
    0 <= frameIndex ->
    nth_error (m_CommandBuffers cm) (Z.to_nat frameIndex) = Some commandBuffer ->
    drv_vkResetCommandBuffer D commandBuffer = VK_SUCCESS ->
    drv_vkBeginCommandBuffer D commandBuffer = VK_SUCCESS ->
    drv_vkEndCommandBuffer D commandBuffer = VK_SUCCESS ->
    GetCommandBuffer cm frameIndex w = (Ok commandBuffer, w)
    /\ (begun <- BeginFrameRecording D cm frameIndex ;;
        EndFrameRecording D cm frameIndex ;;
        ret begun) w
       = (Ok commandBuffer,
          {| log := log w;
             calls := calls w ++ [VkResetCommandBuffer commandBuffer;
                                  VkBeginCommandBuffer commandBuffer;
                                  VkEndCommandBuffer commandBuffer];
             warned_null_descriptor_set := warned_null_descriptor_set w |}).
Proof.
  intros D cm frameIndex cb w Hpool Hi Hnth Hreset Hbegin Hend.
  assert (Hlt : (Z.to_nat frameIndex < List.length (m_CommandBuffers cm))%nat).
  { apply nth_error_Some. rewrite Hnth. discriminate. }
  assert (E : (frameIndex >=? Z.of_nat (List.length (m_CommandBuffers cm))) = false).
  { destruct (Z.geb_spec frameIndex (Z.of_nat (List.length (m_CommandBuffers cm))));
      [lia | reflexivity]. }
  apply Z.eqb_neq in Hpool.
  unfold GetCommandBuffer, BeginFrameRecording, EndFrameRecording.
  unfold is_null. rewrite E, Hpool.
  split; [apply vector_at_nth; assumption|].
  rewrite bind_assoc, (bind_run _ _ _ _ _ (vector_at_nth _ _ _ w Hi Hnth)).
  rewrite bind_assoc, bind_api.
  rewrite bind_assoc, (bind_run _ _ _ _ _ (VK_CHECK_success _ _ Hreset)).
  rewrite bind_assoc, bind_api.
  rewrite bind_assoc, (bind_run _ _ _ _ _ (VK_CHECK_success _ _ Hbegin)).
  rewrite bind_ret, bind_assoc.
  rewrite (bind_run _ _ _ _ _ (vector_at_nth _ _ _ _ Hi Hnth)).
  rewrite bind_assoc, bind_api.
  rewrite (bind_run _ _ _ _ _ (VK_CHECK_success _ _ Hend)).
  unfold ret. cbn [log calls warned_null_descriptor_set].
  rewrite <- !app_assoc. reflexivity.
Qed.

Lemma frame_recording_slot_witness :
  GetCommandBuffer {| m_CommandPool := 20; m_CommandBuffers := [21; 22] |} 1 empty_world
  = (Ok 22, empty_world)
  /\ (begun <- BeginFrameRecording good_driver
                 {| m_CommandPool := 20; m_CommandBuffers := [21; 22] |} 1 ;;
      EndFrameRecording good_driver
        {| m_CommandPool := 20; m_CommandBuffers := [21; 22] |} 1 ;;
      ret begun) empty_world
     = (Ok 22,
        {| log := [];
           calls := [VkResetCommandBuffer 22; VkBeginCommandBuffer 22;
                     VkEndCommandBuffer 22];
           warned_null_descriptor_set := false |}).
Proof.
  apply (frame_recording_uses_the_slot_buffer good_driver
           {| m_CommandPool := 20; m_CommandBuffers := [21; 22] |} 1 22 empty_world);
    first [discriminate | reflexivity | lia].
Defined.

End CommandManagerMore.

(** ** Renderer.cpp *)

Module RendererMore.
Import Buffer Renderer Fixtures Spec Invariants.

(** *** Rebuilding the swapchain *)

Lemma wait_while_minimized_emits polls : emits rebuild_call (wait_while_minimized polls).
Proof. induction polls as [| n IH]; cbn [wait_while_minimized]; solve_emits. exact IH. Qed.

Lemma create_framebuffers_emits D views : emits rebuild_call (create_framebuffers D views).
Proof.
  induction views as [| v rest IH]; cbn [create_framebuffers]; solve_emits.
  exact IH.
Qed.

Lemma create_framebuffers_length D views w fbs w' :
  create_framebuffers D views w = (Ok fbs, w') -> List.length fbs = List.length views.
Proof.
  revert w fbs w'. induction views as [| v rest IH]; intros w fbs w' H.
  - injection H as <- _. reflexivity.
  - cbn [create_framebuffers] in H. rewrite bind_api in H.
    destruct (drv_vkCreateFramebuffer D v) as [res fb].
    apply bind_ok_inv in H. destruct H as ([] & w1 & _ & H).
    apply bind_ok_inv in H. destruct H as (fbs' & w2 & Hrest & H).
    injection H as <- _. cbn [List.length]. f_equal. eapply IH. exact Hrest.
Qed.

Lemma RecreateSwapchain_emits D r : emits rebuild_call (RecreateSwapchain D r).
Proof.
  unfold RecreateSwapchain.
  apply emits_bind; [apply emits_log | intros _].
  apply emits_bind; [apply emits_api; exact I | intros _].
  apply emits_bind; [apply wait_while_minimized_emits | intros _].
  destruct (drv_framebufferSize D) as [width height].
  apply emits_bind; [unfold WaitForDeviceIdle; solve_emits | intros _].
  apply emits_bind; [unfold CleanupSwapchainDependents; solve_emits | intros r1].
  apply emits_bind; [apply SwapchainMore.Recreate_emits | intros [s context]].
  apply emits_bind; [| intros; solve_emits].
  unfold CreateSwapchainDependents.
  apply emits_bind; [apply emits_log | intros _].
  apply emits_bind; [apply emits_api; exact I | intros _].
  destruct (drv_CreateDepthResources D _); [| apply emits_throw].
  apply emits_bind; [apply emits_api; exact I | intros _].
  destruct (drv_vkCreateRenderPass D _) as [res renderPass].
  apply emits_bind; [apply emits_VK_CHECK | intros _].
  apply emits_bind; [apply emits_api; exact I | intros _].
  destruct (drv_CreateGraphicsPipeline D renderPass) as [[layout pipeline]|];
    [| apply emits_throw].
  apply emits_bind; [apply emits_log | intros _].
  apply emits_bind; [apply create_framebuffers_emits | intros; solve_emits].
Qed.

Lemma same_frame_state_refl r : same_frame_state r r.
Proof. unfold same_frame_state. repeat split. Qed.

Lemma same_frame_state_trans r1 r2 r3 :
  same_frame_state r1 r2 -> same_frame_state r2 r3 -> same_frame_state r1 r3.
Proof.
  unfold same_frame_state.
  intros (A1 & A2 & A3 & A4 & A5 & A6 & A7 & A8 & A9)
         (B1 & B2 & B3 & B4 & B5 & B6 & B7 & B8 & B9).
  repeat split; congruence.
Qed.

Lemma RecreateSwapchain_ok_inv D r w r' w' :
  RecreateSwapchain D r w = (Ok r', w') ->
  m_FramebufferResized r' = false
  /\ same_frame_state r r'
  /\ framebuffers_match_views r'.
Proof.
  unfold RecreateSwapchain. intros H.
  rewrite bind_log, bind_api in H.
  apply bind_ok_inv in H. destruct H as ([] & w1 & _ & H).
  destruct (drv_framebufferSize D) as [width height].
  apply bind_ok_inv in H. destruct H as ([] & w2 & _ & H).
  apply bind_ok_inv in H. destruct H as (r1 & w3 & Hclean & H).
  apply bind_ok_inv in H. destruct H as ([s context] & w4 & Hrec & H).
  apply bind_ok_inv in H. destruct H as (r2 & w5 & Hdep & H).
  rewrite bind_log in H. injection H as <- _.
  assert (H1 : same_frame_state r r1).
  { unfold CleanupSwapchainDependents in Hclean. rewrite bind_log in Hclean.
    apply bind_ok_inv in Hclean. destruct Hclean as (r0 & w0 & Hc & Hclean).
    rewrite bind_log in Hclean. injection Hclean as <- _.
    destruct (negb _) in Hc.
    - rewrite bind_api in Hc. injection Hc as <- _.
      unfold same_frame_state. cbn. repeat split.
    - injection Hc as <- _. apply same_frame_state_refl. }
  apply SwapchainMore.Recreate_ok_inv in Hrec.
  destruct Hrec as (Hviews & _).
  unfold CreateSwapchainDependents in Hdep.
  rewrite bind_log, bind_api in Hdep.
  destruct (drv_CreateDepthResources D _) as [depthView|]; [| discriminate].
  rewrite bind_api in Hdep.
  destruct (drv_vkCreateRenderPass D _) as [res renderPass].
  apply bind_ok_inv in Hdep. destruct Hdep as ([] & w6 & _ & Hdep).
  rewrite bind_api in Hdep.
  destruct (drv_CreateGraphicsPipeline D renderPass) as [[layout pipeline]|];
    [| discriminate].
  rewrite bind_log in Hdep.
  apply bind_ok_inv in Hdep. destruct Hdep as (fbs & w7 & Hfbs & Hdep).
  rewrite bind_log in Hdep. injection Hdep as <- _.
  apply create_framebuffers_length in Hfbs.
  cbn [m_Swapchain set_swapchain] in Hfbs.
  split; [reflexivity|]. split.
  - eapply same_frame_state_trans; [exact H1|].
    unfold same_frame_state. cbn. repeat split.
  - unfold framebuffers_match_views. cbn. split; [exact Hfbs | exact Hviews].
Qed.

(** X22: Whenever [RecreateSwapchain] returns, the resize flag is clear, there
    is one framebuffer per image view and one non-null view per image,
    and the frame state (slot index, image index, command manager,
    per-slot buffers, descriptor sets, semaphores and fences) is as
    before.  Whatever its outcome, it only asks the driver and the window
    to wait, tear down and build: it resets no fence and submits
    nothing. *)
Theorem RecreateSwapchain_rebuilds_consistently :
  forall D r w res w',
    RecreateSwapchain D r w = (res, w') ->
    (exists rebuilt, calls w' = calls w ++ rebuilt /\ Forall rebuild_call rebuilt)
    /\ forall r',
         res = Ok r' ->
         m_FramebufferResized r' = false
         /\ same_frame_state r r'
         /\ framebuffers_match_views r'.
Proof.
  intros D r w res w' H. split.
  - exact (RecreateSwapchain_emits D r w res w' H).
  - intros r' ->. exact (RecreateSwapchain_ok_inv D r w r' w' H).
Qed.

Lemma RecreateSwapchain_witness :
  exists res w',
    RecreateSwapchain good_driver (test_renderer true) empty_world = (res, w')
    /\ (exists rebuilt,
           calls w' = calls empty_world ++ rebuilt /\ Forall rebuild_call rebuilt)
    /\ forall r',
         res = Ok r' ->
         m_FramebufferResized r' = false
         /\ same_frame_state (test_renderer true) r'
         /\ framebuffers_match_views r'.
Proof.
  eexists. eexists. split; [vm_compute; reflexivity|].
  eapply (RecreateSwapchain_rebuilds_consistently good_driver (test_renderer true)
            empty_world).
  vm_compute. reflexivity.
Defined.

(** *** Beginning a frame *)

Lemma rebuild_call_begin_call c : rebuild_call c -> begin_call c.
Proof. destruct c; cbn; auto. Qed.

Lemma BeginFrameRecording_emits D cm frameIndex :
  emits begin_call (BeginFrameRecording D cm frameIndex).
Proof. unfold BeginFrameRecording. solve_emits. Qed.

Lemma BeginFrame_emits D r : emits begin_call (BeginFrame D r).
Proof.
  unfold BeginFrame.
  apply emits_bind; [apply emits_vector_at | intros fence].
  apply emits_bind; [apply emits_api; exact I | intros _].
  apply emits_bind; [apply emits_VK_CHECK | intros _].
  apply emits_bind; [apply emits_vector_at | intros semaphore].
  apply emits_bind; [apply emits_api; exact I | intros _].
  destruct (drv_vkAcquireNextImageKHR D _ semaphore) as [result imageIndex].
  destruct (result =? VK_ERROR_OUT_OF_DATE_KHR).
  { apply emits_bind; [| intros; apply emits_ret].
    eapply emits_weaken; [exact rebuild_call_begin_call | apply RecreateSwapchain_emits]. }
  destruct (_ && _); [solve_emits|].
  apply emits_bind; [solve_emits | intros r1].
  apply emits_bind; [apply emits_api; exact I | intros _].
  apply emits_bind; [apply emits_VK_CHECK | intros _].
  apply emits_bind; [apply BeginFrameRecording_emits | intros cb].
  solve_emits.
Qed.

(** Up to the acquisition [BeginFrame] runs the same on every path. *)
Lemma BeginFrame_acquire D r fence semaphore w :
  0 <= m_CurrentFrameIndex r ->
  nth_error (m_InFlightFences r) (Z.to_nat (m_CurrentFrameIndex r)) = Some fence ->
  nth_error (m_ImageAvailableSemaphores r) (Z.to_nat (m_CurrentFrameIndex r))
  = Some semaphore ->
  drv_vkWaitForFences D fence = VK_SUCCESS ->
  BeginFrame D r w
  = (let acquired :=
       drv_vkAcquireNextImageKHR D (Swapchain.m_SwapChain (m_Swapchain r)) semaphore in
     let r0 := if (fst acquired =? VK_SUCCESS) || (fst acquired =? VK_SUBOPTIMAL_KHR)
               then set_CurrentImageIndex r (snd acquired) else r in
     if fst acquired =? VK_ERROR_OUT_OF_DATE_KHR then
       r1 <- RecreateSwapchain D r0 ;; ret (false, r1)
     else if negb (fst acquired =? VK_SUCCESS) && negb (fst acquired =? VK_SUBOPTIMAL_KHR)
     then
       emit_log ERROR "Failed to acquire swap chain image!" ;;
       throw (runtime_error "Failed to acquire swap chain image!")
     else
       r1 <- (if fst acquired =? VK_SUBOPTIMAL_KHR then
                emit_log WARN "Swapchain suboptimal. Flagging for recreation." ;;
                ret (set_FramebufferResized r0 true)
              else ret r0) ;;
       api (VkResetFences fence) ;;
       VK_CHECK (drv_vkResetFences D fence) ;;
       commandBuffer <- BeginFrameRecording D (m_CommandManager r1)
                          (m_CurrentFrameIndex r1) ;;
       if is_null commandBuffer then
         emit_log ERROR "Failed to begin command buffer for frame!" ;;
         ret (false, r1)
       else ret (true, r1))
      {| log := log w;
         calls := calls w
                  ++ [VkWaitForFences fence;
                      VkAcquireNextImageKHR (Swapchain.m_SwapChain (m_Swapchain r))
                        semaphore];
         warned_null_descriptor_set := warned_null_descriptor_set w |}.
Proof.
  intros Hi Hfence Hsem Hwait. unfold BeginFrame.
  rewrite (bind_run _ _ _ _ _ (vector_at_nth _ _ _ w Hi Hfence)).
  rewrite bind_api, (bind_run _ _ _ _ _ (VK_CHECK_success _ _ Hwait)).
  rewrite (bind_run _ _ _ _ _ (vector_at_nth _ _ _ _ Hi Hsem)).
  rewrite bind_api. cbn [log calls warned_null_descriptor_set].
  rewrite <- app_assoc.
  destruct (drv_vkAcquireNextImageKHR D _ semaphore) as [result imageIndex].
  reflexivity.
Qed.

(** X23: An acquisition that reports anything but success, suboptimal or
    out-of-date is fatal: [BeginFrame] logs an error and throws, having
    issued only the fence wait and the acquisition.  The fence of the
    slot is not reset and no command buffer is touched. *)
Theorem BeginFrame_acquire_failure_is_fatal :
  forall D r fence semaphore w,
    0 <= m_CurrentFrameIndex r ->
    nth_error (m_InFlightFences r) (Z.to_nat (m_CurrentFrameIndex r)) = Some fence ->
    nth_error (m_ImageAvailableSemaphores r) (Z.to_nat (m_CurrentFrameIndex r))
    = Some semaphore ->
    drv_vkWaitForFences D fence = VK_SUCCESS ->
    let result := fst (drv_vkAcquireNextImageKHR D
                         (Swapchain.m_SwapChain (m_Swapchain r)) semaphore) in
    result <> VK_SUCCESS -> result <> VK_SUBOPTIMAL_KHR ->
    result <> VK_ERROR_OUT_OF_DATE_KHR ->
    BeginFrame D r w
    = (Throw (runtime_error "Failed to acquire swap chain image!"),
       {| log := log w ++ [(ERROR, "Failed to acquire swap chain image!")];
          calls := calls w
                   ++ [VkWaitForFences fence;
                       VkAcquireNextImageKHR (Swapchain.m_SwapChain (m_Swapchain r))
                         semaphore];
          warned_null_descriptor_set := warned_null_descriptor_set w |}).
Proof.
  intros D r fence semaphore w Hi Hfence Hsem Hwait result Hs Hsub Hood.
  rewrite (BeginFrame_acquire D r fence semaphore w Hi Hfence Hsem Hwait).
  cbv zeta. fold result.
  apply Z.eqb_neq in Hs, Hsub, Hood. rewrite Hs, Hsub, Hood. reflexivity.
Qed.

Lemma BeginFrame_acquire_failure_witness :
  BeginFrame (test_driver all_blit_features (VK_ERROR_DEVICE_LOST, 0) VK_SUCCESS full_support)
    (test_renderer false) empty_world
  = (Throw (runtime_error "Failed to acquire swap chain image!"),
     {| log := [(ERROR, "Failed to acquire swap chain image!")];
        calls := [VkWaitForFences 85; VkAcquireNextImageKHR 41 81];
        warned_null_descriptor_set := false |}).
Proof.
  apply (BeginFrame_acquire_failure_is_fatal
           (test_driver all_blit_features (VK_ERROR_DEVICE_LOST, 0) VK_SUCCESS full_support)
           (test_renderer false) 85 81 empty_world);
    first [discriminate | reflexivity | cbn; lia].
Defined.

(** X24: An out-of-date acquisition never yields a frame.  [BeginFrame] then
    issues the fence wait and the acquisition and after them only what a
    rebuild asks for: the fence of the slot is not reset and no command
    buffer is begun.  If it returns, it returns false with the resize
    flag clear, one framebuffer per view of the new swapchain, and the
    slot index, the image index and the per-slot resources as before. *)
Theorem BeginFrame_out_of_date_rebuilds_and_skips :
  forall D r fence semaphore w res w',
    0 <= m_CurrentFrameIndex r ->
    nth_error (m_InFlightFences r) (Z.to_nat (m_CurrentFrameIndex r)) = Some fence ->
    nth_error (m_ImageAvailableSemaphores r) (Z.to_nat (m_CurrentFrameIndex r))
    = Some semaphore ->
    drv_vkWaitForFences D fence = VK_SUCCESS ->
    fst (drv_vkAcquireNextImageKHR D (Swapchain.m_SwapChain (m_Swapchain r)) semaphore)
    = VK_ERROR_OUT_OF_DATE_KHR ->
    BeginFrame D r w = (res, w') ->
    (exists rebuilt,
        calls w'
        = calls w
          ++ [VkWaitForFences fence;
              VkAcquireNextImageKHR (Swapchain.m_SwapChain (m_Swapchain r)) semaphore]
          ++ rebuilt
        /\ Forall rebuild_call rebuilt)
    /\ forall began r',
         res = Ok (began, r') ->
         began = false
         /\ m_FramebufferResized r' = false
         /\ same_frame_state r r'
         /\ framebuffers_match_views r'.
Proof.
  intros D r fence semaphore w res w' Hi Hfence Hsem Hwait Hood Hrun.
  rewrite (BeginFrame_acquire D r fence semaphore w Hi Hfence Hsem Hwait) in Hrun.
  cbv zeta in Hrun. rewrite Hood in Hrun.
  change (VK_ERROR_OUT_OF_DATE_KHR =? VK_SUCCESS) with false in Hrun.
  change (VK_ERROR_OUT_OF_DATE_KHR =? VK_SUBOPTIMAL_KHR) with false in Hrun.
  change (VK_ERROR_OUT_OF_DATE_KHR =? VK_ERROR_OUT_OF_DATE_KHR) with true in Hrun.
  cbn [orb] in Hrun.
  unfold bind in Hrun.
  match type of Hrun with context [RecreateSwapchain D r ?w0] =>
    destruct (RecreateSwapchain D r w0) as [[r1 | e |] w1] eqn:Erec end.
  - injection Hrun as <- <-.
    destruct (RecreateSwapchain_emits _ _ _ _ _ Erec) as (t & Ecalls & Ht).
    cbn [calls] in Ecalls. split.
    + exists t. rewrite Ecalls, <- app_assoc. auto.
    + intros began r' Heq. injection Heq as <- <-.
      split; [reflexivity|]. eapply RecreateSwapchain_ok_inv. exact Erec.
  - injection Hrun as <- <-.
    destruct (RecreateSwapchain_emits _ _ _ _ _ Erec) as (t & Ecalls & Ht).
    cbn [calls] in Ecalls. split.
    + exists t. rewrite Ecalls, <- app_assoc. auto.
    + intros began r' Heq. discriminate.
  - injection Hrun as <- <-.
    destruct (RecreateSwapchain_emits _ _ _ _ _ Erec) as (t & Ecalls & Ht).
    cbn [calls] in Ecalls. split.
    + exists t. rewrite Ecalls, <- app_assoc. auto.
    + intros began r' Heq. discriminate.
Qed.

Lemma BeginFrame_out_of_date_witness :
  exists res w',
    BeginFrame (test_driver all_blit_features (VK_ERROR_OUT_OF_DATE_KHR, 0) VK_SUCCESS
                  full_support)
      (test_renderer true) empty_world = (res, w')
    /\ (exists rebuilt,
           calls w'
           = calls empty_world
             ++ [VkWaitForFences 85; VkAcquireNextImageKHR 41 81] ++ rebuilt
           /\ Forall rebuild_call rebuilt)
    /\ forall began r',
         res = Ok (began, r') ->
         began = false
         /\ m_FramebufferResized r' = false
         /\ same_frame_state (test_renderer true) r'
         /\ framebuffers_match_views r'.
Proof.
  eexists. eexists. split; [vm_compute; reflexivity|].
  eapply (BeginFrame_out_of_date_rebuilds_and_skips
            (test_driver all_blit_features (VK_ERROR_OUT_OF_DATE_KHR, 0) VK_SUCCESS
               full_support)
            (test_renderer true) 85 81 empty_world);
    first [reflexivity | cbn; lia | vm_compute; reflexivity].
Defined.

(** X25: The frame slot selects everything [BeginFrame] touches.  On an
    initialised command manager and an accepting driver, an acquisition
    that reports success or suboptimal makes it return true after
    exactly five calls: the wait on the fence of the slot, the
    acquisition signalling the semaphore of the slot, the reset of that
    fence, and the reset and begin of the command buffer of the slot.
    The renderer then holds the acquired image index; a suboptimal
    acquisition raises the resize flag, which is otherwise left as it
    was. *)
Theorem BeginFrame_success_uses_the_slot :
  forall D r fence semaphore commandBuffer w,
    0 <= m_CurrentFrameIndex r ->
    nth_error (m_InFlightFences r) (Z.to_nat (m_CurrentFrameIndex r)) = Some fence ->
    nth_error (m_ImageAvailableSemaphores r) (Z.to_nat (m_CurrentFrameIndex r))
    = Some semaphore ->
    nth_error (m_CommandBuffers (m_CommandManager r)) (Z.to_nat (m_CurrentFrameIndex r))
    = Some commandBuffer ->
    m_CommandPool (m_CommandManager r) <> VK_NULL_HANDLE ->
    commandBuffer <> VK_NULL_HANDLE ->
    drv_vkWaitForFences D fence = VK_SUCCESS ->
    drv_vkResetFences D fence = VK_SUCCESS ->
    drv_vkResetCommandBuffer D commandBuffer = VK_SUCCESS ->
    drv_vkBeginCommandBuffer D commandBuffer = VK_SUCCESS ->
    let acquired :=
      drv_vkAcquireNextImageKHR D (Swapchain.m_SwapChain (m_Swapchain r)) semaphore in
    fst acquired = VK_SUCCESS \/ fst acquired = VK_SUBOPTIMAL_KHR ->
    exists w',
      BeginFrame D r w
      = (Ok (true,
             set_frame r (m_CurrentFrameIndex r) (snd acquired)
               ((fst acquired =? VK_SUBOPTIMAL_KHR) || m_FramebufferResized r)), w')
      /\ calls w'
         = calls w
           ++ [VkWaitForFences fence;
               VkAcquireNextImageKHR (Swapchain.m_SwapChain (m_Swapchain r)) semaphore;
               VkResetFences fence;
               VkResetCommandBuffer commandBuffer;
               VkBeginCommandBuffer commandBuffer].
Proof.
  intros D r fence semaphore cb w Hi Hfence Hsem Hcb Hpool Hnn Hwait Hreset Hrcb Hbcb
         acquired Hacq.
  rewrite (BeginFrame_acquire D r fence semaphore w Hi Hfence Hsem Hwait).
  cbv zeta. fold acquired.
  assert (Hlt : (Z.to_nat (m_CurrentFrameIndex r)
                 < List.length (m_CommandBuffers (m_CommandManager r)))%nat).
  { apply nth_error_Some. rewrite Hcb. discriminate. }
  assert (Hge : (m_CurrentFrameIndex r
                 >=? Z.of_nat (List.length (m_CommandBuffers (m_CommandManager r))))
                = false).
  { destruct (Z.geb_spec (m_CurrentFrameIndex r)
                (Z.of_nat (List.length (m_CommandBuffers (m_CommandManager r)))));
      [lia | reflexivity]. }
  apply Z.eqb_neq in Hpool, Hnn.
  assert (Hrec : forall r1 w0,
             m_CommandManager r1 = m_CommandManager r ->
             m_CurrentFrameIndex r1 = m_CurrentFrameIndex r ->
             BeginFrameRecording D (m_CommandManager r1) (m_CurrentFrameIndex r1) w0
             = (Ok cb, {| log := log w0;
                          calls := calls w0 ++ [VkResetCommandBuffer cb;
                                                VkBeginCommandBuffer cb];
                          warned_null_descriptor_set := warned_null_descriptor_set w0 |})).
  { intros r1 w0 -> ->. unfold BeginFrameRecording. unfold is_null. rewrite Hpool, Hge.
    rewrite (bind_run _ _ _ _ _ (vector_at_nth _ _ _ w0 Hi Hcb)).
    rewrite bind_api, (bind_run _ _ _ _ _ (VK_CHECK_success _ _ Hrcb)).
    rewrite bind_api, (bind_run _ _ _ _ _ (VK_CHECK_success _ _ Hbcb)).
    unfold ret. cbn [log calls warned_null_descriptor_set].
    rewrite <- app_assoc. reflexivity. }
  destruct Hacq as [Hacq | Hacq]; rewrite Hacq.
  - change (VK_SUCCESS =? VK_SUCCESS) with true.
    change (VK_SUCCESS =? VK_SUBOPTIMAL_KHR) with false.
    change (VK_SUCCESS =? VK_ERROR_OUT_OF_DATE_KHR) with false.
    cbn [orb negb andb].
    rewrite bind_ret, bind_api, (bind_run _ _ _ _ _ (VK_CHECK_success _ _ Hreset)).
    rewrite (bind_run _ _ _ _ _ (Hrec _ _ eq_refl eq_refl)).
    unfold is_null. rewrite Hnn.
    eexists. split; [reflexivity|].
    cbn [log calls warned_null_descriptor_set]. rewrite <- !app_assoc. reflexivity.
  - change (VK_SUBOPTIMAL_KHR =? VK_SUCCESS) with false.
    change (VK_SUBOPTIMAL_KHR =? VK_SUBOPTIMAL_KHR) with true.
    change (VK_SUBOPTIMAL_KHR =? VK_ERROR_OUT_OF_DATE_KHR) with false.
    cbn [orb negb andb].
    rewrite bind_assoc, bind_log, bind_ret, bind_api.
    rewrite (bind_run _ _ _ _ _ (VK_CHECK_success _ _ Hreset)).
    rewrite (bind_run _ _ _ _ _ (Hrec _ _ eq_refl eq_refl)).
    unfold is_null. rewrite Hnn.
    eexists. split; [reflexivity|].
    cbn [log calls warned_null_descriptor_set]. rewrite <- !app_assoc. reflexivity.
Qed.

Lemma BeginFrame_success_witness :
  exists w',
    BeginFrame (test_driver all_blit_features (VK_SUBOPTIMAL_KHR, 2) VK_SUCCESS full_support)
      (test_renderer false) empty_world
    = (Ok (true, set_frame (test_renderer false) 0 2 true), w')
    /\ calls w'
       = [VkWaitForFences 85; VkAcquireNextImageKHR 41 81; VkResetFences 85;
          VkResetCommandBuffer 21; VkBeginCommandBuffer 21].
Proof.
  apply (BeginFrame_success_uses_the_slot
           (test_driver all_blit_features (VK_SUBOPTIMAL_KHR, 2) VK_SUCCESS full_support)
           (test_renderer false) 85 81 21 empty_world);
    first [discriminate | reflexivity | cbn; lia | right; reflexivity].
Defined.

(** *** Ending a frame *)

(** X26: On a populated slot, an initialised command manager and a driver
    that accepts the end of the recording and the submission,
    [EndFrameAndPresent] ends and submits the command buffer of the slot
    with the fence of the slot and presents the acquired image.  An
    out-of-date or suboptimal presentation raises the resize flag, which
    is never cleared here.  Any other failure of the presentation is
    fatal only while the flag is clear: with a resize pending the result
    is not looked at.  Every normal return advances the slot index. *)
Theorem EndFrameAndPresent_raises_the_flag_or_throws :
  forall D r commandBuffer waitSemaphore signalSemaphore fence w,
    0 <= m_CurrentFrameIndex r ->
    m_CommandPool (m_CommandManager r) <> VK_NULL_HANDLE ->
    nth_error (m_CommandBuffers (m_CommandManager r)) (Z.to_nat (m_CurrentFrameIndex r))
    = Some commandBuffer ->
    nth_error (m_ImageAvailableSemaphores r) (Z.to_nat (m_CurrentFrameIndex r))
    = Some waitSemaphore ->
    nth_error (m_RenderFinishedSemaphores r) (Z.to_nat (m_CurrentFrameIndex r))
    = Some signalSemaphore ->
    nth_error (m_InFlightFences r) (Z.to_nat (m_CurrentFrameIndex r)) = Some fence ->
    drv_vkEndCommandBuffer D commandBuffer = VK_SUCCESS ->
    drv_vkQueueSubmit D (graphicsQueue (m_VulkanContext r)) commandBuffer fence
    = VK_SUCCESS ->
    let result :=
      drv_vkQueuePresentKHR D (presentQueue (m_VulkanContext r))
        (Swapchain.m_SwapChain (m_Swapchain r)) (m_CurrentImageIndex r) in
    let issued :=
      calls w
      ++ [VkEndCommandBuffer commandBuffer;
          VkQueueSubmit (graphicsQueue (m_VulkanContext r)) commandBuffer fence;
          VkQueuePresentKHR (presentQueue (m_VulkanContext r))
            (Swapchain.m_SwapChain (m_Swapchain r)) (m_CurrentImageIndex r)] in
    EndFrameAndPresent D r w
    = if wants_new_swapchain result || m_FramebufferResized r || (result =? VK_SUCCESS)
      then (Ok (set_frame r ((m_CurrentFrameIndex r + 1) mod MAX_FRAMES_IN_FLIGHT)
                  (m_CurrentImageIndex r)
                  (wants_new_swapchain result || m_FramebufferResized r)),
            {| log := log w; calls := issued;
               warned_null_descriptor_set := warned_null_descriptor_set w |})
      else (Throw (runtime_error "Failed to present swap chain image!"),
            {| log := log w ++ [(ERROR, "Failed to present swap chain image!")];
               calls := issued;
               warned_null_descriptor_set := warned_null_descriptor_set w |}).
Proof.
  intros D r cb waitSemaphore signalSemaphore fence w Hi Hpool Hcb Hwait Hsignal Hfence
         Hend Hsubmit result issued.
  assert (Hlt : (Z.to_nat (m_CurrentFrameIndex r)
                 < List.length (m_CommandBuffers (m_CommandManager r)))%nat).
  { apply nth_error_Some. rewrite Hcb. discriminate. }
  assert (Hge : (m_CurrentFrameIndex r
                 >=? Z.of_nat (List.length (m_CommandBuffers (m_CommandManager r))))
                = false).
  { destruct (Z.geb_spec (m_CurrentFrameIndex r)
                (Z.of_nat (List.length (m_CommandBuffers (m_CommandManager r)))));
      [lia | reflexivity]. }
  apply Z.eqb_neq in Hpool.
  unfold EndFrameAndPresent, EndFrameRecording. unfold is_null. rewrite Hpool, Hge.
  rewrite bind_assoc, (bind_run _ _ _ _ _ (vector_at_nth _ _ _ w Hi Hcb)).
  rewrite bind_assoc, bind_api.
  rewrite (bind_run _ _ _ _ _ (VK_CHECK_success _ _ Hend)).
  rewrite (bind_run _ _ _ _ _ (vector_at_nth _ _ _ _ Hi Hcb)).
  rewrite (bind_run _ _ _ _ _ (vector_at_nth _ _ _ _ Hi Hwait)).
  rewrite (bind_run _ _ _ _ _ (vector_at_nth _ _ _ _ Hi Hsignal)).
  rewrite (bind_run _ _ _ _ _ (vector_at_nth _ _ _ _ Hi Hfence)).
  rewrite bind_api, (bind_run _ _ _ _ _ (VK_CHECK_success _ _ Hsubmit)).
  cbv zeta. rewrite bind_api. fold result.
  cbn [log calls warned_null_descriptor_set].
  rewrite <- !app_assoc. cbn [app]. fold issued.
  unfold wants_new_swapchain.
  destruct ((result =? VK_ERROR_OUT_OF_DATE_KHR) || (result =? VK_SUBOPTIMAL_KHR)
            || m_FramebufferResized r) eqn:Eflag; cbn [orb].
  - rewrite bind_ret. unfold ret, set_CurrentFrameIndex, set_FramebufferResized.
    cbn [m_CurrentFrameIndex m_CurrentImageIndex m_FramebufferResized set_frame].
    rewrite RendererCorrect.wrap32_mod_2. reflexivity.
  - destruct (result =? VK_SUCCESS); cbn [negb].
    + rewrite bind_ret. unfold ret, set_CurrentFrameIndex.
      rewrite RendererCorrect.wrap32_mod_2.
      apply orb_false_elim in Eflag. destruct Eflag as [_ ->]. reflexivity.
    + rewrite bind_assoc, bind_log. reflexivity.
Qed.

Lemma EndFrameAndPresent_masked_failure_witness :
  EndFrameAndPresent
    (test_driver all_blit_features (VK_SUCCESS, 0) VK_ERROR_DEVICE_LOST full_support)
    (test_renderer true) empty_world
  = (Ok (set_frame (test_renderer true) 1 0 true),
     {| log := [];
        calls := [VkEndCommandBuffer 21; VkQueueSubmit 4 21 85; VkQueuePresentKHR 5 41 0];
        warned_null_descriptor_set := false |})
  /\ EndFrameAndPresent
       (test_driver all_blit_features (VK_SUCCESS, 0) VK_ERROR_DEVICE_LOST full_support)
       (test_renderer false) empty_world
     = (Throw (runtime_error "Failed to present swap chain image!"),
        {| log := [(ERROR, "Failed to present swap chain image!")];
           calls := [VkEndCommandBuffer 21; VkQueueSubmit 4 21 85;
                     VkQueuePresentKHR 5 41 0];
           warned_null_descriptor_set := false |}).
Proof.
  split.
  - apply (EndFrameAndPresent_raises_the_flag_or_throws
             (test_driver all_blit_features (VK_SUCCESS, 0) VK_ERROR_DEVICE_LOST
                full_support)
             (test_renderer true) 21 81 83 85 empty_world);
      first [discriminate | reflexivity | cbn; lia].
  - apply (EndFrameAndPresent_raises_the_flag_or_throws
             (test_driver all_blit_features (VK_SUCCESS, 0) VK_ERROR_DEVICE_LOST
                full_support)
             (test_renderer false) 21 81 83 85 empty_world);
      first [discriminate | reflexivity | cbn; lia].
Defined.

(** *** Recording *)

Lemma inside_pass_recording_call cb c : inside_pass cb c -> recording_call cb c.
Proof.
  destruct c; cbn; auto.
  match goal with cmd : Cmd |- _ => destruct cmd end; cbn; tauto.
Qed.

Lemma Map_emits cb D b size offset : emits (inside_pass cb) (Map D b size offset).
Proof. unfold Map. solve_emits. Qed.

Lemma Unmap_emits cb context b : emits (inside_pass cb) (Unmap context b).
Proof. unfold Unmap. solve_emits. Qed.

Lemma Flush_emits cb D b size offset : emits (inside_pass cb) (Flush D b size offset).
Proof. unfold Flush. solve_emits. Qed.

Lemma memcpy_emits cb base extent dst data n :
  emits (inside_pass cb) (memcpy base extent dst data n).
Proof. unfold memcpy. destruct (_ && _); [apply emits_api; exact I | apply emits_undefined]. Qed.

Lemma WriteToBuffer_emits cb D context b data size offset :
  emits (inside_pass cb) (WriteToBuffer D context b data size offset).
Proof.
  assert (Htail : forall (temp : bool) b0,
             emits (inside_pass cb)
               ((if negb (has_flag (m_MemoryPropertyFlags b0)
                            VK_MEMORY_PROPERTY_HOST_COHERENT_BIT)
                 then Flush D b0 size offset ;; ret tt else ret tt) ;;
                (if temp then Unmap context b0 else ret b0))).
  { intros temp b0. apply emits_bind.
    - destruct (negb _); [| apply emits_ret].
      apply emits_bind; [apply Flush_emits | intros; apply emits_ret].
    - intros _. destruct temp; [apply Unmap_emits | apply emits_ret]. }
  unfold WriteToBuffer.
  destruct (is_null (m_Buffer b)); [solve_emits|].
  destruct (negb _); [solve_emits|].
  destruct (is_null (block_address data)); [solve_emits|].
  cbv zeta.
  destruct (is_null (m_MappedMemory b)) eqn:Emap.
  - apply emits_bind; [apply Map_emits | intros [mapResult b']].
    destruct (negb _); [solve_emits|].
    destruct (is_null (m_MappedMemory b')); [solve_emits|].
    apply emits_bind; [| intros _; apply (Htail true b')].
    destruct (size =? VK_WHOLE_SIZE); [destruct (offset >? 0)|]; apply memcpy_emits.
  - apply emits_bind; [| intros _; apply (Htail false b)].
    destruct (size =? VK_WHOLE_SIZE); [destruct (offset >? 0)|]; apply memcpy_emits.
Qed.

Lemma UpdateCameraUBO_emits cb D r i view proj :
  emits (inside_pass cb) (UpdateCameraUBO D r i view proj).
Proof.
  unfold UpdateCameraUBO. cbv zeta.
  apply emits_bind; [apply emits_vector_at | intros b].
  apply emits_bind; [apply WriteToBuffer_emits | intros; apply emits_ret].
Qed.

Lemma UpdateLightUBO_emits cb D r i : emits (inside_pass cb) (UpdateLightUBO D r i).
Proof.
  unfold UpdateLightUBO. cbv zeta.
  apply emits_bind; [apply emits_vector_at | intros b].
  apply emits_bind; [apply WriteToBuffer_emits | intros; apply emits_ret].
Qed.

Lemma WARN_ONCE_emits P : emits P WARN_ONCE_null_descriptor_set.
Proof.
  intros w res w' H. unfold WARN_ONCE_null_descriptor_set in H.
  destruct (warned_null_descriptor_set w); injection H as <- <-;
    exists []; cbn; rewrite app_nil_r; auto.
Qed.

Lemma GetMaterial_emits P am handle : emits P (GetMaterial am handle).
Proof. unfold GetMaterial. solve_emits. Qed.

Lemma draw_renderable_emits cb am renderInfo :
  emits (inside_pass cb) (draw_renderable am cb renderInfo).
Proof.
  unfold draw_renderable.
  destruct (mesh renderInfo) as [m|]; [| apply emits_ret].
  destruct (transform renderInfo) as [modelMatrix|]; [| apply emits_ret].
  destruct (vertexBuffer m) as [vb|]; [| apply emits_ret].
  destruct (indexBuffer m) as [ib|]; [| apply emits_ret].
  apply emits_bind; [apply emits_api; reflexivity | intros _].
  apply emits_bind; [apply GetMaterial_emits | intros mat].
  apply emits_bind.
  - destruct (negb _); [apply emits_api; reflexivity | apply WARN_ONCE_emits].
  - intros _. repeat (apply emits_bind; [apply emits_api; reflexivity | intros _]).
    apply emits_api. reflexivity.
Qed.

Lemma draw_renderables_emits cb am renderables :
  emits (inside_pass cb) (draw_renderables am cb renderables).
Proof.
  induction renderables as [| renderInfo rest IH]; cbn [draw_renderables];
    [apply emits_ret|].
  apply emits_bind; [apply draw_renderable_emits | intros _; exact IH].
Qed.

Lemma ImGui_CheckVkResult_emits P err : emits P (ImGui_CheckVkResult err).
Proof. unfold ImGui_CheckVkResult. solve_emits. Qed.

Lemma check_vk_results_emits P results : emits P (check_vk_results results).
Proof.
  induction results as [| err rest IH]; cbn [check_vk_results]; [apply emits_ret|].
  apply emits_bind; [apply ImGui_CheckVkResult_emits | intros _; exact IH].
Qed.

Lemma inside_pass_frame_call ui cb c : inside_pass cb c -> frame_call_inside_pass ui cb c.
Proof. intros H. left. exact H. Qed.

Lemma frame_call_inside_pass_frame_call ui cb c :
  frame_call_inside_pass ui cb c -> frame_call ui cb c.
Proof.
  intros [H | H]; [left; apply inside_pass_recording_call; exact H | right; exact H].
Qed.

(** Rendering the UI records into the command buffer it is given; the
    platform-window calls appear only when the UI reaches them. *)
Lemma RenderDrawData_emits D ui cb :
  emits (frame_call_inside_pass ui cb) (RenderDrawData D ui cb).
Proof.
  unfold RenderDrawData, frame_call_inside_pass, renders_platform_windows.
  destruct (m_IsInitialized ui); cbn [negb andb]; [| apply emits_ret].
  destruct (has_draw_data ui); cbn [negb andb]; [| apply emits_ret].
  apply emits_bind; [apply emits_api; left; reflexivity | intros _].
  apply emits_bind; [apply check_vk_results_emits | intros _].
  destruct (viewports_enabled ui); [| apply emits_ret].
  apply emits_bind; [apply emits_api; right; split; [reflexivity | exact I] | intros _].
  apply emits_bind; [apply check_vk_results_emits | intros _].
  apply emits_bind; [apply emits_api; right; split; [reflexivity | exact I] | intros _].
  apply check_vk_results_emits.
Qed.

Lemma vector_at_ok_inv {A} (v : list A) i a w w' :
  vector_at v i w = (Ok a, w') ->
  w' = w /\ 0 <= i /\ nth_error v (Z.to_nat i) = Some a.
Proof.
  unfold vector_at. destruct (Z.ltb_spec i 0) as [Hlt | Hge]; [discriminate|].
  destruct (nth_error v (Z.to_nat i)); [| discriminate].
  intros H. injection H as <- <-. auto.
Qed.

Lemma GetCurrentCommandBuffer_ok_inv r w cb w' :
  GetCurrentCommandBuffer r w = (Ok cb, w') ->
  w' = w /\ cb = current_command_buffer r.
Proof.
  unfold GetCurrentCommandBuffer, current_command_buffer.
  destruct (_ >=? _); [discriminate|].
  intros H. apply vector_at_ok_inv in H. destruct H as (-> & _ & Hnth).
  split; [reflexivity|]. symmetry. apply nth_error_nth. exact Hnth.
Qed.

Lemma inside_pass_is_frame_call ui cb c : inside_pass cb c -> frame_call ui cb c.
Proof. intros H. left. apply inside_pass_recording_call. exact H. Qed.

(** Whatever its outcome, [RecordCommands] issues its recording calls,
    on the command buffer of the current slot, and what rendering the UI
    adds. *)
Lemma RecordCommands_emits D am ui r renderables camera :
  emits (frame_call ui (current_command_buffer r))
    (RecordCommands D am ui r renderables camera).
Proof.
  intros w res w' H. unfold RecordCommands in H. unfold bind at 1 in H.
  destruct (GetCurrentCommandBuffer r w) as [[cb | e |] w1] eqn:Ecb.
  - apply GetCurrentCommandBuffer_ok_inv in Ecb. destruct Ecb as [-> ->].
    revert w res w' H.
    change (emits (frame_call ui (current_command_buffer r))
              (framebuffer <- vector_at (m_SwapChainFramebuffers r) (m_CurrentImageIndex r) ;;
               api (Recorded (current_command_buffer r)
                      (CmdBeginRenderPass (m_RenderPass r) framebuffer
                         (Swapchain.m_SwapChainExtent (m_Swapchain r)))) ;;
               api (Recorded (current_command_buffer r)
                      (CmdBindPipeline (m_GraphicsPipeline r))) ;;
               api (Recorded (current_command_buffer r)
                      (CmdSetViewport (Swapchain.m_SwapChainExtent (m_Swapchain r)))) ;;
               api (Recorded (current_command_buffer r)
                      (CmdSetScissor (Swapchain.m_SwapChainExtent (m_Swapchain r)))) ;;
               r1 <- (match camera with
                      | Some (view, proj) =>
                          UpdateCameraUBO D r (m_CurrentFrameIndex r) view proj
                      | None => UpdateCameraUBO D r (m_CurrentFrameIndex r) 1 1
                      end) ;;
               r2 <- UpdateLightUBO D r1 (m_CurrentFrameIndex r1) ;;
               frameSet <- vector_at (m_FrameDescriptorSets r2) (m_CurrentFrameIndex r2) ;;
               api (Recorded (current_command_buffer r) (CmdBindDescriptorSets 0 frameSet)) ;;
               draw_renderables am (current_command_buffer r) renderables ;;
               RenderDrawData D ui (current_command_buffer r) ;;
               api (Recorded (current_command_buffer r) CmdEndRenderPass) ;;
               ret r2)).
    apply emits_bind; [apply emits_vector_at | intros fb].
    do 4 (apply emits_bind; [apply emits_api; left; reflexivity | intros _]).
    apply emits_bind.
    { apply (emits_weaken _ _ _ (inside_pass_is_frame_call ui _)).
      destruct camera as [[view proj]|]; apply UpdateCameraUBO_emits. }
    intros r1. apply emits_bind.
    { apply (emits_weaken _ _ _ (inside_pass_is_frame_call ui _)).
      apply UpdateLightUBO_emits. }
    intros r2.
    apply emits_bind; [apply emits_vector_at | intros frameSet].
    apply emits_bind; [apply emits_api; left; reflexivity | intros _].
    apply emits_bind.
    { apply (emits_weaken _ _ _ (inside_pass_is_frame_call ui _)).
      apply draw_renderables_emits. }
    intros _. apply emits_bind.
    { apply (emits_weaken _ _ _ (frame_call_inside_pass_frame_call ui _)).
      apply RenderDrawData_emits. }
    intros _.
    apply emits_bind; [apply emits_api; left; reflexivity | intros _; apply emits_ret].
  - injection H as <- <-. unfold GetCurrentCommandBuffer in Ecb.
    destruct (_ >=? _).
    + injection Ecb as _ <-. exists []. rewrite app_nil_r. auto.
    + exact (emits_vector_at _ _ _ _ _ _ Ecb).
  - injection H as <- <-. unfold GetCurrentCommandBuffer in Ecb.
    destruct (_ >=? _).
    + discriminate.
    + exact (emits_vector_at _ _ _ _ _ _ Ecb).
Qed.

(** X27: Whatever its outcome, what [RecordCommands] itself asks of the driver
    is recording and uniform data: every command it records goes into
    the command buffer of the current frame slot, and uniform data is
    moved to the host-visible buffers (copy, and the mapping and flushing
    around it); it never waits, acquires, submits or presents.  The only
    other calls are the two platform-window calls of Dear ImGui, inside
    which ImGui does acquire, submit and present for its secondary
    windows; they occur only when the UI manager is initialised, has
    draw data and has viewports enabled. *)
Theorem RecordCommands_records_into_the_slot_buffer :
  forall D am ui r renderables camera w res w',
    RecordCommands D am ui r renderables camera w = (res, w') ->
    exists issued,
      calls w' = calls w ++ issued
      /\ Forall (fun c => recording_call (current_command_buffer r) c
                          \/ platform_window_call c) issued
      /\ (renders_platform_windows ui = false ->
          Forall (recording_call (current_command_buffer r)) issued).
Proof.
  intros D am ui r renderables camera w res w' H.
  destruct (RecordCommands_emits D am ui r renderables camera w res w' H)
    as (issued & E & F).
  exists issued. split; [exact E|]. split.
  - eapply Forall_impl; [| exact F].
    intros c [Hc | [_ Hc]]; [left | right]; exact Hc.
  - intros Hui. eapply Forall_impl; [| exact F].
    intros c [Hc | [Hc _]]; [exact Hc|]. rewrite Hui in Hc. discriminate.
Qed.

Lemma RecordCommands_discipline_witness :
  exists res w',
    RecordCommands good_driver test_assets test_ui (test_renderer false)
      test_renderables None empty_world = (res, w')
    /\ exists issued,
         calls w' = calls empty_world ++ issued
         /\ Forall (fun c => recording_call (current_command_buffer (test_renderer false)) c
                             \/ platform_window_call c) issued
         /\ (renders_platform_windows test_ui = false ->
             Forall (recording_call (current_command_buffer (test_renderer false))) issued).
Proof.
  eexists. eexists. split; [vm_compute; reflexivity|].
  eapply (RecordCommands_records_into_the_slot_buffer good_driver test_assets
            test_ui (test_renderer false) test_renderables None empty_world).
  vm_compute. reflexivity.
Defined.

Lemma vector_set_same {A} (v : list A) i x :
  nth_error v i = Some x -> vector_set v i x = v.
Proof.
  revert i. induction v as [| y rest IH]; intros i H; [reflexivity|].
  destruct i as [| i]; cbn in *.
  - injection H as ->. reflexivity.
  - f_equal. apply IH. exact H.
Qed.

Lemma set_ubos_same r : set_ubos r (m_UniformBuffers r) (m_LightUniformBuffers r) = r.
Proof. destruct r. reflexivity. Qed.

Lemma UpdateCameraUBO_ok_same D r i view proj w r' w' :
  UpdateCameraUBO D r i view proj w = (Ok r', w') -> r' = r.
Proof.
  unfold UpdateCameraUBO. cbv zeta. intros H.
  apply bind_ok_inv in H. destruct H as (b & w1 & Hb & H).
  apply bind_ok_inv in H. destruct H as (b' & w2 & Hw & H).
  injection H as <- _.
  apply vector_at_ok_inv in Hb. destruct Hb as (_ & _ & Hnth).
  apply BufferMore.WriteToBuffer_ok_same in Hw. subst b'.
  rewrite (vector_set_same _ _ _ Hnth). apply set_ubos_same.
Qed.

Lemma UpdateLightUBO_ok_same D r i w r' w' :
  UpdateLightUBO D r i w = (Ok r', w') -> r' = r.
Proof.
  unfold UpdateLightUBO. cbv zeta. intros H.
  apply bind_ok_inv in H. destruct H as (b & w1 & Hb & H).
  apply bind_ok_inv in H. destruct H as (b' & w2 & Hw & H).
  injection H as <- _.
  apply vector_at_ok_inv in Hb. destruct Hb as (_ & _ & Hnth).
  apply BufferMore.WriteToBuffer_ok_same in Hw. subst b'.
  rewrite (vector_set_same _ _ _ Hnth). apply set_ubos_same.
Qed.

Lemma RecordCommands_ok_same D am ui r renderables camera w r' w' :
  RecordCommands D am ui r renderables camera w = (Ok r', w') -> r' = r.
Proof.
  unfold RecordCommands. intros H.
  do 6 (apply bind_ok_inv in H; destruct H as (? & ? & _ & H)).
  apply bind_ok_inv in H. destruct H as (r1 & w1 & Hcam & H).
  apply bind_ok_inv in H. destruct H as (r2 & w2 & Hlight & H).
  do 5 (apply bind_ok_inv in H; destruct H as (? & ? & _ & H)).
  injection H as <- _.
  apply UpdateLightUBO_ok_same in Hlight. subst r2.
  destruct camera as [[view proj]|]; eapply UpdateCameraUBO_ok_same; exact Hcam.
Qed.

(** X28: When [RecordCommands] returns, the renderer is exactly as before:
    recording changes the command buffer and the contents of the uniform
    buffers, not the renderer's state.  What it issued is bracketed by
    the render pass of the frame: a begin on the framebuffer of the
    acquired image, recorded into the command buffer of the slot, and
    the end of the render pass, recorded last.  In between it recorded
    only into the same command buffer, no begin or end of a render pass,
    and moved uniform data; when the UI reaches its platform windows, the
    two platform-window calls of Dear ImGui lie in between too, and
    inside them ImGui runs render passes of its secondary windows on
    command buffers of its own. *)
Theorem RecordCommands_brackets_the_render_pass :
  forall D am ui r renderables camera w r' w',
    RecordCommands D am ui r renderables camera w = (Ok r', w') ->
    r' = r
    /\ exists framebuffer body,
         nth_error (m_SwapChainFramebuffers r) (Z.to_nat (m_CurrentImageIndex r))
         = Some framebuffer
         /\ calls w'
            = calls w
              ++ Recorded (current_command_buffer r)
                   (CmdBeginRenderPass (m_RenderPass r) framebuffer
                      (Swapchain.m_SwapChainExtent (m_Swapchain r)))
                 :: body
              ++ [Recorded (current_command_buffer r) CmdEndRenderPass]
         /\ Forall (fun c => inside_pass (current_command_buffer r) c
                             \/ (renders_platform_windows ui = true
                                 /\ platform_window_call c)) body.
Proof.
  intros D am ui r renderables camera w r' w' H.
  unfold RecordCommands in H.
  apply bind_ok_inv in H. destruct H as (cb & w1 & Hcb & H).
  apply GetCurrentCommandBuffer_ok_inv in Hcb. destruct Hcb as [-> ->].
  set (cb := current_command_buffer r) in *.
  apply bind_ok_inv in H. destruct H as (fb & w2 & Hfb & H).
  apply vector_at_ok_inv in Hfb. destruct Hfb as (-> & _ & Hfb).
  do 4 rewrite bind_api in H. cbn [log calls warned_null_descriptor_set] in H.
  apply bind_ok_inv in H. destruct H as (r1 & w3 & Hcam & H).
  assert (Ecam : exists t1,
             calls w3
             = ((((calls w
                   ++ [Recorded cb (CmdBeginRenderPass (m_RenderPass r) fb
                                      (Swapchain.m_SwapChainExtent (m_Swapchain r)))])
                  ++ [Recorded cb (CmdBindPipeline (m_GraphicsPipeline r))])
                 ++ [Recorded cb (CmdSetViewport
                                    (Swapchain.m_SwapChainExtent (m_Swapchain r)))])
                ++ [Recorded cb (CmdSetScissor
                                   (Swapchain.m_SwapChainExtent (m_Swapchain r)))])
               ++ t1
             /\ Forall (inside_pass cb) t1).
  { destruct camera as [[view proj]|];
      exact (UpdateCameraUBO_emits cb _ _ _ _ _ _ _ _ Hcam). }
  destruct Ecam as (t1 & E1 & F1).
  assert (r1 = r) as ->.
  { destruct camera as [[view proj]|]; eapply UpdateCameraUBO_ok_same; exact Hcam. }
  apply bind_ok_inv in H. destruct H as (r2 & w4 & Hlight & H).
  destruct (UpdateLightUBO_emits cb _ _ _ _ _ _ Hlight) as (t2 & E2 & F2).
  apply UpdateLightUBO_ok_same in Hlight. subst r2.
  apply bind_ok_inv in H. destruct H as (frameSet & w5 & Hset & H).
  apply vector_at_ok_inv in Hset. destruct Hset as (-> & _ & _).
  rewrite bind_api in H.
  apply bind_ok_inv in H. destruct H as ([] & w6 & Hdraw & H).
  destruct (draw_renderables_emits cb _ _ _ _ _ Hdraw) as (t3 & E3 & F3).
  cbn [calls] in E3.
  apply bind_ok_inv in H. destruct H as ([] & w7 & Hui & H).
  destruct (RenderDrawData_emits _ _ cb _ _ _ Hui) as (t4 & E4 & F4).
  rewrite bind_api in H. injection H as <- <-.
  split; [reflexivity|].
  exists fb,
    ([Recorded cb (CmdBindPipeline (m_GraphicsPipeline r));
      Recorded cb (CmdSetViewport (Swapchain.m_SwapChainExtent (m_Swapchain r)));
      Recorded cb (CmdSetScissor (Swapchain.m_SwapChainExtent (m_Swapchain r)))]
     ++ t1 ++ t2 ++ [Recorded cb (CmdBindDescriptorSets 0 frameSet)] ++ t3 ++ t4).
  split; [exact Hfb|]. split.
  - cbn [calls]. rewrite E4, E3, E2, E1.
    repeat rewrite <- app_assoc. reflexivity.
  - assert (Hin : forall t, Forall (inside_pass cb) t ->
                            Forall (frame_call_inside_pass ui cb) t).
    { intros t. apply Forall_impl. intros c Hc. left. exact Hc. }
    change (Forall (frame_call_inside_pass ui cb)
              ([Recorded cb (CmdBindPipeline (m_GraphicsPipeline r));
                Recorded cb (CmdSetViewport (Swapchain.m_SwapChainExtent (m_Swapchain r)));
                Recorded cb (CmdSetScissor (Swapchain.m_SwapChainExtent (m_Swapchain r)))]
               ++ t1 ++ t2 ++ [Recorded cb (CmdBindDescriptorSets 0 frameSet)]
               ++ t3 ++ t4)).
    apply Forall_app. split; [apply Hin; repeat constructor|].
    apply Forall_app. split; [apply Hin; exact F1|].
    apply Forall_app. split; [apply Hin; exact F2|].
    apply Forall_app. split; [apply Hin; repeat constructor|].
    apply Forall_app. split; [apply Hin; exact F3 | exact F4].
Qed.

Lemma RecordCommands_bracket_witness :
  exists r' w',
    RecordCommands good_driver test_assets test_ui (test_renderer false)
      test_renderables None empty_world = (Ok r', w')
    /\ r' = test_renderer false
    /\ exists framebuffer body,
         nth_error (m_SwapChainFramebuffers (test_renderer false))
           (Z.to_nat (m_CurrentImageIndex (test_renderer false)))
         = Some framebuffer
         /\ calls w'
            = calls empty_world
              ++ Recorded (current_command_buffer (test_renderer false))
                   (CmdBeginRenderPass (m_RenderPass (test_renderer false)) framebuffer
                      (Swapchain.m_SwapChainExtent (m_Swapchain (test_renderer false))))
                 :: body
              ++ [Recorded (current_command_buffer (test_renderer false)) CmdEndRenderPass]
         /\ Forall (fun c => inside_pass (current_command_buffer (test_renderer false)) c
                             \/ (renders_platform_windows test_ui = true
                                 /\ platform_window_call c)) body.
Proof.
  eexists. eexists. split; [vm_compute; reflexivity|].
  eapply (RecordCommands_brackets_the_render_pass good_driver test_assets test_ui
            (test_renderer false) test_renderables None empty_world).
  vm_compute. reflexivity.
Defined.

(** *** Whole frames *)

Lemma BeginFrame_ok_same_slot D r w began r' w' :
  BeginFrame D r w = (Ok (began, r'), w') ->
  m_CurrentFrameIndex r' = m_CurrentFrameIndex r
  /\ m_CommandManager r' = m_CommandManager r
  /\ m_InFlightFences r' = m_InFlightFences r
  /\ m_ImageAvailableSemaphores r' = m_ImageAvailableSemaphores r
  /\ m_RenderFinishedSemaphores r' = m_RenderFinishedSemaphores r.
Proof.
  unfold BeginFrame. intros H.
  apply bind_ok_inv in H. destruct H as (fence & w1 & _ & H).
  apply bind_ok_inv in H. destruct H as ([] & w2 & _ & H).
  apply bind_ok_inv in H. destruct H as ([] & w3 & _ & H).
  apply bind_ok_inv in H. destruct H as (semaphore & w4 & _ & H).
  apply bind_ok_inv in H. destruct H as ([] & w5 & _ & H).
  destruct (drv_vkAcquireNextImageKHR D _ semaphore) as [result imageIndex].
  set (r0 := if (result =? VK_SUCCESS) || (result =? VK_SUBOPTIMAL_KHR)
             then set_CurrentImageIndex r imageIndex else r) in *.
  assert (H0 : m_CurrentFrameIndex r0 = m_CurrentFrameIndex r
               /\ m_CommandManager r0 = m_CommandManager r
               /\ m_InFlightFences r0 = m_InFlightFences r
               /\ m_ImageAvailableSemaphores r0 = m_ImageAvailableSemaphores r
               /\ m_RenderFinishedSemaphores r0 = m_RenderFinishedSemaphores r).
  { subst r0. destruct (_ || _); cbn; auto. }
  clearbody r0.
  destruct (result =? VK_ERROR_OUT_OF_DATE_KHR).
  - apply bind_ok_inv in H. destruct H as (r1 & w6 & Hrec & H).
    injection H as _ <- _.
    apply RecreateSwapchain_ok_inv in Hrec.
    destruct Hrec as (_ & (A1 & _ & _ & _ & A5 & A6 & A7 & A8 & _) & _).
    destruct H0 as (B1 & B2 & B3 & B4 & B5).
    repeat split; congruence.
  - destruct (_ && _).
    + rewrite bind_log in H. discriminate.
    + apply bind_ok_inv in H. destruct H as (r1 & w6 & Hr1 & H).
      assert (H1 : m_CurrentFrameIndex r1 = m_CurrentFrameIndex r0
                   /\ m_CommandManager r1 = m_CommandManager r0
                   /\ m_InFlightFences r1 = m_InFlightFences r0
                   /\ m_ImageAvailableSemaphores r1 = m_ImageAvailableSemaphores r0
                   /\ m_RenderFinishedSemaphores r1 = m_RenderFinishedSemaphores r0).
      { destruct (result =? VK_SUBOPTIMAL_KHR).
        - rewrite bind_log in Hr1. injection Hr1 as <- _. cbn. auto.
        - injection Hr1 as <- _. auto. }
      do 2 (apply bind_ok_inv in H; destruct H as ([] & ? & _ & H)).
      apply bind_ok_inv in H. destruct H as (cb & w8 & _ & H).
      assert (r' = r1).
      { destruct (is_null cb).
        - rewrite bind_log in H. injection H as _ <- _. reflexivity.
        - injection H as _ <- _. reflexivity. }
      subst r'.
      destruct H0 as (B1 & B2 & B3 & B4 & B5).
      destruct H1 as (C1 & C2 & C3 & C4 & C5).
      repeat split; congruence.
Qed.

(** X29: A frame that is skipped costs no slot: when the frame of the
    driver's loop returns without having rendered, the slot index, the
    command manager and the synchronisation objects are as before, and
    what was asked of the driver is only what [BeginFrame] may ask;
    nothing was recorded, submitted or presented. *)
Theorem skipped_frame_keeps_the_slot :
  forall f r w r' w',
    RenderFrame f r w = (Ok (false, r'), w') ->
    m_CurrentFrameIndex r' = m_CurrentFrameIndex r
    /\ m_CommandManager r' = m_CommandManager r
    /\ m_InFlightFences r' = m_InFlightFences r
    /\ m_ImageAvailableSemaphores r' = m_ImageAvailableSemaphores r
    /\ m_RenderFinishedSemaphores r' = m_RenderFinishedSemaphores r
    /\ exists issued, calls w' = calls w ++ issued /\ Forall begin_call issued.
Proof.
  intros f r w r' w' H. unfold RenderFrame in H.
  apply bind_ok_inv in H. destruct H as ([began r1] & w1 & Hbegin & H).
  destruct began.
  - apply bind_ok_inv in H. destruct H as (r2 & w2 & _ & H).
    apply bind_ok_inv in H. destruct H as (r3 & w3 & _ & H).
    discriminate.
  - injection H as <- <-.
    pose proof (BeginFrame_emits _ _ _ _ _ Hbegin) as Hcalls.
    apply BeginFrame_ok_same_slot in Hbegin. tauto.
Qed.

Lemma skipped_frame_witness :
  exists r' w',
    RenderFrame
      {| f_driver := test_driver all_blit_features (VK_ERROR_OUT_OF_DATE_KHR, 0)
                       VK_SUCCESS full_support;
         f_assets := test_assets; f_ui := test_ui;
         f_renderables := test_renderables; f_camera := None |}
      (test_renderer true) empty_world = (Ok (false, r'), w')
    /\ m_CurrentFrameIndex r' = m_CurrentFrameIndex (test_renderer true)
    /\ m_CommandManager r' = m_CommandManager (test_renderer true)
    /\ m_InFlightFences r' = m_InFlightFences (test_renderer true)
    /\ m_ImageAvailableSemaphores r' = m_ImageAvailableSemaphores (test_renderer true)
    /\ m_RenderFinishedSemaphores r' = m_RenderFinishedSemaphores (test_renderer true)
    /\ exists issued, calls w' = calls empty_world ++ issued /\ Forall begin_call issued.
Proof.
  eexists. eexists. split; [vm_compute; reflexivity|].
  eapply (skipped_frame_keeps_the_slot
            {| f_driver := test_driver all_blit_features (VK_ERROR_OUT_OF_DATE_KHR, 0)
                             VK_SUCCESS full_support;
               f_assets := test_assets; f_ui := test_ui;
               f_renderables := test_renderables; f_camera := None |}
            (test_renderer true) empty_world).
  vm_compute. reflexivity.
Defined.

Lemma VK_CHECK_ok_inv res w w' : VK_CHECK res w = (Ok tt, w') -> w' = w.
Proof.
  unfold VK_CHECK. destruct (res =? VK_SUCCESS).
  - intros H. injection H as <-. reflexivity.
  - rewrite bind_log. discriminate.
Qed.

(** What a normal return of [EndFrameAndPresent] has issued. *)
Lemma EndFrameAndPresent_ok_calls D r w r' w' :
  EndFrameAndPresent D r w = (Ok r', w') ->
  exists fence,
    nth_error (m_InFlightFences r) (Z.to_nat (m_CurrentFrameIndex r)) = Some fence
    /\ m_CurrentImageIndex r' = m_CurrentImageIndex r
    /\ calls w'
       = calls w
         ++ (if is_null (m_CommandPool (m_CommandManager r)) then []
             else [VkEndCommandBuffer (current_command_buffer r)])
         ++ [VkQueueSubmit (graphicsQueue (m_VulkanContext r))
               (current_command_buffer r) fence;
             VkQueuePresentKHR (presentQueue (m_VulkanContext r))
               (Swapchain.m_SwapChain (m_Swapchain r)) (m_CurrentImageIndex r)].
Proof.
  unfold EndFrameAndPresent. intros H.
  apply bind_ok_inv in H. destruct H as ([] & w1 & Hend & H).
  apply bind_ok_inv in H. destruct H as (cb & w2 & Hcb & H).
  apply vector_at_ok_inv in Hcb. destruct Hcb as (-> & Hi & Hcb).
  assert (Ecb : cb = current_command_buffer r).
  { unfold current_command_buffer. symmetry. apply nth_error_nth. exact Hcb. }
  subst cb.
  assert (E1 : calls w1
               = calls w
                 ++ (if is_null (m_CommandPool (m_CommandManager r)) then []
                     else [VkEndCommandBuffer (current_command_buffer r)])).
  { unfold EndFrameRecording in Hend.
    destruct (is_null (m_CommandPool (m_CommandManager r))).
    - injection Hend as <-. cbn. rewrite app_nil_r. reflexivity.
    - destruct (_ >=? _); [rewrite bind_log in Hend; discriminate|].
      apply bind_ok_inv in Hend. destruct Hend as (cb0 & w0 & Hcb0 & Hend).
      apply vector_at_ok_inv in Hcb0. destruct Hcb0 as (-> & _ & Hcb0).
      rewrite Hcb in Hcb0. injection Hcb0 as <-.
      rewrite bind_api in Hend. apply VK_CHECK_ok_inv in Hend. subst w1. reflexivity. }
  apply bind_ok_inv in H. destruct H as (waitSemaphore & w3 & Hws & H).
  apply vector_at_ok_inv in Hws. destruct Hws as (-> & _ & _).
  apply bind_ok_inv in H. destruct H as (signalSemaphore & w4 & Hss & H).
  apply vector_at_ok_inv in Hss. destruct Hss as (-> & _ & _).
  apply bind_ok_inv in H. destruct H as (fence & w5 & Hf & H).
  apply vector_at_ok_inv in Hf. destruct Hf as (-> & _ & Hf).
  rewrite bind_api in H.
  apply bind_ok_inv in H. destruct H as ([] & w6 & Hsubmit & H).
  apply VK_CHECK_ok_inv in Hsubmit. subst w6.
  cbv zeta in H. rewrite bind_api in H.
  apply bind_ok_inv in H. destruct H as (r1 & w7 & Hflag & H).
  injection H as <- <-.
  assert (E7 : m_CurrentImageIndex r1 = m_CurrentImageIndex r
               /\ calls w7
                  = (calls w1
                     ++ [VkQueueSubmit (graphicsQueue (m_VulkanContext r))
                           (current_command_buffer r) fence])
                    ++ [VkQueuePresentKHR (presentQueue (m_VulkanContext r))
                          (Swapchain.m_SwapChain (m_Swapchain r))
                          (m_CurrentImageIndex r)]).
  { destruct (_ || m_FramebufferResized r) in Hflag.
    - injection Hflag as <- <-. split; reflexivity.
    - destruct (negb _) in Hflag.
      + rewrite bind_log in Hflag. discriminate.
      + injection Hflag as <- <-. split; reflexivity. }
  destruct E7 as [Eimg E7].
  exists fence. split; [exact Hf|]. split; [exact Eimg|].
  rewrite E7, E1, <- !app_assoc. reflexivity.
Qed.

(** X30: A rendered frame has three phases, in this order: what [BeginFrame]
    asks of the driver; the recording into the command buffer of the
    slot, with the uniform-buffer traffic and whatever rendering the UI
    adds; and then exactly one end of that command buffer, one
    submission of it with the fence of the slot and one presentation of
    the acquired image.  The engine submits nothing of its own before the
    recording is complete and records nothing after; what is submitted
    and presented during the recording is what Dear ImGui does for its
    secondary windows inside its two platform-window calls, which occur
    only when the UI reaches them. *)
Theorem rendered_frame_phases_in_order :
  forall f r w r' w',
    RenderFrame f r w = (Ok (true, r'), w') ->
    exists begun recorded fence,
      nth_error (m_InFlightFences r) (Z.to_nat (m_CurrentFrameIndex r)) = Some fence
      /\ Forall begin_call begun
      /\ Forall (fun c => recording_call (current_command_buffer r) c
                          \/ (renders_platform_windows (f_ui f) = true
                              /\ platform_window_call c)) recorded
      /\ calls w'
         = calls w ++ begun ++ recorded
           ++ [VkEndCommandBuffer (current_command_buffer r);
               VkQueueSubmit (graphicsQueue (m_VulkanContext r))
                 (current_command_buffer r) fence;
               VkQueuePresentKHR (presentQueue (m_VulkanContext r))
                 (Swapchain.m_SwapChain (m_Swapchain r)) (m_CurrentImageIndex r')].
Proof.
  intros f r w r' w' H. unfold RenderFrame in H.
  apply bind_ok_inv in H. destruct H as ([began r1] & w1 & Hbegin & H).
  destruct began; [| discriminate].
  apply bind_ok_inv in H. destruct H as (r2 & w2 & Hrec & H).
  apply bind_ok_inv in H. destruct H as (r3 & w3 & Hend & H).
  injection H as <- <-.
  destruct (BeginFrame_emits _ _ _ _ _ Hbegin) as (begun & E1 & F1).
  destruct (RecordCommands_emits _ _ _ _ _ _ _ _ _ Hrec) as (recorded & E2 & F2).
  apply RecordCommands_ok_same in Hrec. subst r2.
  destruct (EndFrameAndPresent_ok_calls _ _ _ _ _ Hend) as (fence & Hf & Eimg & E3).
  apply RendererCorrect.BeginFrame_ok_inv in Hbegin.
  destruct Hbegin as (semaphore & [[_ ?] | (_ & -> & Hpool)]); [discriminate|].
  specialize (Hpool eq_refl). apply Z.eqb_neq in Hpool.
  cbn [m_CommandManager m_InFlightFences m_CurrentFrameIndex m_CurrentImageIndex
       m_VulkanContext m_Swapchain set_frame] in *.
  unfold is_null in E3. rewrite Hpool in E3.
  exists begun, recorded, fence.
  split; [exact Hf|]. split; [exact F1|]. split; [exact F2|].
  rewrite Eimg, E3, E2, E1, <- !app_assoc. reflexivity.
Qed.

Lemma rendered_frame_witness :
  exists r' w' begun recorded fence,
    RenderFrame test_frame (test_renderer false) empty_world = (Ok (true, r'), w')
    /\ nth_error (m_InFlightFences (test_renderer false))
         (Z.to_nat (m_CurrentFrameIndex (test_renderer false))) = Some fence
    /\ Forall begin_call begun
    /\ Forall (fun c => recording_call (current_command_buffer (test_renderer false)) c
                        \/ (renders_platform_windows (f_ui test_frame) = true
                            /\ platform_window_call c)) recorded
    /\ calls w'
       = calls empty_world ++ begun ++ recorded
         ++ [VkEndCommandBuffer (current_command_buffer (test_renderer false));
             VkQueueSubmit (graphicsQueue (m_VulkanContext (test_renderer false)))
               (current_command_buffer (test_renderer false)) fence;
             VkQueuePresentKHR (presentQueue (m_VulkanContext (test_renderer false)))
               (Swapchain.m_SwapChain (m_Swapchain (test_renderer false)))
               (m_CurrentImageIndex r')].
Proof.
  assert (Hrun : exists r' w',
             RenderFrame test_frame (test_renderer false) empty_world = (Ok (true, r'), w')).
  { eexists. eexists. vm_compute. reflexivity. }
  destruct Hrun as (r' & w' & Hrun).
  destruct (rendered_frame_phases_in_order test_frame (test_renderer false)
              empty_world r' w' Hrun) as (begun & recorded & fence & H).
  exists r', w', begun, recorded, fence. split; [exact Hrun | exact H].
Defined.

End RendererMore.

(** ** Construction and the renderer service *)

Module ServiceCorrect.
Import Buffer Swapchain Renderer Construction Fixtures Service.

(** *** The handles of the context never change *)

(** The device handle and the surface handle of a context. *)
Definition same_handles (c c' : VulkanContext) : Prop :=
  device c' = device c /\ surface c' = surface c.


Lemma same_handles_trans c1 c2 c3 :
  same_handles c1 c2 -> same_handles c2 c3 -> same_handles c1 c3.
Proof. intros [A B] [A' B']. split; congruence. Qed.











(** *** C8 *)



(** The constructor does return on a live context, and the renderer it
    returns has the command manager, the swapchain, the uniform buffers,
    the descriptor sets and the framebuffers of the renderer used in the
    examples. *)
Example InitVulkan_on_a_live_context :
  exists r w',
    InitVulkan good_driver live_context 800 600 empty_world = (Ok r, w')
    /\ m_CommandManager r = m_CommandManager (test_renderer false)
    /\ m_Swapchain r = m_Swapchain (test_renderer false)
    /\ m_UniformBuffers r = m_UniformBuffers (test_renderer false)
    /\ m_LightUniformBuffers r = m_LightUniformBuffers (test_renderer false)
    /\ m_FrameDescriptorSets r = m_FrameDescriptorSets (test_renderer false)
    /\ m_SwapChainFramebuffers r = m_SwapChainFramebuffers (test_renderer false)
    /\ surface (m_VulkanContext r) = surface live_context.
Proof.
  eexists. eexists. split; [vm_compute; reflexivity|].
  repeat split.
Qed.

(** Over a context without a surface, or without a device, there is no
    renderer: the constructor throws. *)
Example InitVulkan_without_a_surface :
  fst (InitVulkan good_driver surfaceless_context 800 600 empty_world)
  = Throw (runtime_error "Cannot initialize swapchain with null device or surface.")
  /\ fst (InitVulkan good_driver dummy_context 1 1 empty_world)
     = Throw (runtime_error "CommandManager requires a valid Vulkan device.").
Proof. split; vm_compute; reflexivity. Qed.

End ServiceCorrect.
